(** * COVID-19 ETL pipeline: a shallow embedding of extract / transform / load

    The development follows the three stage functions of the repository
    ([extract_data], [transform_data], [load_data]), the orchestration in
    [main.py] and the DAG that runs the stages as tasks.  Data frames are
    lists of records, Python dictionaries are finite maps, exceptions are an
    error monad, and the file system and the PostgreSQL store are explicit
    state. *)

From Stdlib Require Import ZArith String Ascii.
From Stdlib Require Import Floats.PrimFloat Numbers.Cyclic.Int63.Uint63.
From stdpp Require Import base option list strings gmap orders lexico sorting.

Local Open Scope string_scope.
Local Open Scope Z_scope.

(** ** Exceptions *)

Module Py.

(** The exceptions the three stages can meet. *)
Inductive exn :=
| ImportError
| KeyError (key : string)
| ValueError (what : string)
| EmptyDataError
| ParserError
| RequestException
| OperationalError (what : string)
| AirflowException (cause : exn).

(** A computation that returns or raises. *)
Inductive result (A : Type) :=
| Ok (a : A)
| Raise (e : exn).
Arguments Ok {A} a.
Arguments Raise {A} e.

(** What a Python function hands back to its caller: falling off the end
    of a [def] yields [None]. *)
Inductive value :=
| PyNone
| PyBool (b : bool).

(** Truth value testing, as [if not x] applies it. *)
Definition truthy (v : value) : bool :=
  match v with
  | PyNone => false
  | PyBool b => b
  end.

(** [os.path.join(dir, name)] for a relative [name]. *)
Definition path_join (dir name : string) : string := dir ++ "/" ++ name.

End Py.

(** ** Calendar dates and [pd.to_datetime(..., format='%m/%d/%y')] *)

Module Calendar.

Record date := Date { year : Z; month : Z; day : Z }.

#[global] Instance date_eq_dec : EqDecision date.
Proof. solve_decision. Defined.

Definition digit (c : ascii) : option Z :=
  let n := Z.of_nat (nat_of_ascii c) in
  if (48 <=? n) && (n <=? 57) then Some (n - 48) else None.

(** [s.split(sep)] on one separator character. *)
Fixpoint split_on (sep : ascii) (s : string) : list string :=
  match s with
  | EmptyString => [EmptyString]
  | String c rest =>
      if Ascii.eqb c sep then EmptyString :: split_on sep rest
      else match split_on sep rest with
           | [] => [String c EmptyString]
           | w :: ws => String c w :: ws
           end
  end.

Definition two_digits (a b : ascii) : option Z :=
  x ← digit a; y ← digit b; Some (10 * x + y).

(** [%m]: the alternatives 1[0-2], 0[1-9] and [1-9]. *)
Definition month_field (s : string) : option Z :=
  match s with
  | String a EmptyString =>
      x ← digit a; if 1 <=? x then Some x else None
  | String a (String b EmptyString) =>
      v ← two_digits a b; if (1 <=? v) && (v <=? 12) then Some v else None
  | _ => None
  end.

(** [%d]: 3[01], [12]\d, 0[1-9], [1-9], or a blank and [1-9]. *)
Definition day_field (s : string) : option Z :=
  match s with
  | String a EmptyString =>
      x ← digit a; if 1 <=? x then Some x else None
  | String a (String b EmptyString) =>
      if Ascii.eqb a " "%char
      then x ← digit b; if 1 <=? x then Some x else None
      else v ← two_digits a b; if (1 <=? v) && (v <=? 31) then Some v else None
  | _ => None
  end.

(** [%y]: two digits; 69..99 are the 1900s, 00..68 the 2000s. *)
Definition year_field (s : string) : option Z :=
  match s with
  | String a (String b EmptyString) =>
      v ← two_digits a b; Some (if v <=? 68 then 2000 + v else 1900 + v)
  | _ => None
  end.

Definition is_leap (y : Z) : bool :=
  (y mod 4 =? 0) && (negb (y mod 100 =? 0) || (y mod 400 =? 0)).

Definition days_in_month (y m : Z) : Z :=
  if m =? 2 then (if is_leap y then 29 else 28)
  else if (m =? 4) || (m =? 6) || (m =? 9) || (m =? 11) then 30
  else 31.

(** One header such as ["1/22/20"]; [None] is the [ValueError] of a text
    that does not match the format or names no calendar day. *)
Definition strptime_mdy (s : string) : option date :=
  match split_on "/"%char s with
  | [ms; ds; ys] =>
      m ← month_field ms;
      d ← day_field ds;
      y ← year_field ys;
      if d <=? days_in_month y m then Some (Date y m d) else None
  | _ => None
  end.

End Calendar.

(** ** Orders on text and dates

    Python compares [str] values code point by code point, and timestamps
    chronologically.  Both orders are pulled back from stdpp's lexicographic
    orders along an injection. *)

Module Order.

Section pullback.
Context {A B : Type} (f : A -> B) `{Lexico B}.
Context `{!StrictOrder (@lexico B _)} `{!TrichotomyT (@lexico B _)}.
Context `{!Inj (=) (=) f}.

Definition pull : relation A := fun x y => lexico (f x) (f y).

Definition pull_po : StrictOrder pull.
Proof.
  split.
  - intros x Hx. exact (irreflexivity lexico (f x) Hx).
  - intros x y z Hxy Hyz. unfold pull in *. by etrans.
Qed.

Definition pull_trichotomyT : TrichotomyT pull :=
  fun x y =>
    match trichotomyT lexico (f x) (f y) with
    | inleft (left lt) => inleft (left lt)
    | inleft (right e) => inleft (right (inj f x y e))
    | inright gt => inright gt
    end.

End pullback.

#[global] Instance N_of_ascii_inj : Inj (=) (=) N_of_ascii.
Proof.
  intros a b Hab. rewrite <- (ascii_N_embedding a), <- (ascii_N_embedding b).
  by rewrite Hab.
Qed.

#[global] Instance list_ascii_of_string_inj : Inj (=) (=) list_ascii_of_string.
Proof.
  intros s t Hst.
  rewrite <- (string_of_list_ascii_of_string s), <- (string_of_list_ascii_of_string t).
  by rewrite Hst.
Qed.

#[global] Instance ascii_lexico : Lexico ascii := pull N_of_ascii.
#[global] Instance ascii_lexico_po : StrictOrder (@lexico ascii _) :=
  pull_po N_of_ascii.
#[global] Instance ascii_lexico_trichotomy : TrichotomyT (@lexico ascii _) :=
  pull_trichotomyT N_of_ascii.

#[global] Instance string_lexico : Lexico string := pull list_ascii_of_string.
#[global] Instance string_lexico_po : StrictOrder (@lexico string _) :=
  pull_po list_ascii_of_string.
#[global] Instance string_lexico_trichotomy : TrichotomyT (@lexico string _) :=
  pull_trichotomyT list_ascii_of_string.

Definition ymd (d : Calendar.date) : Z * (Z * Z) :=
  (Calendar.year d, (Calendar.month d, Calendar.day d)).

#[global] Instance ymd_inj : Inj (=) (=) ymd.
Proof. intros [y1 m1 d1] [y2 m2 d2]; unfold ymd; simpl; congruence. Qed.

(** Chronological order: by year, then month, then day. *)
#[global] Instance date_lexico : Lexico Calendar.date := pull ymd.
#[global] Instance date_lexico_po : StrictOrder (@lexico Calendar.date _) :=
  pull_po ymd.
#[global] Instance date_lexico_trichotomy : TrichotomyT (@lexico Calendar.date _) :=
  pull_trichotomyT ymd.

End Order.

(** ** Data frames *)

Module Frame.
Import Calendar.

(** A cell of a counts column: an integer, or [None] for NaN (an empty
    field, or a key without a partner after a left join). *)
Abbreviation cell := (option Z).

(** The identity columns of a raw file, [id_vars] in [transform_data].
    The sub-region may be empty; the country is taken to be filled in every
    row (the schema of [load.py] has [country_region TEXT NOT NULL]). *)
Record region := Region {
  Province_State : option string;
  Country_Region : string;
  Lat : float;
  Long : float
}.

(** A raw file as [pd.read_csv] returns it, column by column: the identity
    columns row by row, then one counts column per header. *)
Record WideTable := Wide {
  id_rows : list region;
  value_vars : list (string * list cell)
}.

(** Every column of a data frame has one entry per row. *)
Definition rectangular (df : WideTable) : Prop :=
  Forall (fun col => length col.2 = length (id_rows df)) (value_vars df).

(** A row of a category's long table: identity, date, and the count under
    the category's name. *)
Record long_row := LongRow {
  l_region : region;
  l_date : date;
  l_value : cell
}.

(** A reconciled Observation, one row of [transformed_data]. *)
Record obs := Obs {
  o_province : string;
  o_country : string;
  o_lat : float;
  o_long : float;
  o_date : date;
  confirmed : cell;
  deaths : Z;
  recovered : Z;
  active : cell;
  mortality_rate : float
}.

(** One row of [country_data]. *)
Record country_row := CountryRow {
  c_country : string;
  c_date : date;
  c_confirmed : Z;
  c_deaths : Z;
  c_recovered : Z;
  c_active : Z;
  c_mortality_rate : float
}.

(** One row of [daily_data]: the Observation and its three increments. *)
Record daily_row := DailyRow {
  d_obs : obs;
  new_confirmed : Z;
  new_deaths : Z;
  new_recovered : Z
}.

(** The tables that travel through CSV files and database tables. *)
Inductive frame :=
| WideFrame (df : WideTable)
| FullFrame (rows : list obs)
| CountryFrame (rows : list country_row)
| DailyFrame (rows : list daily_row).

(** [len(df)] *)
Definition len (df : frame) : nat :=
  match df with
  | WideFrame w => length (id_rows w)
  | FullFrame rows => length rows
  | CountryFrame rows => length rows
  | DailyFrame rows => length rows
  end.

(** Conversion of an int64 count to float64; the counts stay below 2^63. *)
Definition float_of_Z (z : Z) : float :=
  match z with
  | Z0 => 0%float
  | Zpos _ => of_uint63 (Uint63.of_Z z)
  | Zneg p => (- of_uint63 (Uint63.of_Z (Zpos p)))%float
  end.

End Frame.

(** ** Files and the world the stages act on *)

Module World.
Import Calendar Frame.

(** Records of the [logging] module at WARNING and ERROR level (the INFO
    records are left out). *)
Inductive log_record :=
| WARNING (msg : string)
| ERROR (msg : string)
| ERROR_exn (msg : string) (e : Py.exn).

(** One line of [pipeline_metadata.txt]. *)
Inductive run_entry :=
| StatusSuccess
| StatusFailed (e : Py.exn).

(** What a path can hold.  A CSV file is kept as the table it was written
    from ([to_csv] followed by [read_csv] gives the table back); the
    metadata files keep their facts. *)
Inductive file :=
| EmptyFile
| NotTabular
| Csv (df : frame)
| ExtractionMetadata (timestamp : string) (successful total : nat)
| TransformationMetadata (timestamp : string) (records countries : nat)
    (date_range : option (date * date))
| PipelineMetadata (entries : list run_entry).

(** [os.path.getsize(path) > 0] *)
Definition nonempty (f : file) : bool :=
  match f with
  | EmptyFile => false
  | _ => true
  end.

(** [pd.read_csv(path)] on an existing file.  The metadata files are never
    read back by the pipeline. *)
Definition read_csv (f : file) : Py.result frame :=
  match f with
  | EmptyFile => Py.Raise Py.EmptyDataError
  | Csv df => Py.Ok df
  | _ => Py.Raise Py.ParserError
  end.

(** A row of the audit table [etl_metadata]; [details] is the number in
    ['Total rows loaded: ...']. *)
Record audit_row := AuditRow {
  operation : string;
  timestamp : string;
  details : nat
}.

(** The requests a load run sends to the store. *)
Inductive step :=
| GetConn
| CreateTableIfNotExists (table : string)
| GetEngine
| DropTable (table : string)
| ToSql (table : string)
| CountRows (table : string)
| CreateView (view : string)
| CreateIndex (index : string)
| TableExists (table : string)
| InsertMetadata
| Commit
| Rollback.

#[global] Instance step_eq_dec : EqDecision step.
Proof. solve_decision. Defined.

(** The PostgreSQL store.  [tables], [etl_metadata], [views] and [indexes]
    are the committed relations, which every session sees.  [conn] is the
    session [load_data] opens with [autocommit = False]: the tables its open
    transaction has created, invisible to other sessions until it commits.
    [history] lists the requests the store has carried out, oldest first. *)
Record database := Database {
  tables : gmap string frame;
  etl_metadata : option (list audit_row);
  views : gmap string string;
  indexes : gmap string string;
  conn : option (list string);
  history : list step
}.

Record world := World {
  files : gmap string file;
  db : database;
  logged : list log_record
}.

(** What a run meets from outside: the outcome of [from scripts import
    CONFIG] ([None]: [ImportError]), the clock, the answer of the remote
    host to a URL ([None]: a [RequestException]), which requests to the
    store fail, and [run_data_quality_checks], which [main.py] calls and no
    module of the repository defines. *)
Record env := Env {
  scripts_CONFIG : option (gmap string string);
  now : string;
  requests_get : string -> option file;
  fails : step -> bool;
  run_data_quality_checks : bool
}.

(** A stage: it reads and changes the world, and returns or raises. *)
Definition M (A : Type) : Type := world -> Py.result A * world.

#[global] Instance M_ret : MRet M := fun A a w => (Py.Ok a, w).

#[global] Instance M_bind : MBind M := fun A B k m w =>
  match m w with
  | (Py.Ok a, w') => k a w'
  | (Py.Raise e, w') => (Py.Raise e, w')
  end.

Definition raise {A} (e : Py.exn) : M A := fun w => (Py.Raise e, w).

Definition lift {A} (r : Py.result A) : M A := fun w => (r, w).

(** [try: body / except Exception as e: handler(e)] *)
Definition try_except {A} (body : M A) (handler : Py.exn -> M A) : M A :=
  fun w =>
    match body w with
    | (Py.Ok a, w') => (Py.Ok a, w')
    | (Py.Raise e, w') => handler e w'
    end.

Definition gets {A} (f : world -> A) : M A := fun w => (Py.Ok (f w), w).

Definition modify (f : world -> world) : M unit := fun w => (Py.Ok tt, f w).

Definition logger (r : log_record) : M unit :=
  modify (fun w => World (files w) (db w) (logged w ++ [r])).

(** [with open(path, 'w') as f: ...] and the [to_csv] of a table. *)
Definition write_file (path : string) (content : file) : M unit :=
  modify (fun w => World (<[path := content]> (files w)) (db w) (logged w)).

Definition update_db (f : database -> database) : M unit :=
  modify (fun w => World (files w) (f (db w)) (logged w)).

(** [config[key]] *)
Definition getitem (config : gmap string string) (key : string) : M string :=
  match config !! key with
  | Some v => mret v
  | None => raise (Py.KeyError key)
  end.

(** The first lines of every stage: the configuration passed in, or else
    the one of the package. *)
Definition config_or_import (e : env) (config : option (gmap string string))
  : option (gmap string string) :=
  match config with
  | Some c => Some c
  | None => scripts_CONFIG e
  end.

(** A loop that threads an accumulator through the items of a list. *)
Fixpoint for_each {A B} (body : B -> A -> M B) (acc : B) (items : list A) : M B :=
  match items with
  | [] => mret acc
  | x :: rest => acc' ← body acc x; for_each body acc' rest
  end.

End World.

(** ** The transform stage, step by step *)

Module Transform.
Import Calendar Order Frame World.

(** *** Step 1: wide to long *)

(** [pd.melt(df, id_vars=id_vars, var_name='date', value_name=category)]:
    the counts columns one after the other, each against all rows. *)
Definition melt (df : WideTable) : list (region * string * cell) :=
  flat_map (fun col => zip_with (fun r v => (r, col.1, v)) (id_rows df) col.2)
           (value_vars df).

(** [pd.to_datetime(df_long['date'], format='%m/%d/%y')]: every entry of
    the column is parsed, one failure raises. *)
Definition to_datetime (rows : list (region * string * cell))
  : Py.result (list long_row) :=
  match mapM (fun row : region * string * cell =>
                d ← strptime_mdy row.1.2; Some (LongRow row.1.1 d row.2)) rows with
  | Some df_long => Py.Ok df_long
  | None => Py.Raise (Py.ValueError "time data does not match format '%m/%d/%y'")
  end.

(** The body of the loop of step 1 for a file that was read.  A table
    without the identity columns makes [melt] raise. *)
Definition reshape (df : frame) : Py.result (list long_row) :=
  match df with
  | WideFrame w => to_datetime (melt w)
  | _ => Py.Raise (Py.KeyError "Province/State")
  end.

(** *** Step 2: merge *)

(** The columns of [on=['Province/State', 'Country/Region', 'date']]. *)
Definition join_key (r : long_row) : option string * string * date :=
  (Province_State (l_region r), Country_Region (l_region r), l_date r).

(** [pd.merge(left, right[[keys, value]], on=keys, how='left')]: the rows
    of the left frame in their order, each once per partner in the right
    frame (in its order), or once with NaN when it has none. *)
Definition merge_left {A} (key : A -> option string * string * date)
    (left_df : list A) (right_df : list long_row) : list (A * cell) :=
  flat_map (fun a =>
              match filter (fun r => join_key r = key a) right_df with
              | [] => [(a, None)]
              | partners => map (fun r => (a, l_value r)) partners
              end) left_df.

(** One of the two [if category in datasets: merge / else: column of 0]. *)
Definition add_category {A} (datasets : gmap string (list long_row))
    (category : string) (key : A -> option string * string * date)
    (left_df : list A) : list (A * cell) :=
  match datasets !! category with
  | Some right_df => merge_left key left_df right_df
  | None => map (fun a => (a, Some 0)) left_df
  end.

(** *** Step 3: fill and derive *)

(** [np.where(confirmed > 0, deaths / confirmed * 100, 0)]; a comparison
    with NaN is false. *)
Definition mortality (confirmed : cell) (deaths : Z) : float :=
  match confirmed with
  | Some c =>
      if 0 <? c then (float_of_Z deaths / float_of_Z c * 100)%float
      else 0%float
  | None => 0%float
  end.

(** [fillna] of the three columns, then [active] and [mortality_rate]. *)
Definition reconcile_row (row : long_row * cell * cell) : obs :=
  let c := row.1.1 in
  let deaths := default 0 row.1.2 in
  let recovered := default 0 row.2 in
  {| o_province := default "Unknown" (Province_State (l_region c));
     o_country := Country_Region (l_region c);
     o_lat := Lat (l_region c);
     o_long := Long (l_region c);
     o_date := l_date c;
     confirmed := l_value c;
     deaths := deaths;
     recovered := recovered;
     active := (fun x => x - deaths - recovered) <$> l_value c;
     mortality_rate := mortality (l_value c) deaths |}.

(** [transformed_data] from the confirmed backbone. *)
Definition reconcile (datasets : gmap string (list long_row))
    (backbone : list long_row) : list obs :=
  map reconcile_row
    (add_category datasets "recovered" (fun a => join_key a.1)
       (add_category datasets "deaths" join_key backbone)).

(** *** Step 5: country level *)

Record sums := Sums {
  s_confirmed : Z;
  s_deaths : Z;
  s_recovered : Z;
  s_active : Z
}.

(** ['sum'] skips NaN. *)
Definition add_obs (s : sums) (o : obs) : sums :=
  {| s_confirmed := s_confirmed s + default 0 (confirmed o);
     s_deaths := s_deaths s + deaths o;
     s_recovered := s_recovered s + recovered o;
     s_active := s_active s + default 0 (active o) |}.

Definition country_key (o : obs) : string * date := (o_country o, o_date o).

(** One row enters the groups, which are kept in key order. *)
Fixpoint group_add (o : obs) (groups : list (string * date * sums))
  : list (string * date * sums) :=
  match groups with
  | [] => [(country_key o, add_obs (Sums 0 0 0 0) o)]
  | g :: rest =>
      if decide (country_key o = g.1) then (g.1, add_obs g.2 o) :: rest
      else if decide (lexico (country_key o) g.1)
           then (country_key o, add_obs (Sums 0 0 0 0) o) :: groups
           else g :: group_add o rest
  end.

(** [groupby(['Country/Region', 'date']).agg('sum').reset_index()], then
    the country-level [mortality_rate]. *)
Definition country_level (g : string * date * sums) : country_row :=
  {| c_country := g.1.1;
     c_date := g.1.2;
     c_confirmed := s_confirmed g.2;
     c_deaths := s_deaths g.2;
     c_recovered := s_recovered g.2;
     c_active := s_active g.2;
     c_mortality_rate := mortality (Some (s_confirmed g.2)) (s_deaths g.2) |}.

Definition groupby_sum (rows : list obs) : list (string * date * sums) :=
  foldl (fun groups o => group_add o groups) [] rows.

Definition country_data (transformed_data : list obs) : list country_row :=
  map country_level (groupby_sum transformed_data).

(** *** Step 6: daily changes *)

Definition sort_key (o : obs) : string * (string * date) :=
  (o_country o, (o_province o, o_date o)).

(** A row takes its place before the first row that does not sort
    strictly before it, so rows with equal keys keep their order. *)
Fixpoint insert_row (o : obs) (sorted : list obs) : list obs :=
  match sorted with
  | [] => [o]
  | p :: rest =>
      if decide (lexico (sort_key p) (sort_key o))
      then p :: insert_row o rest
      else o :: sorted
  end.

(** [sort_values(['Country/Region', 'Province/State', 'date'])] *)
Definition sort_values (rows : list obs) : list obs :=
  foldr insert_row [] rows.

Definition series_key (o : obs) : string * string := (o_country o, o_province o).

(** [diff().fillna(0)] then [clip(lower=0)] of one column for one row,
    given the row before it in its group, if any. *)
Definition new_count (current : cell) (previous : option cell) : Z :=
  let diff := prev ← previous; a ← current; b ← prev; Some (a - b) in
  Z.max 0 (default 0 diff).

(** [groupby(['Country/Region', 'Province/State'])[col].diff()] for the
    three columns: [last] holds the latest row seen of every group. *)
Fixpoint group_diff (last : gmap (string * string) obs) (rows : list obs)
  : list daily_row :=
  match rows with
  | [] => []
  | o :: rest =>
      let prev := last !! series_key o in
      {| d_obs := o;
         new_confirmed := new_count (confirmed o) (confirmed <$> prev);
         new_deaths := new_count (Some (deaths o)) (Some ∘ deaths <$> prev);
         new_recovered := new_count (Some (recovered o)) (Some ∘ recovered <$> prev) |}
      :: group_diff (<[series_key o := o]> last) rest
  end.

Definition daily_data (transformed_data : list obs) : list daily_row :=
  group_diff ∅ (sort_values transformed_data).

(** *** The stage *)

Definition categories : list string := ["confirmed"; "deaths"; "recovered"].

(** The loop of step 1: a category without a file is skipped with a
    warning; a file that is there is read and reshaped. *)
Fixpoint read_datasets (raw_dir : string) (todo : list string)
    (datasets : gmap string (list long_row)) : M (gmap string (list long_row)) :=
  match todo with
  | [] => mret datasets
  | category :: rest =>
      let file_path := Py.path_join raw_dir (category ++ ".csv") in
      f ← gets (fun w => files w !! file_path);
      match f with
      | None =>
          logger (WARNING ("Raw data file not found: " ++ file_path));;
          read_datasets raw_dir rest datasets
      | Some content =>
          df ← lift (read_csv content);
          df_long ← lift (reshape df);
          read_datasets raw_dir rest (<[category := df_long]> datasets)
      end
  end.

(** [transformed_data['Country/Region'].nunique()] *)
Definition nunique (rows : list obs) : nat :=
  length (remove_dups (map o_country rows)).

(** [min()] and [max()] of the date column; an empty column has neither. *)
Definition date_range (rows : list obs) : option (date * date) :=
  match rows with
  | [] => None
  | o :: rest =>
      Some (foldl (fun lo r => if decide (lexico (o_date r) lo) then o_date r else lo)
                  (o_date o) rest,
            foldl (fun hi r => if decide (lexico hi (o_date r)) then o_date r else hi)
                  (o_date o) rest)
  end.

Definition transform_data (e : env) (config : option (gmap string string)) : M bool :=
  try_except
    (match config_or_import e config with
     | None =>
         logger (ERROR "No config provided and couldn't import CONFIG");;
         mret false
     | Some config =>
         raw_dir ← getitem config "raw_data_path";
         processed_dir ← getitem config "processed_data_path";
         datasets ← read_datasets raw_dir categories ∅;
         match datasets !! "confirmed" with
         | None =>
             logger (ERROR "Required 'confirmed' dataset missing");;
             mret false
         | Some backbone =>
             let transformed_data := reconcile datasets backbone in
             write_file (Py.path_join processed_dir "covid_data_transformed.csv")
                        (Csv (FullFrame transformed_data));;
             write_file (Py.path_join processed_dir "covid_data_by_country.csv")
                        (Csv (CountryFrame (country_data transformed_data)));;
             let sorted := sort_values transformed_data in
             write_file (Py.path_join processed_dir "covid_daily_changes.csv")
                        (Csv (DailyFrame (group_diff ∅ sorted)));;
             write_file (Py.path_join processed_dir "transformation_metadata.txt")
                        (TransformationMetadata (now e) (length sorted)
                           (nunique sorted) (date_range sorted));;
             mret true
         end
     end)
    (fun ex =>
       logger (ERROR_exn "Error during data transformation" ex);;
       mret false).

End Transform.

(** ** The extract stage *)

Module Extract.
Import Frame World.

Definition URLS : list (string * string) :=
  [("confirmed", "https://raw.githubusercontent.com/CSSEGISandData/COVID-19/master/csse_covid_19_data/csse_covid_19_time_series/time_series_covid19_confirmed_global.csv");
   ("deaths", "https://raw.githubusercontent.com/CSSEGISandData/COVID-19/master/csse_covid_19_data/csse_covid_19_time_series/time_series_covid19_deaths_global.csv");
   ("recovered", "https://raw.githubusercontent.com/CSSEGISandData/COVID-19/master/csse_covid_19_data/csse_covid_19_time_series/time_series_covid19_recovered_global.csv")].

(** [requests.get(url, timeout=30)] and [raise_for_status()] *)
Definition get (e : env) (url : string) : M file :=
  match requests_get e url with
  | Some content => mret content
  | None => raise Py.RequestException
  end.

(** The body of the download loop: the response is written to the file
    first and checked afterwards. *)
Definition download (e : env) (raw_dir : string) (successful_downloads : nat)
    (item : string * string) : M nat :=
  let output_file := Py.path_join raw_dir (item.1 ++ ".csv") in
  try_except
    (content ← get e item.2;
     write_file output_file content;;
     if nonempty content then
       df ← lift (read_csv content);
       mret (S successful_downloads)
     else
       logger (ERROR ("Downloaded file " ++ output_file ++ " is empty"));;
       mret successful_downloads)
    (fun ex =>
       match ex with
       | Py.RequestException =>
           logger (ERROR_exn ("HTTP error downloading " ++ item.1 ++ " data") ex)
       | _ =>
           logger (ERROR_exn ("Error processing " ++ item.1 ++ " data") ex)
       end;;
       mret successful_downloads).

(** The function ends after the metadata file is written: there is no
    [return] on that path. *)
Definition extract_data (e : env) (config : option (gmap string string))
  : M Py.value :=
  match config_or_import e config with
  | None =>
      logger (ERROR "No config provided and couldn't import CONFIG");;
      mret (Py.PyBool false)
  | Some config =>
      raw_dir ← getitem config "raw_data_path";
      successful_downloads ← for_each (download e raw_dir) 0%nat URLS;
      write_file (Py.path_join raw_dir "extraction_metadata.txt")
                 (ExtractionMetadata (now e) successful_downloads (length URLS));;
      mret Py.PyNone
  end.

End Extract.

(** ** The load stage *)

Module Load.
Import Frame World.

(** A request to the store goes through unless the store fails it. *)
Definition request (e : env) (s : step) : M unit :=
  if fails e s then raise (Py.OperationalError "the store failed the request")
  else update_db (fun d =>
         Database (tables d) (etl_metadata d) (views d) (indexes d) (conn d)
                  (history d ++ [s])).

(** [pg_hook.get_conn()] with [conn.autocommit = False]: a session with an
    open transaction. *)
Definition get_conn (e : env) : M unit :=
  request e GetConn;;
  update_db (fun d =>
    Database (tables d) (etl_metadata d) (views d) (indexes d) (Some []) (history d)).

(** A table as a session sees it. *)
Definition committed (d : database) (table : string) : bool :=
  if decide (table = "etl_metadata") then bool_decide (is_Some (etl_metadata d))
  else bool_decide (is_Some (tables d !! table)).

(** [cursor.execute("CREATE TABLE IF NOT EXISTS ...")] on [conn]: a table
    that is missing is created inside the open transaction. *)
Definition create_table_if_not_exists (e : env) (table : string) : M unit :=
  request e (CreateTableIfNotExists table);;
  update_db (fun d =>
    match conn d with
    | Some created =>
        if committed d table || bool_decide (table ∈ created) then d
        else Database (tables d) (etl_metadata d) (views d) (indexes d)
                      (Some (created ++ [table])%list) (history d)
    | None => d
    end).

Definition create_database_schema (e : env) : M unit :=
  try_except
    (create_table_if_not_exists e "etl_metadata";;
     create_table_if_not_exists e "full_data";;
     create_table_if_not_exists e "country_summary";;
     create_table_if_not_exists e "daily_changes")
    (fun ex =>
       logger (ERROR_exn "Error creating database schema" ex);;
       raise ex).

(** The table the DDL of [create_database_schema] gives a name: no rows. *)
Definition empty_table (table : string) : frame :=
  if decide (table = "country_summary") then CountryFrame []
  else if decide (table = "daily_changes") then DailyFrame []
  else FullFrame [].

(** [conn.commit()]: what the transaction created becomes visible. *)
Definition commit_table (d : database) (table : string) : database :=
  if decide (table = "etl_metadata") then
    Database (tables d) (Some (default [] (etl_metadata d))) (views d)
             (indexes d) (conn d) (history d)
  else
    match tables d !! table with
    | Some _ => d
    | None => Database (<[table := empty_table table]> (tables d))
                       (etl_metadata d) (views d) (indexes d) (conn d) (history d)
    end.

Definition conn_commit (e : env) : M unit :=
  request e Commit;;
  update_db (fun d =>
    let d' := foldl commit_table d (default [] (conn d)) in
    Database (tables d') (etl_metadata d') (views d') (indexes d')
             (Some []) (history d')).

(** [conn.rollback()]: what the transaction created is dropped. *)
Definition conn_rollback (e : env) : M unit :=
  request e Rollback;;
  update_db (fun d =>
    Database (tables d) (etl_metadata d) (views d) (indexes d) (Some []) (history d)).

Definition conn_close : M unit :=
  update_db (fun d =>
    Database (tables d) (etl_metadata d) (views d) (indexes d) None (history d)).

(** [pg_hook.run(sql)], [df.to_sql(..., engine)] and [pg_hook.get_records]
    work on a session of their own, whose transaction is committed when the
    call returns: their effect lands in the committed relations at once.
    The waits of one session on another are not part of the picture. *)

(** [pg_hook.run("DROP TABLE IF EXISTS ... CASCADE")]: the table goes, and
    with it the views and indexes on it. *)
Definition drop_table_cascade (e : env) (table : string) : M unit :=
  request e (DropTable table);;
  update_db (fun d =>
    Database (delete table (tables d)) (etl_metadata d)
             (filter (fun kv => kv.2 <> table) (views d))
             (filter (fun kv => kv.2 <> table) (indexes d))
             (conn d) (history d)).

(** [df.to_sql(table_name, engine, if_exists='replace', index=False)] *)
Definition to_sql (e : env) (table : string) (df : frame) : M unit :=
  request e (ToSql table);;
  update_db (fun d =>
    Database (<[table := df]> (tables d)) (etl_metadata d) (views d)
             (indexes d) (conn d) (history d)).

(** [pg_hook.get_records("SELECT COUNT( * ) FROM ...")[0][0]] *)
Definition count_rows (e : env) (table : string) : M nat :=
  request e (CountRows table);;
  t ← gets (fun w => tables (db w) !! table);
  match t with
  | Some df => mret (len df)
  | None => raise (Py.OperationalError "relation does not exist")
  end.

(** [CREATE OR REPLACE VIEW view AS SELECT ... FROM table] *)
Definition create_or_replace_view (e : env) (view table : string) : M unit :=
  request e (CreateView view);;
  t ← gets (fun w => tables (db w) !! table);
  match t with
  | Some _ =>
      update_db (fun d =>
        Database (tables d) (etl_metadata d) (<[view := table]> (views d))
                 (indexes d) (conn d) (history d))
  | None => raise (Py.OperationalError "relation does not exist")
  end.

(** [CREATE INDEX IF NOT EXISTS index ON table(...)] *)
Definition create_index_if_not_exists (e : env) (index table : string) : M unit :=
  request e (CreateIndex index);;
  t ← gets (fun w => tables (db w) !! table);
  match t with
  | Some _ =>
      update_db (fun d =>
        Database (tables d) (etl_metadata d) (views d)
                 (<[index := table]> (indexes d)) (conn d) (history d))
  | None => raise (Py.OperationalError "relation does not exist")
  end.

Definition create_analytical_views (e : env) : M unit :=
  try_except
    (create_or_replace_view e "vw_latest_global_summary" "country_summary";;
     create_or_replace_view e "vw_top_countries" "country_summary";;
     create_or_replace_view e "vw_global_daily" "daily_changes")
    (fun ex =>
       logger (ERROR_exn "Error creating analytical views" ex);;
       raise ex).

Definition create_indexes (e : env) : M unit :=
  try_except
    (create_index_if_not_exists e "idx_full_country" "full_data";;
     create_index_if_not_exists e "idx_full_date" "full_data";;
     create_index_if_not_exists e "idx_summary_date" "country_summary";;
     create_index_if_not_exists e "idx_changes_country" "daily_changes";;
     create_index_if_not_exists e "idx_changes_date" "daily_changes")
    (fun ex =>
       logger (ERROR_exn "Error creating database indexes" ex);;
       raise ex).

(** The query on [information_schema.tables], which also lists views; a
    failure of the query is logged and answered with [False]. *)
Definition check_if_table_exists (e : env) (table_name : string) : M bool :=
  try_except
    (request e (TableExists table_name);;
     gets (fun w => committed (db w) table_name
                    || bool_decide (is_Some (views (db w) !! table_name))))
    (fun ex =>
       logger (ERROR_exn ("Error checking if table " ++ table_name ++ " exists") ex);;
       mret false).

(** [INSERT INTO etl_metadata (operation, timestamp, details) VALUES ...] *)
Definition insert_metadata (e : env) (row : audit_row) : M unit :=
  request e InsertMetadata;;
  rows ← gets (fun w => etl_metadata (db w));
  match rows with
  | Some rows =>
      update_db (fun d =>
        Database (tables d) (Some (rows ++ [row])%list) (views d) (indexes d)
                 (conn d) (history d))
  | None => raise (Py.OperationalError "relation does not exist")
  end.

Definition files_to_load : list (string * string) :=
  [("covid_data_transformed.csv", "full_data");
   ("covid_data_by_country.csv", "country_summary");
   ("covid_daily_changes.csv", "daily_changes")].

(** The body of the loop over [files_to_load].  Renaming the columns and
    rewriting the dates as text leave the rows as they are. *)
Definition load_file (e : env) (processed_dir : string) (rows_loaded : nat)
    (item : string * string) : M nat :=
  let file_path := Py.path_join processed_dir item.1 in
  f ← gets (fun w => files w !! file_path);
  match f with
  | None =>
      logger (WARNING ("Processed data file not found: " ++ file_path));;
      mret rows_loaded
  | Some content =>
      df ← lift (read_csv content);
      drop_table_cascade e item.2;;
      to_sql e item.2 df;;
      count ← count_rows e item.2;
      mret (rows_loaded + count)%nat
  end.

Definition load_data (e : env) (config : option (gmap string string)) : M bool :=
  try_except
    (match config_or_import e config with
     | None =>
         logger (ERROR "No config provided and couldn't import CONFIG");;
         mret false
     | Some config =>
         processed_dir ← getitem config "processed_data_path";
         conn_id ← getitem config "postgres_conn_id";
         get_conn e;;
         create_database_schema e;;
         request e GetEngine;;
         rows_loaded ← for_each (load_file e processed_dir) 0%nat files_to_load;
         create_analytical_views e;;
         create_indexes e;;
         present ← check_if_table_exists e "etl_metadata";
         (if present : bool
          then insert_metadata e (AuditRow "load" (now e) rows_loaded)
          else logger (WARNING "etl_metadata table does not exist. Skipping metadata insertion."));;
         conn_commit e;;
         conn_close;;
         mret true
     end)
    (fun ex =>
       logger (ERROR_exn "Error during data loading" ex);;
       open ← gets (fun w => bool_decide (is_Some (conn (db w))));
       (if open : bool then conn_rollback e;; conn_close else mret tt);;
       raise (Py.AirflowException ex)).

End Load.

(** ** Orchestration *)

Module Main.
Import Frame World.

(** The configuration of the package, [scripts/__init__.py]. *)
Definition scripts_package_CONFIG : gmap string string :=
  {[ "raw_data_path" := "/opt/airflow/data/raw";
     "processed_data_path" := "/opt/airflow/data/processed";
     "database_path" := "covid_analytics.db";
     "log_level" := "INFO" ]}.

(** The configuration the DAG passes to the three tasks. *)
Definition dag_CONFIG : gmap string string :=
  {[ "raw_data_path" := "/opt/airflow/data/raw";
     "processed_data_path" := "/opt/airflow/data/processed";
     "log_file" := "/opt/airflow/pipeline.log";
     "postgres_conn_id" := "covid_data" ]}.

(** [with open("pipeline_metadata.txt", "a") as f: f.write(...)] *)
Definition append_run_entry (entry : run_entry) : M unit :=
  f ← gets (fun w => files w !! "pipeline_metadata.txt");
  write_file "pipeline_metadata.txt"
    (PipelineMetadata
       (match f with
        | Some (PipelineMetadata entries) => entries
        | _ => []
        end ++ [entry])%list).

Definition run_pipeline (e : env) : M bool :=
  try_except
    (extract_success ← Extract.extract_data e None;
     if negb (Py.truthy extract_success) then
       logger (ERROR "Extraction failed - stopping pipeline");;
       mret false
     else
       transform_success ← Transform.transform_data e None;
       if negb transform_success then
         logger (ERROR "Transformation failed - stopping pipeline");;
         mret false
       else
         load_success ← Load.load_data e None;
         if negb load_success then
           logger (ERROR "Loading failed - stopping pipeline");;
           mret false
         else
           (if run_data_quality_checks e then mret tt
            else logger (WARNING "Data quality issues detected - review logs"));;
           append_run_entry StatusSuccess;;
           mret true)
    (fun ex =>
       logger (ERROR_exn "Pipeline failed with error" ex);;
       append_run_entry (StatusFailed ex);;
       mret false).

End Main.

(** ** Notions the properties are stated with *)

Module Notions.
Import Calendar Order Frame World Transform Load.

(** The sum of a column over rows. *)
Definition total (f : obs -> Z) (rows : list obs) : Z :=
  foldr (fun o acc => f o + acc) 0 rows.

(** The groups are kept with strictly ascending keys. *)
Definition ascending (groups : list (string * date * sums)) : Prop :=
  StronglySorted lexico (map fst groups).

(** The sums kept for a key, if the key has a group. *)
Fixpoint find_group (k : string * date) (groups : list (string * date * sums))
  : option sums :=
  match groups with
  | [] => None
  | g :: rest => if decide (k = g.1) then Some g.2 else find_group k rest
  end.

(** What a reconciled row takes over from the confirmed side. *)
Definition taken_from (c : long_row) (o : obs) : Prop :=
  o_province o = default "Unknown" (Province_State (l_region c))
  /\ o_country o = Country_Region (l_region c)
  /\ o_date o = l_date c
  /\ o_lat o = Lat (l_region c)
  /\ o_long o = Long (l_region c)
  /\ confirmed o = l_value c.

(** The rows of the reconciled output for the region and date of a
    confirmed row. *)
Definition rows_for (c : long_row) (out : list obs) : list obs :=
  filter (fun o => (o_country o, o_province o, o_date o)
                   = (Country_Region (l_region c),
                      default "Unknown" (Province_State (l_region c)),
                      l_date c)) out.

(** [a] does not sort after [b]. *)
Definition key_le (a b : obs) : Prop := ~ lexico (sort_key b) (sort_key a).

(** The date of [a] is not after the date of [b]. *)
Definition date_le (a b : obs) : Prop := ~ lexico (o_date b) (o_date a).

#[global] Instance key_le_trans : Transitive key_le.
Proof.
  intros a b c Hab Hbc Hca. unfold key_le in *.
  destruct (trichotomyT lexico (sort_key a) (sort_key b)) as [[Hlt|Heq]|Hgt].
  - apply Hbc. by etrans.
  - apply Hbc. by rewrite <- Heq.
  - by apply Hab.
Qed.

(** The increments of a row, given the row before it in its series. *)
Definition increments_after (prev : option obs) (r : daily_row) : Prop :=
  new_confirmed r = new_count (confirmed (d_obs r)) (confirmed <$> prev)
  /\ new_deaths r = new_count (Some (deaths (d_obs r))) (Some ∘ deaths <$> prev)
  /\ new_recovered r
     = new_count (Some (recovered (d_obs r))) (Some ∘ recovered <$> prev).

(** The last [k] characters of a file name, last first. *)
Definition tail (k : nat) (name : string) : list ascii :=
  take k (reverse (list_ascii_of_string ("/" ++ name))).

(** The three tables [transform_data] computes from the datasets. *)
Definition outputs (datasets : gmap string (list long_row))
  : option (file * file * file) :=
  backbone ← datasets !! "confirmed";
  Some (Csv (FullFrame (reconcile datasets backbone)),
        Csv (CountryFrame (country_data (reconcile datasets backbone))),
        Csv (DailyFrame (daily_data (reconcile datasets backbone)))).

(** [m] relates the world it starts in to the world it leaves, whether
    it returns or raises. *)
Definition respects {A} (R : relation world) (m : M A) : Prop :=
  forall w r w', m w = (r, w') -> R w w'.

(** [m], started where [I] holds, returns a value with [Q] and leaves a
    world where [I] holds. *)
Definition succeeds {A} (I : world -> Prop) (m : M A) (Q : A -> Prop) : Prop :=
  forall w, I w -> exists a w', m w = (Py.Ok a, w') /\ I w' /\ Q a.

(** The stages below never touch more than these parts of the world. *)
Definition same_files : relation world := fun w w' => files w' = files w.
Definition same_db : relation world := fun w w' => db w' = db w.
Definition log_grows : relation world := fun w w' =>
  exists more, logged w' = (logged w ++ more)%list.

#[global] Instance same_files_po : PreOrder same_files.
Proof. split; [done|]. intros w1 w2 w3 H12 H23. unfold same_files in *. congruence. Qed.

#[global] Instance same_db_po : PreOrder same_db.
Proof. split; [done|]. intros w1 w2 w3 H12 H23. unfold same_db in *. congruence. Qed.

#[global] Instance log_grows_po : PreOrder log_grows.
Proof.
  split.
  - intros w. exists []. by rewrite app_nil_r.
  - intros w1 w2 w3 [m12 H12] [m23 H23]. exists (m12 ++ m23)%list.
    by rewrite H23, H12, <- app_assoc.
Qed.

(** The files stay and the log only grows. *)
Definition quiet : relation world := fun w w' =>
  files w' = files w /\ log_grows w w'.

#[global] Instance quiet_po : PreOrder quiet.
Proof.
  split.
  - intros w. split; [done|reflexivity].
  - intros w1 w2 w3 [Hf12 Hl12] [Hf23 Hl23]. split; [congruence|by etrans].
Qed.

(** From [w] to [w'] no request dropped or reloaded table [t], and the
    table is as it was, or was missing and now exists without rows. *)
Definition kept (t : string) : relation world := fun w w' =>
  (exists new, history (db w') = (history (db w) ++ new)%list
               /\ (DropTable t ∉ new) /\ (ToSql t ∉ new))
  /\ (tables (db w') !! t = tables (db w) !! t
      \/ (tables (db w) !! t = None
          /\ tables (db w') !! t = Some (empty_table t))).

#[global] Instance kept_po t : PreOrder (kept t).
Proof.
  split.
  - intros w. split; [|by left].
    exists []. rewrite app_nil_r. repeat split; apply not_elem_of_nil.
  - intros w1 w2 w3 [(n12 & Hh12 & Hd12 & Hs12) Ht12] [(n23 & Hh23 & Hd23 & Hs23) Ht23].
    split.
    + exists (n12 ++ n23)%list. rewrite Hh23, Hh12, <- app_assoc.
      repeat split; rewrite elem_of_app; tauto.
    + destruct Ht12 as [H12|[H1 H2]], Ht23 as [H23|[H2' H3]].
      * left. congruence.
      * right. split; [congruence|done].
      * right. split; [done|congruence].
      * congruence.
Qed.

(** What follows the loop over the files in [load_data]. *)
Definition after_loop (e : env) (rows_loaded : nat) : M bool :=
  create_analytical_views e;;
  create_indexes e;;
  present ← check_if_table_exists e "etl_metadata";
  (if present : bool
   then insert_metadata e (AuditRow "load" (now e) rows_loaded)
   else logger (WARNING "etl_metadata table does not exist. Skipping metadata insertion."));;
  conn_commit e;;
  conn_close;;
  mret true.

(** The files are the given ones and the four tables exist. *)
Definition ready (fs : gmap string file) (w : world) : Prop :=
  files w = fs
  /\ (forall item, item ∈ files_to_load -> is_Some (tables (db w) !! item.2))
  /\ is_Some (etl_metadata (db w)).

End Notions.

(** ** Sample data *)

Module Samples.
Import Calendar Order Frame World Transform Notions.

(** Two regions on three dates, in the layout of the JHU files. *)
Definition jhu_sample : WideTable :=
  Wide [Region None "Afghanistan" 33.5%float 67.75%float;
        Region (Some "Hubei") "China" 30.5%float 112.25%float]
       [("1/22/20", [Some 0; Some 444]);
        ("1/23/20", [Some 0; Some 444]);
        ("1/24/20", [Some 0; Some 549])].

(** One region on one date, in the three categories. *)
Definition hubei : region := Region (Some "Hubei") "China" 30.5%float 112.25%float.

Definition confirmed_hubei : list long_row :=
  [LongRow hubei (Date 2020 1 22) (Some 444)].

(** A deaths table that lists the region twice. *)
Definition deaths_hubei_twice : list long_row :=
  [LongRow hubei (Date 2020 1 22) (Some 17);
   LongRow hubei (Date 2020 1 22) (Some 18)].

Definition deaths_hubei : list long_row :=
  [LongRow hubei (Date 2020 1 22) (Some 17)].

(** A remote host that answers every URL with the same small table. *)
Definition all_downloads_succeed : env :=
  Env (Some Main.scripts_package_CONFIG) "2026-01-01T00:00:00"
      (fun _ => Some (Csv (WideFrame jhu_sample))) (fun _ => false) true.

(** Nothing on disk, nothing in the store, nothing logged. *)
Definition empty_world : world :=
  World ∅ (Database ∅ None ∅ ∅ None []) [].

(** A raw directory in which the deaths file is empty. *)
Definition empty_deaths_file : world :=
  World {[ "/opt/airflow/data/raw/confirmed.csv" := Csv (WideFrame jhu_sample);
           "/opt/airflow/data/raw/deaths.csv" := EmptyFile ]}
        (Database ∅ None ∅ ∅ None []) [].

(** The long table and the Observations of the small sample. *)
Definition sample_long : list long_row :=
  match reshape (WideFrame jhu_sample) with
  | Py.Ok df_long => df_long
  | Py.Raise _ => []
  end.

Definition sample_obs : list obs :=
  reconcile {[ "confirmed" := sample_long ]} sample_long.

(** The Observations of the first date alone. *)
Definition earlier_obs : list obs := take 2 sample_obs.

(** A store that holds an earlier generation of the three tables. *)
Definition earlier_generation : database :=
  Database {[ "full_data" := FullFrame earlier_obs;
              "country_summary" := CountryFrame (country_data earlier_obs);
              "daily_changes" := DailyFrame (daily_data earlier_obs) ]}
           (Some [])
           {[ "vw_latest_global_summary" := "country_summary";
              "vw_top_countries" := "country_summary";
              "vw_global_daily" := "daily_changes" ]}
           ∅ None [].

(** The processed directory without the daily-changes file. *)
Definition no_daily_changes_file : world :=
  World {[ "/opt/airflow/data/processed/covid_data_transformed.csv"
             := Csv (FullFrame sample_obs);
           "/opt/airflow/data/processed/covid_data_by_country.csv"
             := Csv (CountryFrame (country_data sample_obs)) ]}
        earlier_generation [].

(** The store fails the reload of the second table. *)
Definition store_fails_second_reload : env :=
  Env None "2026-01-01T00:00:00" (fun _ => None)
      (fun s => bool_decide (s = ToSql "country_summary")) true.

(** The processed directory after a transform of the sample. *)
Definition three_processed_files : world :=
  World {[ "/opt/airflow/data/processed/covid_data_transformed.csv"
             := Csv (FullFrame sample_obs);
           "/opt/airflow/data/processed/covid_data_by_country.csv"
             := Csv (CountryFrame (country_data sample_obs));
           "/opt/airflow/data/processed/covid_daily_changes.csv"
             := Csv (DailyFrame (daily_data sample_obs)) ]}
        earlier_generation [].

(** The raw directory after a download of the sample for all categories. *)
Definition three_raw_files : world :=
  World {[ "/opt/airflow/data/raw/confirmed.csv" := Csv (WideFrame jhu_sample);
           "/opt/airflow/data/raw/deaths.csv" := Csv (WideFrame jhu_sample);
           "/opt/airflow/data/raw/recovered.csv" := Csv (WideFrame jhu_sample) ]}
        earlier_generation [].

(** The same surroundings at a later time. *)
Definition a_day_later : env :=
  Env (Some Main.scripts_package_CONFIG) "2026-01-02T00:00:00"
      (fun _ => Some (Csv (WideFrame jhu_sample))) (fun _ => false) true.

End Samples.

(** ** The DAG *)

Module Dag.
Import World.

(** How a task instance ends. *)
Inductive task_state := success | failed | upstream_failed.

#[global] Instance task_state_eq_dec : EqDecision task_state.
Proof. solve_decision. Defined.

(** ['retries': 1] of [default_args]. *)
Definition retries : nat := 1.

(** [PythonOperator(python_callable=f, op_kwargs={'config': CONFIG})]: the
    callable is called, and the task ends in success when the call returns,
    whatever it returns.  A call that raised is made again while retries are
    left, each try in the surroundings of its time. *)
Fixpoint python_operator {A} (python_callable : env -> M A)
    (surroundings : nat -> env) (try_number retries_left : nat) (w : world)
  : task_state * world :=
  match python_callable (surroundings try_number) w with
  | (Py.Ok _, w') => (success, w')
  | (Py.Raise _, w') =>
      match retries_left with
      | O => (failed, w')
      | S n => python_operator python_callable surroundings (S try_number) n w'
      end
  end.

(** [upstream >> task] under the default trigger rule: the task runs when
    the one before it ended in success. *)
Definition downstream (upstream : task_state) (task : world -> task_state * world)
    (w : world) : task_state * world :=
  match upstream with
  | success => task w
  | _ => (upstream_failed, w)
  end.

Record dag_states := DagStates {
  extract_task : task_state;
  transform_task : task_state;
  load_task : task_state
}.

(** One run of [covid19_etl_pipeline]:
    [extract_task >> transform_task >> load_task]. *)
Definition dag_run (surroundings : string -> nat -> env) (w : world)
  : dag_states * world :=
  let '(s1, w1) :=
    python_operator (fun e => Extract.extract_data e (Some Main.dag_CONFIG))
                    (surroundings "extract_covid_data") 1 retries w in
  let '(s2, w2) :=
    downstream s1
      (python_operator (fun e => Transform.transform_data e (Some Main.dag_CONFIG))
                       (surroundings "transform_covid_data") 1 retries) w1 in
  let '(s3, w3) :=
    downstream s2
      (python_operator (fun e => Load.load_data e (Some Main.dag_CONFIG))
                       (surroundings "load_covid_data") 1 retries) w2 in
  (DagStates s1 s2 s3, w3).

End Dag.

(** ** Further notions *)

Module Measures.
Import Calendar Order Frame World Transform Extract Load Notions.

(** A response that the check of [extract_data] counts as a download. *)
Definition counted (e : env) (item : string * string) : bool :=
  match requests_get e item.2 with
  | Some content =>
      nonempty content
      && match read_csv content with
         | Py.Ok _ => true
         | Py.Raise _ => false
         end
  | None => false
  end.

(** A day of the calendar in the years [%y] can name. *)
Definition calendar_day (d : date) : Prop :=
  1969 <= year d <= 2068
  /\ 1 <= month d <= 12
  /\ 1 <= day d <= days_in_month (year d) (month d).

(** The count [v] is what the table of a category gives to the key of the
    confirmed row [c]: 0 without the table; else the count of a row with
    the key of [c] (a missing one as 0), and 0 when no row has that key. *)
Definition joined_value (right_df : option (list long_row)) (c : long_row) (v : Z)
  : Prop :=
  match right_df with
  | None => v = 0
  | Some right_df =>
      (forall r, r ∈ right_df -> join_key r = join_key c ->
                 v = default 0 (l_value r))
      /\ ((forall r, r ∈ right_df -> join_key r <> join_key c) -> v = 0)
  end.

(** The files [extract_data] writes. *)
Definition raw_paths (raw_dir : string) : list string :=
  (map (fun item : string * string => Py.path_join raw_dir (item.1 ++ ".csv")) URLS
   ++ [Py.path_join raw_dir "extraction_metadata.txt"])%list.

(** The files [transform_data] writes. *)
Definition processed_paths (processed_dir : string) : list string :=
  [Py.path_join processed_dir "covid_data_transformed.csv";
   Py.path_join processed_dir "covid_data_by_country.csv";
   Py.path_join processed_dir "covid_daily_changes.csv";
   Py.path_join processed_dir "transformation_metadata.txt"].

(** From [w] to [w'] no file changed but those at [paths]. *)
Definition wrote_only (paths : list string) : relation world := fun w w' =>
  forall p, p ∉ paths -> files w' !! p = files w !! p.

(** The store is left alone and the log only grows. *)
Definition offline : relation world := fun w w' =>
  db w' = db w /\ log_grows w w'.

#[global] Instance offline_po : PreOrder offline.
Proof.
  split.
  - intros w. split; [done|reflexivity].
  - intros w1 w2 w3 [Hd12 Hl12] [Hd23 Hl23]. split; [congruence|by etrans].
Qed.

(** A relation between the store before and after, read on worlds. *)
Definition store_rel (P : relation database) : relation world := fun w w' =>
  P (db w) (db w').

#[global] Instance store_rel_po (P : relation database) `{!PreOrder P} :
  PreOrder (store_rel P).
Proof.
  split.
  - intros w. unfold store_rel. reflexivity.
  - intros w1 w2 w3 H12 H23. unfold store_rel in *. by etrans.
Qed.

(** The audit table is as it was. *)
Definition audit_kept : relation database := fun d d' =>
  etl_metadata d' = etl_metadata d.

#[global] Instance audit_kept_po : PreOrder audit_kept.
Proof. split; [done|]. intros d1 d2 d3 H12 H23. unfold audit_kept in *. congruence. Qed.

(** No table is lost, and the views and indexes are as they were. *)
Definition settled : relation database := fun d d' =>
  (forall t, is_Some (tables d !! t) -> is_Some (tables d' !! t))
  /\ views d' = views d
  /\ indexes d' = indexes d.

#[global] Instance settled_po : PreOrder settled.
Proof.
  split; [done|].
  intros d1 d2 d3 (Ht12 & Hv12 & Hi12) (Ht23 & Hv23 & Hi23).
  split; [by auto|]. split; congruence.
Qed.

(** The rows of the processed files that are there: what a load that
    returns has counted. *)
Definition rows_on_disk (processed_dir : string) (fs : gmap string file) : nat :=
  foldl (fun n (item : string * string) =>
           match fs !! Py.path_join processed_dir item.1 with
           | Some (Csv df) => (n + len df)%nat
           | _ => n
           end) 0%nat files_to_load.

(** The views and the indexes of [load.py]. *)
Definition analytical_views : list (string * string) :=
  [("vw_latest_global_summary", "country_summary");
   ("vw_top_countries", "country_summary");
   ("vw_global_daily", "daily_changes")].

Definition index_names : list string :=
  ["idx_full_country"; "idx_full_date"; "idx_summary_date";
   "idx_changes_country"; "idx_changes_date"].

End Measures.

(** ** Runs that raise *)

Module Raising.
Import Frame World Load Notions.

(** [m] relates the world it starts in to the world it leaves when it
    raises. *)
Definition raising {A} (R : relation world) (m : M A) : Prop :=
  forall w ex w', m w = (Py.Raise ex, w') -> R w w'.

(** While no file is at [path], the files stay as they are and table [t]
    is as it was. *)
Definition untouched (path t : string) : relation world := fun w w' =>
  files w !! path = None ->
  files w' = files w /\ tables (db w') !! t = tables (db w) !! t.

#[global] Instance untouched_po path t : PreOrder (untouched path t).
Proof.
  split.
  - intros w _. done.
  - intros w1 w2 w3 H12 H23 Hmissing.
    destruct (H12 Hmissing) as [Hf12 Ht12].
    destruct H23 as [Hf23 Ht23]; [by rewrite Hf12|].
    split; congruence.
Qed.

End Raising.

(** ** Further sample data *)

Module Cases.
Import Calendar Order Frame World Transform Notions Samples Measures.

(** Confirmed and deaths for one region on one date; no recovered table. *)
Definition hubei_datasets : gmap string (list long_row) :=
  {[ "confirmed" := confirmed_hubei; "deaths" := deaths_hubei ]}.

(** A raw directory whose confirmed file spells the years with four
    digits. *)
Definition four_digit_years : world :=
  World {[ "/opt/airflow/data/raw/confirmed.csv"
             := Csv (WideFrame (Wide [hubei] [("1/22/2020", [Some 444])])) ]}
        (Database ∅ None ∅ ∅ None []) [].

(** A raw directory whose confirmed file has a header line and no rows. *)
Definition header_only : world :=
  World {[ "/opt/airflow/data/raw/confirmed.csv"
             := Csv (WideFrame (Wide [] [("1/22/20", []); ("Population", [])])) ]}
        (Database ∅ None ∅ ∅ None []) [].

(** No host answers, and the store fails nothing. *)
Definition hosts_down : env :=
  Env (Some Main.scripts_package_CONFIG) "2026-01-03T00:00:00"
      (fun _ => None) (fun _ => false) true.

(** The store fails the query for the audit table and nothing else. *)
Definition query_fails : env :=
  Env None "2026-01-04T00:00:00" (fun _ => None)
      (fun s => bool_decide (s = TableExists "etl_metadata")) true.

End Cases.

(** ** The left join, said by keys *)

Module JoinSpec.
Import Calendar Frame Transform.

(** [r] has the join key of [c]: the same sub-region (two missing ones are
    the same), the same region and the same date.  Latitude and longitude
    are no part of it. *)
Definition same_key (r c : long_row) : Prop :=
  Province_State (l_region r) = Province_State (l_region c)
  /\ Country_Region (l_region r) = Country_Region (l_region c)
  /\ l_date r = l_date c.

#[global] Instance same_key_dec r c : Decision (same_key r c).
Proof. unfold same_key. apply _. Defined.

(** The rows of a category's table that match a confirmed row, in the
    order of the table. *)
Definition partners (right_df : list long_row) (c : long_row) : list long_row :=
  filter (fun r => same_key r c) right_df.

(** The counts a category has for a confirmed row: those of its partners,
    a missing one as 0; a single 0 when it has no partner, or when the
    category has no table. *)
Definition counts (right_df : option (list long_row)) (c : long_row) : list Z :=
  match right_df with
  | None => [0]
  | Some right_df =>
      match partners right_df c with
      | [] => [0]
      | matching => map (fun r => default 0 (l_value r)) matching
      end
  end.

(** The cells [add_category] pairs with a left row of key [k]. *)
Definition cells (right_df : option (list long_row))
    (k : option string * string * date) : list cell :=
  match right_df with
  | None => [Some 0]
  | Some right_df =>
      match filter (fun r => join_key r = k) right_df with
      | [] => [None]
      | matching => map l_value matching
      end
  end.

End JoinSpec.

(** ** A file that is not there *)

Module Skipping.
Import Frame World Load Notions.

(** While no file is at [path], the files stay as they are and table [t]
    is kept. *)
Definition skipped (path t : string) : relation world := fun w w' =>
  files w !! path = None -> files w' = files w /\ kept t w w'.

#[global] Instance skipped_po path t : PreOrder (skipped path t).
Proof.
  split.
  - intros w _. split; [done|reflexivity].
  - intros w1 w2 w3 H12 H23 Hmissing.
    destruct (H12 Hmissing) as [Hf12 Hk12].
    destruct H23 as [Hf23 Hk23]; [by rewrite Hf12|].
    split; [congruence|by etrans].
Qed.

End Skipping.

(** * Properties *)

Module ReshapeFacts.
Import Calendar Order Frame World Transform Notions.

Lemma melt_cons (ids : list region) col cols :
  melt (Wide ids (col :: cols))
  = (zip_with (fun r v => (r, col.1, v)) ids col.2 ++ melt (Wide ids cols))%list.
Proof. reflexivity. Qed.

Lemma length_melt (df : WideTable) :
  rectangular df ->
  length (melt df) = (length (value_vars df) * length (id_rows df))%nat.
Proof.
  destruct df as [ids cols]. unfold rectangular. simpl.
  induction cols as [|col cols IH]; intros Hrect; [done|].
  apply Forall_cons in Hrect as [Hcol Hrect].
  rewrite melt_cons, length_app, length_zip_with, IH by done.
  simpl in *. lia.
Qed.

Lemma lookup_melt (df : WideTable) (j i : nat) header column r v :
  rectangular df ->
  value_vars df !! j = Some (header, column) ->
  id_rows df !! i = Some r ->
  column !! i = Some v ->
  melt df !! (j * length (id_rows df) + i)%nat = Some (r, header, v).
Proof.
  destruct df as [ids cols]. unfold rectangular. simpl.
  revert j. induction cols as [|col cols IH]; intros j Hrect Hj Hi Hv; [done|].
  apply Forall_cons in Hrect as [Hcol Hrect]. rewrite melt_cons.
  destruct j as [|j]; simpl in Hj.
  - injection Hj as ->. simpl.
    rewrite lookup_app_l.
    + rewrite lookup_zip_with, Hi. simpl. by rewrite Hv.
    + rewrite length_zip_with. simpl in Hcol. apply lookup_lt_Some in Hi. lia.
  - rewrite lookup_app_r; rewrite length_zip_with; simpl in Hcol; [|lia].
    replace (S j * length ids + i - length ids `min` length col.2)%nat
      with (j * length ids + i)%nat by lia.
    by apply IH.
Qed.

Lemma melt_headers (df : WideTable) (P : string -> Prop) :
  Forall (fun col => P col.1) (value_vars df) ->
  Forall (fun row : region * string * cell => P row.1.2) (melt df).
Proof.
  intros Hcols. unfold melt. apply Forall_flat_map.
  eapply Forall_impl; [exact Hcols|].
  intros col Hcol. simpl. apply Forall_forall. intros row Hrow.
  apply elem_of_lookup_zip_with in Hrow as (i & r & v & -> & _ & _).
  done.
Qed.

Lemma to_datetime_Ok rows df_long :
  to_datetime rows = Py.Ok df_long <->
  Forall2 (fun (row : region * string * cell) l =>
             exists d, strptime_mdy row.1.2 = Some d /\ l = LongRow row.1.1 d row.2)
          rows df_long.
Proof.
  unfold to_datetime. split.
  - destruct (mapM _ rows) as [k|] eqn:Hk; [|done].
    intros [= <-]. apply mapM_Some in Hk.
    eapply Forall2_impl; [exact Hk|].
    intros row l Hl. simpl in Hl.
    destruct (strptime_mdy row.1.2) as [d|]; [|done].
    injection Hl as <-. eauto.
  - intros HF.
    assert (mapM (fun row : region * string * cell =>
                    d ← strptime_mdy row.1.2; Some (LongRow row.1.1 d row.2)) rows
            = Some df_long) as ->; [|done].
    apply mapM_Some. eapply Forall2_impl; [exact HF|].
    intros row l (d & Hd & ->). simpl. by rewrite Hd.
Qed.

Lemma to_datetime_total rows :
  Forall (fun row : region * string * cell => is_Some (strptime_mdy row.1.2)) rows ->
  exists df_long, to_datetime rows = Py.Ok df_long.
Proof.
  intros Hrows. unfold to_datetime.
  destruct (mapM _ rows) as [k|] eqn:Hk; [by eexists|].
  apply mapM_None in Hk. apply Exists_exists in Hk as (row & Hin & Hnone).
  rewrite Forall_forall in Hrows. destruct (Hrows row Hin) as [d Hd].
  simpl in Hnone. by rewrite Hd in Hnone.
Qed.

End ReshapeFacts.

Module MergeFacts.
Import Calendar Order Frame World Transform Notions.

Section merge.
Context {A : Type} (key : A -> option string * string * date).

Lemma merge_left_origin (left_df : list A) (right_df : list long_row) row :
  row ∈ merge_left key left_df right_df -> row.1 ∈ left_df.
Proof.
  unfold merge_left. intros Hrow.
  apply list_elem_of_In, in_flat_map in Hrow as (a & Ha & Hrow).
  apply (proj2 (list_elem_of_In _ _)) in Ha, Hrow.
  destruct (filter _ right_df) as [|r partners].
  - apply list_elem_of_singleton in Hrow as ->. done.
  - apply list_elem_of_fmap in Hrow as (r' & -> & _). done.
Qed.

Lemma add_category_origin datasets category (left_df : list A) row :
  row ∈ add_category datasets category key left_df -> row.1 ∈ left_df.
Proof.
  unfold add_category. destruct (datasets !! category) as [right_df|].
  - apply merge_left_origin.
  - intros Hrow. apply list_elem_of_fmap in Hrow as (a & -> & Ha). done.
Qed.

(** Among rows with pairwise different keys at most one has a given key. *)
Lemma unique_partner (right_df : list long_row) k :
  NoDup (map join_key right_df) ->
  (length (filter (fun r => join_key r = k) right_df) <= 1)%nat.
Proof.
  induction right_df as [|r right_df IH]; intros Hnodup; [simpl; lia|].
  simpl in Hnodup. apply NoDup_cons in Hnodup as [Hr Hnodup].
  rewrite filter_cons. destruct (decide (join_key r = k)) as [<-|]; [|by apply IH].
  destruct (filter (fun r' => join_key r' = join_key r) right_df)
    as [|r' others] eqn:Hf; [simpl; lia|].
  exfalso. apply Hr.
  assert (r' ∈ filter (fun r' => join_key r' = join_key r) right_df) as Hin
    by (rewrite Hf; left).
  apply list_elem_of_filter in Hin as [Heq Hin].
  rewrite <- Heq. apply list_elem_of_fmap. eauto.
Qed.

Lemma merge_left_backbone (left_df : list A) (right_df : list long_row) :
  NoDup (map join_key right_df) ->
  map fst (merge_left key left_df right_df) = left_df.
Proof.
  intros Hnodup. unfold merge_left.
  induction left_df as [|a left_df IH]; [done|].
  change (a :: left_df) with ([a] ++ left_df)%list.
  rewrite flat_map_app, map_app, IH. f_equal.
  cbn [flat_map]. rewrite app_nil_r.
  pose proof (unique_partner right_df (key a) Hnodup) as Hlen.
  destruct (filter _ right_df) as [|r [|r' partners]]; simpl in *; [done|done|lia].
Qed.

Lemma add_category_backbone datasets category (left_df : list A) :
  (forall right_df, datasets !! category = Some right_df ->
                    NoDup (map join_key right_df)) ->
  map fst (add_category datasets category key left_df) = left_df.
Proof.
  intros Hnodup. unfold add_category.
  destruct (datasets !! category) as [right_df|].
  - apply merge_left_backbone. by apply Hnodup.
  - rewrite map_map. simpl. apply map_id.
Qed.

End merge.

Lemma reconcile_row_taken row : taken_from row.1.1 (reconcile_row row).
Proof. by repeat split. Qed.

End MergeFacts.

Module RateFacts.
Import Calendar Order Frame World Transform Notions.

Lemma mortality_positive (c d : Z) :
  0 < c -> mortality (Some c) d = (float_of_Z d / float_of_Z c * 100)%float.
Proof. intros Hc. unfold mortality. by rewrite (proj2 (Z.ltb_lt 0 c) Hc). Qed.

Lemma mortality_guard (c d : Z) : c <= 0 -> mortality (Some c) d = 0%float.
Proof. intros Hc. unfold mortality. by rewrite (proj2 (Z.ltb_ge 0 c) Hc). Qed.

Lemma reconcile_rate datasets backbone o :
  o ∈ reconcile datasets backbone ->
  mortality_rate o = mortality (confirmed o) (deaths o).
Proof.
  unfold reconcile. intros Ho.
  apply list_elem_of_fmap in Ho as (row & -> & _). reflexivity.
Qed.

Lemma country_rate rows r :
  r ∈ country_data rows ->
  c_mortality_rate r = mortality (Some (c_confirmed r)) (c_deaths r).
Proof.
  unfold country_data. intros Hr.
  apply list_elem_of_fmap in Hr as (g & -> & _). reflexivity.
Qed.

End RateFacts.

Module GroupFacts.
Import Calendar Order Frame World Transform Notions.

Lemma ascending_cons g groups :
  ascending (g :: groups) <->
  Forall (fun g' => lexico g.1 g'.1) groups /\ ascending groups.
Proof.
  unfold ascending. simpl. rewrite StronglySorted_cons, Forall_fmap.
  split; intros [? ?]; done.
Qed.

Lemma find_group_below k groups :
  Forall (fun g => lexico k g.1) groups -> find_group k groups = None.
Proof.
  induction 1 as [|g groups Hg _ IH]; [done|].
  simpl. destruct (decide (k = g.1)) as [->|]; [|done].
  by apply irreflexivity in Hg; [|apply _].
Qed.

Lemma find_group_elem g groups :
  ascending groups -> g ∈ groups -> find_group g.1 groups = Some g.2.
Proof.
  induction groups as [|h groups IH]; intros Hasc Hin; [by apply elem_of_nil in Hin|].
  apply ascending_cons in Hasc as [Hh Hasc].
  simpl. destruct (decide (g.1 = h.1)) as [Heq|Hne].
  - apply elem_of_cons in Hin as [->|Hin]; [done|].
    rewrite Forall_forall in Hh. specialize (Hh g Hin).
    rewrite Heq in Hh. by apply irreflexivity in Hh; [|apply _].
  - apply elem_of_cons in Hin as [->|Hin]; [done|]. by apply IH.
Qed.

Lemma find_group_Some k s groups :
  find_group k groups = Some s -> (k, s) ∈ groups.
Proof.
  induction groups as [|g groups IH]; [done|].
  simpl. destruct (decide (k = g.1)) as [->|].
  - intros [= <-]. destruct g. left.
  - intros Hfind. right. by apply IH.
Qed.

Lemma group_add_keys (P : string * date -> Prop) o groups :
  P (country_key o) ->
  Forall (fun g => P g.1) groups ->
  Forall (fun g => P g.1) (group_add o groups).
Proof.
  intros Ho. induction 1 as [|g groups Hg Hgroups IH]; simpl.
  - by repeat constructor.
  - destruct (decide (country_key o = g.1)); [by constructor|].
    destruct (decide (lexico (country_key o) g.1)); by repeat constructor.
Qed.

Lemma group_add_ascending o groups :
  ascending groups -> ascending (group_add o groups).
Proof.
  induction groups as [|g groups IH]; intros Hasc; simpl.
  - apply ascending_cons. split; constructor.
  - pose proof Hasc as Hasc'. apply ascending_cons in Hasc' as [Hg Hrest].
    destruct (decide (country_key o = g.1)) as [Heq|Hne].
    { apply ascending_cons. done. }
    destruct (decide (lexico (country_key o) g.1)) as [Hlt|Hnlt].
    + apply ascending_cons. split; [|done].
      constructor; [done|].
      eapply Forall_impl; [exact Hg|]. intros g' Hg'. simpl in *. by etrans.
    + apply ascending_cons. split; [|by apply IH].
      apply (group_add_keys (fun k => lexico g.1 k)); [|done].
      destruct (trichotomyT lexico (country_key o) g.1) as [[?|?]|?]; done.
Qed.

Lemma group_add_find k o groups :
  ascending groups ->
  find_group k (group_add o groups)
  = if decide (k = country_key o)
    then Some (add_obs (default (Sums 0 0 0 0) (find_group k groups)) o)
    else find_group k groups.
Proof.
  induction groups as [|g groups IH]; intros Hasc; simpl.
  - destruct (decide (k = country_key o)); done.
  - apply ascending_cons in Hasc as [Hg Hrest].
    destruct (decide (country_key o = g.1)) as [Heq|Hne]; simpl.
    { rewrite Heq. destruct (decide (k = g.1)); done. }
    destruct (decide (lexico (country_key o) g.1)) as [Hlt|Hnlt]; simpl.
    + destruct (decide (k = country_key o)) as [->|]; [|done].
      rewrite decide_False by done.
      rewrite find_group_below; [done|].
      eapply Forall_impl; [exact Hg|]. intros g' Hg'. simpl in *. by etrans.
    + destruct (decide (k = g.1)) as [->|].
      * rewrite decide_False by done. done.
      * by apply IH.
Qed.

Lemma foldl_group_add rows : forall groups,
  ascending groups ->
  ascending (foldl (fun groups o => group_add o groups) groups rows)
  /\ forall k,
      find_group k (foldl (fun groups o => group_add o groups) groups rows)
      = match filter (fun o => country_key o = k) rows with
        | [] => find_group k groups
        | o :: group =>
            Some (foldl add_obs (default (Sums 0 0 0 0) (find_group k groups))
                        (o :: group))
        end.
Proof.
  induction rows as [|o rows IH]; intros groups Hasc; [done|].
  simpl. destruct (IH (group_add o groups)) as [Hasc' Hfind].
  { by apply group_add_ascending. }
  split; [done|]. intros k. rewrite Hfind, group_add_find by done.
  rewrite filter_cons.
  destruct (decide (country_key o = k)) as [<-|Hne].
  - rewrite decide_True by done.
    destruct (filter _ rows); done.
  - rewrite decide_False by done. done.
Qed.

Lemma foldl_add_obs group : forall s,
  s_confirmed (foldl add_obs s group)
  = s_confirmed s + total (fun o => default 0 (confirmed o)) group
  /\ s_deaths (foldl add_obs s group) = s_deaths s + total deaths group
  /\ s_recovered (foldl add_obs s group) = s_recovered s + total recovered group
  /\ s_active (foldl add_obs s group)
     = s_active s + total (fun o => default 0 (active o)) group.
Proof.
  induction group as [|o group IH]; intros s; simpl.
  - repeat split; lia.
  - destruct (IH (add_obs s o)) as (Hc & Hd & Hr & Ha).
    rewrite Hc, Hd, Hr, Ha. simpl. repeat split; lia.
Qed.

Lemma groupby_sum_ascending rows : ascending (groupby_sum rows).
Proof. apply foldl_group_add. constructor. Qed.

(** A group of the result holds the sums over the rows with its key, and
    there is at least one such row. *)
Lemma groupby_sum_group rows g :
  g ∈ groupby_sum rows ->
  exists o group,
    filter (fun o => country_key o = g.1) rows = o :: group
    /\ g.2 = foldl add_obs (Sums 0 0 0 0) (o :: group).
Proof.
  intros Hg.
  pose proof (find_group_elem g _ (groupby_sum_ascending rows) Hg) as Hfind.
  unfold groupby_sum in Hfind.
  rewrite (proj2 (foldl_group_add rows [] ltac:(constructor))) in Hfind.
  destruct (filter _ rows) as [|o group]; [done|].
  injection Hfind as <-. eauto.
Qed.

Lemma groupby_sum_covers rows o :
  o ∈ rows -> exists s, (country_key o, s) ∈ groupby_sum rows.
Proof.
  intros Ho.
  pose proof (proj2 (foldl_group_add rows [] ltac:(constructor)) (country_key o))
    as Hfind.
  destruct (filter (fun o' => country_key o' = country_key o) rows) as [|o' group] eqn:Hf.
  - exfalso. eapply (filter_nil_not_elem_of _ _ o Hf); done.
  - eexists. eapply find_group_Some. exact Hfind.
Qed.

Lemma ascending_NoDup groups : ascending groups -> NoDup (map fst groups).
Proof.
  unfold ascending. induction 1 as [|k keys _ IH Hk]; constructor; [|done].
  intros Hin. rewrite Forall_forall in Hk.
  by apply (irreflexivity lexico k), Hk.
Qed.

End GroupFacts.

Module DeltaFacts.
Import Calendar Order Frame World Transform Notions.

Lemma insert_row_Permutation o rows : insert_row o rows ≡ₚ o :: rows.
Proof.
  induction rows as [|p rows IH]; simpl; [done|].
  destruct (decide (lexico (sort_key p) (sort_key o))); [|done].
  by rewrite IH, Permutation_swap.
Qed.

Lemma sort_values_Permutation rows : sort_values rows ≡ₚ rows.
Proof.
  induction rows as [|o rows IH]; simpl; [done|].
  by rewrite insert_row_Permutation, IH.
Qed.

Lemma insert_row_HdRel p o rows :
  key_le p o -> HdRel key_le p rows -> HdRel key_le p (insert_row o rows).
Proof.
  intros Hpo Hhd. destruct rows as [|q rows]; simpl; [by constructor|].
  destruct (decide (lexico (sort_key q) (sort_key o))); constructor; [|done].
  by inversion Hhd.
Qed.

Lemma insert_row_Sorted o rows :
  Sorted key_le rows -> Sorted key_le (insert_row o rows).
Proof.
  induction 1 as [|p rows Hsorted IH Hhd]; simpl; [by repeat constructor|].
  destruct (decide (lexico (sort_key p) (sort_key o))) as [Hlt|Hnlt].
  - constructor; [done|]. apply insert_row_HdRel; [|done].
    intros Hop. by apply (irreflexivity lexico (sort_key p)); etrans.
  - constructor; [by constructor|]. by constructor.
Qed.

Lemma sort_values_Sorted rows : StronglySorted key_le (sort_values rows).
Proof.
  apply Sorted_StronglySorted; [apply _|].
  induction rows as [|o rows IH]; simpl; [constructor|].
  by apply insert_row_Sorted.
Qed.

(** Inside one series the sort order is the order of the dates. *)
Lemma series_Sorted (k : string * string) rows :
  StronglySorted key_le rows ->
  StronglySorted date_le (filter (fun o => series_key o = k) rows).
Proof.
  induction 1 as [|o rows _ IH Ho]; [constructor|].
  rewrite filter_cons. destruct (decide (series_key o = k)) as [Hk|]; [|done].
  constructor; [done|].
  apply Forall_forall. intros p Hp.
  apply list_elem_of_filter in Hp as [Hpk Hp].
  rewrite Forall_forall in Ho. specialize (Ho p Hp).
  intros Hdate. apply Ho.
  unfold series_key in Hk, Hpk. rewrite <- Hk in Hpk.
  injection Hpk as Hc Hprov.
  unfold sort_key. rewrite Hc, Hprov.
  right. split; [done|]. right. done.
Qed.

Lemma group_diff_obs rows : forall last, map d_obs (group_diff last rows) = rows.
Proof. induction rows as [|o rows IH]; intros last; simpl; by rewrite ?IH. Qed.

Lemma group_diff_filter (k : string * string) rows : forall last,
  map d_obs (filter (fun r => series_key (d_obs r) = k) (group_diff last rows))
  = filter (fun o => series_key o = k) rows.
Proof.
  induction rows as [|o rows IH]; intros last; [done|].
  simpl. rewrite !filter_cons. simpl.
  destruct (decide (series_key o = k)); simpl; by rewrite IH.
Qed.

(** Along the rows of one series, [group_diff] pairs every row with the
    one before it; the first is paired with what [last] holds. *)
Lemma group_diff_series (k : string * string) rows : forall last,
  let series := filter (fun r => series_key (d_obs r) = k) (group_diff last rows) in
  (forall first, series !! 0%nat = Some first -> increments_after (last !! k) first)
  /\ (forall i prev cur,
        series !! i = Some prev -> series !! S i = Some cur ->
        increments_after (Some (d_obs prev)) cur).
Proof.
  induction rows as [|o rows IH]; intros last; [done|].
  cbn zeta. simpl group_diff. rewrite filter_cons. cbn [d_obs].
  destruct (IH (<[series_key o := o]> last)) as [IHfirst IHnext].
  destruct (decide (series_key o = k)) as [<-|Hne].
  - split.
    + intros first [= <-]. done.
    + intros [|i] prev cur Hprev Hcur; simpl in Hprev, Hcur.
      * injection Hprev as <-. cbn [d_obs].
        specialize (IHfirst cur Hcur). by rewrite lookup_insert_eq in IHfirst.
      * by eapply IHnext.
  - split; [|done].
    intros first Hfirst. specialize (IHfirst first Hfirst).
    by rewrite lookup_insert_ne in IHfirst.
Qed.

End DeltaFacts.

(** ** Reasoning about stages *)

Module StageFacts.
Import Frame World Notions.

(** A run of [m ≫= k] that returns is a run of [m] that returns followed
    by a run of [k] that returns. *)
Lemma bind_Ok {A B} (m : M A) (k : A -> M B) w b w'' :
  (m ≫= k) w = (Py.Ok b, w'') <->
  exists a w', m w = (Py.Ok a, w') /\ k a w' = (Py.Ok b, w'').
Proof.
  unfold mbind, M_bind. destruct (m w) as [[a|ex] w']; split.
  - intros Hk. eauto.
  - intros (a' & w1 & ? & Hk). by simplify_eq.
  - done.
  - intros (a' & w1 & ? & _). by simplify_eq.
Qed.

Lemma run_returned {A} (run : Py.result A * world) (a : A) :
  run.1 = Py.Ok a -> run = (Py.Ok a, run.2).
Proof. destruct run as [r w']. simpl. by intros ->. Qed.

Lemma bind_Raise {A B} (m : M A) (k : A -> M B) w ex w' :
  m w = (Py.Raise ex, w') -> (m ≫= k) w = (Py.Raise ex, w').
Proof. unfold mbind, M_bind. by intros ->. Qed.

Lemma bind_run {A B} (m : M A) (k : A -> M B) w a w' :
  m w = (Py.Ok a, w') -> (m ≫= k) w = k a w'.
Proof. unfold mbind, M_bind. by intros ->. Qed.

Section respects.
Context (R : relation world) `{!PreOrder R}.

Lemma respects_ret {A} (a : A) : respects R (mret a).
Proof. intros w r w' [= _ <-]. done. Qed.

Lemma respects_raise {A} ex : respects R (raise (A:=A) ex).
Proof. intros w r w' [= _ <-]. done. Qed.

Lemma respects_lift {A} (x : Py.result A) : respects R (lift x).
Proof. intros w r w' [= _ <-]. done. Qed.

Lemma respects_gets {A} (f : world -> A) : respects R (gets f).
Proof. intros w r w' [= _ <-]. done. Qed.

Lemma respects_modify (f : world -> world) :
  (forall w, R w (f w)) -> respects R (modify f).
Proof. intros Hf w r w' [= _ <-]. apply Hf. Qed.

Lemma respects_bind {A B} (m : M A) (k : A -> M B) :
  respects R m -> (forall a, respects R (k a)) -> respects R (m ≫= k).
Proof.
  intros Hm Hk w r w''. unfold mbind, M_bind.
  destruct (m w) as [[a|ex] w'] eqn:Hrun.
  - intros Hkrun. etrans; [by eapply Hm|by eapply Hk].
  - intros [= _ <-]. by eapply Hm.
Qed.

Lemma respects_try_except {A} (body : M A) handler :
  respects R body -> (forall ex, respects R (handler ex)) ->
  respects R (try_except body handler).
Proof.
  intros Hbody Hhandler w r w''. unfold try_except.
  destruct (body w) as [[a|ex] w'] eqn:Hrun.
  - intros [= _ <-]. by eapply Hbody.
  - intros Hrun'. etrans; [by eapply Hbody|by eapply Hhandler].
Qed.

Lemma respects_for_each {A B} (body : B -> A -> M B) items :
  (forall acc x, x ∈ items -> respects R (body acc x)) ->
  forall acc, respects R (for_each body acc items).
Proof.
  induction items as [|x items IH]; intros Hbody acc; simpl.
  - apply respects_ret.
  - apply respects_bind; [apply Hbody; left|].
    intros acc'. apply IH. intros acc'' y Hy. apply Hbody. by right.
Qed.

End respects.

Lemma succeeds_ret {A} (I : world -> Prop) (a : A) (Q : A -> Prop) :
  Q a -> succeeds I (mret a) Q.
Proof. intros Ha w Hw. by exists a, w. Qed.

Lemma succeeds_bind {A B} (I : world -> Prop) (m : M A) (k : A -> M B) P Q :
  succeeds I m P -> (forall a, P a -> succeeds I (k a) Q) ->
  succeeds I (m ≫= k) Q.
Proof.
  intros Hm Hk w Hw. destruct (Hm w Hw) as (a & w' & Hrun & Hw' & Ha).
  destruct (Hk a Ha w' Hw') as (b & w'' & Hrun' & Hw'' & Hb).
  exists b, w''. by rewrite (bind_run _ _ _ _ _ Hrun).
Qed.

Lemma succeeds_try_except {A} (I : world -> Prop) (body : M A) handler Q :
  succeeds I body Q -> succeeds I (try_except body handler) Q.
Proof.
  intros Hbody w Hw. destruct (Hbody w Hw) as (a & w' & Hrun & Hw' & Ha).
  exists a, w'. unfold try_except. by rewrite Hrun.
Qed.

Lemma succeeds_modify (I : world -> Prop) (f : world -> world) :
  (forall w, I w -> I (f w)) -> succeeds I (modify f) (fun _ => True).
Proof. intros Hf w Hw. exists tt, (f w). auto. Qed.

Lemma succeeds_weaken {A} (I : world -> Prop) (m : M A) (P Q : A -> Prop) :
  succeeds I m P -> (forall a, P a -> Q a) -> succeeds I m Q.
Proof.
  intros Hm HPQ w Hw. destruct (Hm w Hw) as (a & w' & Hrun & Hw' & Ha).
  exists a, w'. auto.
Qed.

Lemma logger_same_files r : respects same_files (logger r).
Proof. by apply respects_modify. Qed.

Lemma logger_same_db r : respects same_db (logger r).
Proof. by apply respects_modify. Qed.

Lemma logger_log_grows r : respects log_grows (logger r).
Proof. apply respects_modify. intros w. by exists [r]. Qed.

Lemma getitem_respects R `{!PreOrder R} config key : respects R (getitem config key).
Proof.
  unfold getitem. destruct (config !! key); [apply respects_ret|apply respects_raise]; done.
Qed.

End StageFacts.

(** ** Paths *)

Module PathFacts.
Import Notions.

Lemma list_ascii_of_string_app (s t : string) :
  list_ascii_of_string (s ++ t)
  = (list_ascii_of_string s ++ list_ascii_of_string t)%list.
Proof. induction s as [|c s IH]; simpl; by rewrite ?IH. Qed.

(** Two joined paths that are equal end in the same characters. *)
Lemma path_join_tail (k : nat) (d1 d2 n1 n2 : string) :
  Py.path_join d1 n1 = Py.path_join d2 n2 ->
  (k <= S (String.length n1))%nat -> (k <= S (String.length n2))%nat ->
  tail k n1 = tail k n2.
Proof.
  unfold Py.path_join, tail. intros Heq Hk1 Hk2.
  apply (f_equal list_ascii_of_string) in Heq.
  rewrite (list_ascii_of_string_app d1), (list_ascii_of_string_app d2) in Heq.
  apply (f_equal (fun l => take k (reverse l))) in Heq.
  rewrite !reverse_app in Heq.
  assert (forall n : string,
            length (reverse (list_ascii_of_string ("/" ++ n))) = S (String.length n))
    as Hlen.
  { intros n. rewrite length_reverse. simpl. f_equal.
    induction n as [|c n IH]; [done|]. simpl. f_equal. exact IH. }
  rewrite !take_app_le in Heq by (rewrite Hlen; lia).
  exact Heq.
Qed.

End PathFacts.

(** Two paths are told apart by the last eleven characters of their file
    names. *)
Ltac different_paths :=
  let Heq := fresh "Heq" in
  intros Heq;
  apply (PathFacts.path_join_tail 11) in Heq;
  [ vm_compute in Heq; discriminate
  | vm_compute; lia
  | vm_compute; lia ].

Module TransformStageFacts.
Import Calendar Order Frame World Transform Notions StageFacts.

Lemma read_datasets_respects R `{!PreOrder R} raw_dir todo :
  (forall r, respects R (logger r)) ->
  forall datasets, respects R (read_datasets raw_dir todo datasets).
Proof.
  intros Hlog. induction todo as [|category todo IH]; intros datasets; simpl.
  - by apply respects_ret.
  - apply respects_bind; [done|by apply respects_gets|].
    intros [content|].
    + apply respects_bind; [done|by apply respects_lift|]. intros df.
      apply respects_bind; [done|by apply respects_lift|]. intros df_long.
      apply IH.
    + apply respects_bind; [done|apply Hlog|]. intros _. apply IH.
Qed.

(** A file that is there and cannot be read ends the loop of step 1 with
    an exception, whatever the other categories hold. *)
Lemma read_datasets_unreadable raw_dir category content ex todo :
  category ∈ todo ->
  read_csv content = Py.Raise ex ->
  forall datasets w,
    files w !! Py.path_join raw_dir (category ++ ".csv") = Some content ->
    exists ex' w', read_datasets raw_dir todo datasets w = (Py.Raise ex', w').
Proof.
  intros Hin Hread.
  induction todo as [|c todo IH]; intros datasets w Hfile;
    [by apply elem_of_nil in Hin|].
  simpl. unfold mbind, M_bind, gets, lift. simpl.
  destruct (decide (c = category)) as [->|Hne].
  - rewrite Hfile, Hread. eauto.
  - apply elem_of_cons in Hin as [->|Hin]; [done|].
    destruct (files w !! Py.path_join raw_dir (c ++ ".csv")) as [other|].
    + destruct (read_csv other) as [df|]; [|eauto].
      destruct (reshape df) as [df_long|]; [|eauto].
      by apply IH.
    + simpl. by apply IH.
Qed.

(** What the loop of step 1 returns depends on the raw files alone. *)
Lemma read_datasets_agree raw_dir todo : forall datasets w1 w2,
  (forall category, category ∈ todo ->
     files w1 !! Py.path_join raw_dir (category ++ ".csv")
     = files w2 !! Py.path_join raw_dir (category ++ ".csv")) ->
  (read_datasets raw_dir todo datasets w1).1
  = (read_datasets raw_dir todo datasets w2).1.
Proof.
  induction todo as [|c todo IH]; intros datasets w1 w2 Hagree; [done|].
  simpl. unfold mbind, M_bind, gets, lift. simpl.
  rewrite <- (Hagree c) by left.
  assert (forall category, category ∈ todo ->
            files w1 !! Py.path_join raw_dir (category ++ ".csv")
            = files w2 !! Py.path_join raw_dir (category ++ ".csv")) as Hrest.
  { intros category Hcat. apply Hagree. by right. }
  destruct (files w1 !! Py.path_join raw_dir (c ++ ".csv")) as [content|].
  - destruct (read_csv content) as [df|]; [|done].
    destruct (reshape df) as [df_long|]; [|done].
    by apply IH.
  - simpl. by apply IH.
Qed.

(** The two ways a run of [transform_data] ends: [False] and no file
    written, or [True] and the three tables written under their names. *)
Lemma transform_data_cases e config w :
  let run := transform_data e config w in
  (run.1 = Py.Ok false /\ files run.2 = files w
   /\ forall cfg raw_dir processed_dir datasets,
        config_or_import e config = Some cfg ->
        cfg !! "raw_data_path" = Some raw_dir ->
        cfg !! "processed_data_path" = Some processed_dir ->
        (read_datasets raw_dir categories ∅ w).1 = Py.Ok datasets ->
        outputs datasets = None)
  \/ (exists cfg raw_dir processed_dir datasets full country daily metadata,
        config_or_import e config = Some cfg
        /\ cfg !! "raw_data_path" = Some raw_dir
        /\ cfg !! "processed_data_path" = Some processed_dir
        /\ (read_datasets raw_dir categories ∅ w).1 = Py.Ok datasets
        /\ outputs datasets = Some (full, country, daily)
        /\ run.1 = Py.Ok true
        /\ files run.2
           = <[Py.path_join processed_dir "transformation_metadata.txt" := metadata]>
               (<[Py.path_join processed_dir "covid_daily_changes.csv" := daily]>
                  (<[Py.path_join processed_dir "covid_data_by_country.csv" := country]>
                     (<[Py.path_join processed_dir "covid_data_transformed.csv" := full]>
                        (files w))))).
Proof.
  intros run. subst run. unfold transform_data, try_except.
  destruct (config_or_import e config) as [cfg|] eqn:Hcfg;
    [|left; repeat split; done].
  unfold getitem.
  destruct (cfg !! "raw_data_path") as [raw_dir|] eqn:Hraw;
    [|left; repeat split; intros; simplify_eq].
  rewrite (bind_run _ _ w raw_dir w) by done.
  destruct (cfg !! "processed_data_path") as [processed_dir|] eqn:Hproc;
    [|left; repeat split; intros; simplify_eq].
  rewrite (bind_run _ _ w processed_dir w) by done.
  pose proof (read_datasets_respects same_files raw_dir categories
                logger_same_files ∅ w) as Hfiles.
  destruct (read_datasets raw_dir categories ∅ w) as [[datasets|ex] w'] eqn:Hread.
  - specialize (Hfiles _ _ eq_refl). unfold same_files in Hfiles.
    rewrite (bind_run _ _ w datasets w') by done.
    destruct (datasets !! "confirmed") as [backbone|] eqn:Hconf.
    + right. exists cfg, raw_dir, processed_dir, datasets.
      do 3 eexists. eexists.
      repeat split; try done.
      * by rewrite Hread.
      * unfold outputs. rewrite Hconf. reflexivity.
      * simpl. by rewrite Hfiles.
    + left. repeat split; [done|].
      intros cfg' raw' proc' datasets' [= <-] Hraw' Hproc'. simplify_eq.
      rewrite Hread. simpl. intros [= <-]. unfold outputs. by rewrite Hconf.
  - specialize (Hfiles _ _ eq_refl). unfold same_files in Hfiles.
    rewrite (bind_Raise _ _ w ex w') by done.
    left. repeat split; [done|].
    intros cfg' raw' proc' datasets' [= <-] Hraw' Hproc'. simplify_eq.
    rewrite Hread. simpl. done.
Qed.

(** With the confirmed file in place and the two others missing, the loop
    of step 1 warns twice and returns the confirmed long table alone. *)
Lemma read_datasets_confirmed_only raw_dir w df df_long :
  files w !! Py.path_join raw_dir "confirmed.csv" = Some (Csv (WideFrame df)) ->
  reshape (WideFrame df) = Py.Ok df_long ->
  files w !! Py.path_join raw_dir "deaths.csv" = None ->
  files w !! Py.path_join raw_dir "recovered.csv" = None ->
  read_datasets raw_dir categories ∅ w
  = (Py.Ok {[ "confirmed" := df_long ]},
     World (files w) (db w)
           (logged w ++
            [WARNING ("Raw data file not found: "
                      ++ Py.path_join raw_dir "deaths.csv");
             WARNING ("Raw data file not found: "
                      ++ Py.path_join raw_dir "recovered.csv")])%list).
Proof.
  intros Hconfirmed Hreshape Hdeaths Hrecovered.
  unfold categories. cbn [read_datasets].
  change ("confirmed" ++ ".csv") with "confirmed.csv".
  change ("deaths" ++ ".csv") with "deaths.csv".
  change ("recovered" ++ ".csv") with "recovered.csv".
  rewrite (bind_run _ _ w (Some (Csv (WideFrame df))) w)
    by (unfold gets; by rewrite Hconfirmed).
  rewrite (bind_run _ _ w (WideFrame df) w) by done.
  rewrite (bind_run _ _ w df_long w) by (unfold lift; by rewrite Hreshape).
  rewrite (bind_run _ _ w None w) by (unfold gets; by rewrite Hdeaths).
  unfold mbind, M_bind, logger, modify, gets. simpl.
  rewrite Hrecovered. simpl. rewrite insert_empty, <- app_assoc. done.
Qed.

Lemma transform_data_unreadable e config cfg raw_dir w category content ex :
  config_or_import e config = Some cfg ->
  cfg !! "raw_data_path" = Some raw_dir ->
  category ∈ categories ->
  files w !! Py.path_join raw_dir (category ++ ".csv") = Some content ->
  read_csv content = Py.Raise ex ->
  let run := transform_data e config w in
  run.1 = Py.Ok false
  /\ files run.2 = files w
  /\ exists ex',
       last (logged run.2) = Some (ERROR_exn "Error during data transformation" ex').
Proof.
  intros Hcfg Hraw Hcat Hfile Hread run. subst run.
  unfold transform_data, try_except. rewrite Hcfg. unfold getitem. rewrite Hraw.
  rewrite (bind_run _ _ w raw_dir w) by done.
  destruct (cfg !! "processed_data_path") as [processed_dir|].
  - rewrite (bind_run _ _ w processed_dir w) by done.
    destruct (read_datasets_unreadable raw_dir category content ex categories
                Hcat Hread ∅ w Hfile) as (ex' & w' & Hrun).
    rewrite (bind_Raise _ _ _ _ _ Hrun). simpl.
    pose proof (read_datasets_respects same_files raw_dir categories
                  logger_same_files ∅ w _ _ Hrun) as Hfiles.
    repeat split; [done|]. exists ex'. apply last_snoc.
  - simpl. repeat split. eexists. apply last_snoc.
Qed.

(** The three tables can be read back under their names once
    [transform_data] has written its four files. *)
Lemma lookup_written_tables (m : gmap string file) dir full country daily metadata :
  let m' := <[Py.path_join dir "transformation_metadata.txt" := metadata]>
              (<[Py.path_join dir "covid_daily_changes.csv" := daily]>
                 (<[Py.path_join dir "covid_data_by_country.csv" := country]>
                    (<[Py.path_join dir "covid_data_transformed.csv" := full]> m))) in
  m' !! Py.path_join dir "covid_data_transformed.csv" = Some full
  /\ m' !! Py.path_join dir "covid_data_by_country.csv" = Some country
  /\ m' !! Py.path_join dir "covid_daily_changes.csv" = Some daily.
Proof.
  intros m'. subst m'. repeat split.
  - rewrite !lookup_insert_ne by different_paths. apply lookup_insert_eq.
  - rewrite !lookup_insert_ne by different_paths. apply lookup_insert_eq.
  - rewrite lookup_insert_ne by different_paths. apply lookup_insert_eq.
Qed.

(** Writing the four files leaves the raw files as they are. *)
Lemma lookup_raw_after_write (m : gmap string file) dir raw_dir category
    full country daily metadata :
  category ∈ categories ->
  <[Py.path_join dir "transformation_metadata.txt" := metadata]>
    (<[Py.path_join dir "covid_daily_changes.csv" := daily]>
       (<[Py.path_join dir "covid_data_by_country.csv" := country]>
          (<[Py.path_join dir "covid_data_transformed.csv" := full]> m)))
    !! Py.path_join raw_dir (category ++ ".csv")
  = m !! Py.path_join raw_dir (category ++ ".csv").
Proof.
  intros Hcat. apply list_elem_of_In in Hcat. simpl in Hcat.
  destruct Hcat as [<-|[<-|[<-|[]]]];
    by rewrite !lookup_insert_ne by different_paths.
Qed.

(** [transform_data] leaves the raw files as they are. *)
Lemma transform_data_keeps_raw e config w raw_dir category :
  category ∈ categories ->
  files (transform_data e config w).2 !! Py.path_join raw_dir (category ++ ".csv")
  = files w !! Py.path_join raw_dir (category ++ ".csv").
Proof.
  intros Hcat.
  destruct (transform_data_cases e config w)
    as [(_ & -> & _)
       |(cfg & raw & proc & ds & full & country & daily & meta
         & _ & _ & _ & _ & _ & _ & ->)]; [done|].
  by apply lookup_raw_after_write.
Qed.

(** Two runs of [transform_data] that find the same raw files (with any
    clock, log and store) return the same, and when they return [True]
    they leave the same three tables in the processed directory. *)
Lemma transform_data_agree e1 e2 config processed_dir w1 w2 :
  config !! "processed_data_path" = Some processed_dir ->
  (forall raw_dir category,
     config !! "raw_data_path" = Some raw_dir ->
     category ∈ categories ->
     files w2 !! Py.path_join raw_dir (category ++ ".csv")
     = files w1 !! Py.path_join raw_dir (category ++ ".csv")) ->
  let run1 := transform_data e1 (Some config) w1 in
  let run2 := transform_data e2 (Some config) w2 in
  run2.1 = run1.1
  /\ (run1.1 = Py.Ok true ->
      exists full country daily,
        (files run1.2 !! Py.path_join processed_dir "covid_data_transformed.csv"
         = Some (Csv (FullFrame full))
         /\ files run2.2 !! Py.path_join processed_dir "covid_data_transformed.csv"
            = Some (Csv (FullFrame full)))
        /\ (files run1.2 !! Py.path_join processed_dir "covid_data_by_country.csv"
            = Some (Csv (CountryFrame country))
            /\ files run2.2 !! Py.path_join processed_dir "covid_data_by_country.csv"
               = Some (Csv (CountryFrame country)))
        /\ (files run1.2 !! Py.path_join processed_dir "covid_daily_changes.csv"
            = Some (Csv (DailyFrame daily))
            /\ files run2.2 !! Py.path_join processed_dir "covid_daily_changes.csv"
               = Some (Csv (DailyFrame daily)))).
Proof.
  intros Hproc Hraw run1 run2. subst run1 run2.
  destruct (transform_data_cases e1 (Some config) w1)
    as [(Hr1 & Hf1 & Hnone1)
       |(cfg1 & raw1 & proc1 & ds1 & full1 & country1 & daily1 & meta1
         & Hcfg1 & Hraw1 & Hproc1 & Hread1 & Hout1 & Hr1 & Hf1)];
  destruct (transform_data_cases e2 (Some config) w2)
    as [(Hr2 & Hf2 & Hnone2)
       |(cfg2 & raw2 & proc2 & ds2 & full2 & country2 & daily2 & meta2
         & Hcfg2 & Hraw2 & Hproc2 & Hread2 & Hout2 & Hr2 & Hf2)];
  cbv zeta in *.
  - rewrite Hr1, Hr2. split; done.
  - exfalso. simpl in Hcfg2. injection Hcfg2 as <-.
    rewrite (read_datasets_agree raw2 categories ∅ w2 w1) in Hread2
      by (intros; by apply Hraw).
    specialize (Hnone1 config raw2 proc2 ds2 eq_refl Hraw2 Hproc2 Hread2).
    congruence.
  - exfalso. simpl in Hcfg1. injection Hcfg1 as <-.
    rewrite (read_datasets_agree raw1 categories ∅ w1 w2) in Hread1
      by (intros; symmetry; by apply Hraw).
    specialize (Hnone2 config raw1 proc1 ds1 eq_refl Hraw1 Hproc1 Hread1).
    congruence.
  - simpl in Hcfg1, Hcfg2. injection Hcfg1 as <-. injection Hcfg2 as <-.
    assert (raw2 = raw1) as -> by congruence.
    assert (proc1 = processed_dir) as -> by congruence.
    assert (proc2 = processed_dir) as -> by congruence.
    rewrite (read_datasets_agree raw1 categories ∅ w1 w2) in Hread1
      by (intros; symmetry; by apply Hraw).
    rewrite Hread1 in Hread2. injection Hread2 as <-.
    rewrite Hout1 in Hout2. injection Hout2 as <- <- <-.
    rewrite Hr1, Hr2, Hf1, Hf2.
    destruct (lookup_written_tables (files w1) processed_dir full1 country1 daily1 meta1)
      as (-> & -> & ->).
    destruct (lookup_written_tables (files w2) processed_dir full1 country1 daily1 meta2)
      as (-> & -> & ->).
    split; [done|].
    intros _. unfold outputs in Hout1.
    destruct (ds1 !! "confirmed") as [backbone|]; [|done].
    simpl in Hout1. injection Hout1 as <- <- <-. by do 3 eexists.
Qed.

End TransformStageFacts.

Module ExtractFacts.
Import Frame World Extract Notions StageFacts.

(** One pass of the download loop returns, and the body of a response
    that arrived is on disk afterwards, whatever the check said. *)
Lemma download_run e raw_dir n item w :
  exists n' w',
    download e raw_dir n item w = (Py.Ok n', w')
    /\ db w' = db w
    /\ files w'
       = match requests_get e item.2 with
         | Some content =>
             <[Py.path_join raw_dir (item.1 ++ ".csv") := content]> (files w)
         | None => files w
         end
    /\ (n' = S n -> exists content df,
          requests_get e item.2 = Some content
          /\ nonempty content = true /\ read_csv content = Py.Ok df).
Proof.
  unfold download, try_except, get, mbind, M_bind, write_file, modify, lift,
    logger, raise, mret, M_ret.
  destruct (requests_get e item.2) as [content|]; simpl.
  - destruct (nonempty content) eqn:Hsize; simpl.
    + destruct (read_csv content) as [df|ex] eqn:Hread; simpl.
      * do 2 eexists. repeat split; eauto.
      * destruct ex; do 2 eexists; (repeat split; [done..|]); intros; lia.
    + do 2 eexists. repeat split; [done..|]. intros; lia.
  - do 2 eexists. repeat split; [done..|]. intros; lia.
Qed.

Lemma extract_data_run e config cfg raw_dir w :
  config_or_import e config = Some cfg ->
  cfg !! "raw_data_path" = Some raw_dir ->
  exists n1 n2 n3 w1 w2 w3,
    download e raw_dir 0%nat (URLS !!! 0%nat) w = (Py.Ok n1, w1)
    /\ download e raw_dir n1 (URLS !!! 1%nat) w1 = (Py.Ok n2, w2)
    /\ download e raw_dir n2 (URLS !!! 2%nat) w2 = (Py.Ok n3, w3)
    /\ extract_data e config w
       = (Py.Ok Py.PyNone,
          World (<[Py.path_join raw_dir "extraction_metadata.txt"
                   := ExtractionMetadata (now e) n3 3]> (files w3))
                (db w3) (logged w3)).
Proof.
  intros Hcfg Hraw. unfold extract_data. rewrite Hcfg. unfold getitem. rewrite Hraw.
  rewrite (bind_run _ _ w raw_dir w) by done.
  destruct (download_run e raw_dir 0 (URLS !!! 0%nat) w) as (n1 & w1 & Hd1 & _).
  destruct (download_run e raw_dir n1 (URLS !!! 1%nat) w1) as (n2 & w2 & Hd2 & _).
  destruct (download_run e raw_dir n2 (URLS !!! 2%nat) w2) as (n3 & w3 & Hd3 & _).
  exists n1, n2, n3, w1, w2, w3. do 3 (split; [done|]).
  rewrite (bind_run _ _ w n3 w3); [done|].
  unfold URLS. cbn [for_each].
  rewrite (bind_run _ _ w n1 w1) by exact Hd1.
  rewrite (bind_run _ _ w1 n2 w2) by exact Hd2.
  rewrite (bind_run _ _ w2 n3 w3) by exact Hd3.
  done.
Qed.

Lemma lookup_written_ne (response : option file) (p q : string)
    (m : gmap string file) :
  p <> q ->
  match response with
  | Some content => <[p := content]> m
  | None => m
  end !! q = m !! q.
Proof. intros Hne. destruct response; by rewrite ?lookup_insert_ne. Qed.

(** Whatever a host answered is what the raw file of the category holds
    when the stage is over. *)
Lemma extract_data_leaves_body e config cfg raw_dir w item content :
  config_or_import e config = Some cfg ->
  cfg !! "raw_data_path" = Some raw_dir ->
  item ∈ URLS ->
  requests_get e item.2 = Some content ->
  files (extract_data e config w).2 !! Py.path_join raw_dir (item.1 ++ ".csv")
  = Some content.
Proof.
  intros Hcfg Hraw Hitem Hget.
  destruct (extract_data_run e config cfg raw_dir w Hcfg Hraw)
    as (n1 & n2 & n3 & w1 & w2 & w3 & Hd1 & Hd2 & Hd3 & ->).
  destruct (download_run e raw_dir 0 (URLS !!! 0%nat) w)
    as (? & ? & Hd1' & _ & Hf1 & _).
  rewrite Hd1 in Hd1'. injection Hd1' as <- <-.
  destruct (download_run e raw_dir n1 (URLS !!! 1%nat) w1)
    as (? & ? & Hd2' & _ & Hf2 & _).
  rewrite Hd2 in Hd2'. injection Hd2' as <- <-.
  destruct (download_run e raw_dir n2 (URLS !!! 2%nat) w2)
    as (? & ? & Hd3' & _ & Hf3 & _).
  rewrite Hd3 in Hd3'. injection Hd3' as <- <-.
  cbn [snd files]. rewrite Hf3, Hf2, Hf1.
  revert Hitem Hget. unfold URLS. cbn [lookup_total list_lookup_total fst snd].
  intros Hitem Hget.
  apply list_elem_of_In in Hitem. simpl in Hitem.
  destruct Hitem as [<-|[<-|[<-|[]]]]; cbn [fst snd] in *;
    rewrite lookup_insert_ne by different_paths;
    repeat first
      [ rewrite Hget, lookup_insert_eq; reflexivity
      | rewrite lookup_written_ne by different_paths ].
Qed.

End ExtractFacts.

Module LoadFacts.
Import Frame World Load Notions StageFacts.

(** Stepping through a run: case analysis on what the next piece does. *)
Ltac respects_step :=
  match goal with
  | |- respects ?R (mret _) => apply (respects_ret R)
  | |- respects ?R (raise _) => apply (respects_raise R)
  | |- respects ?R (lift _) => apply (respects_lift R)
  | |- respects ?R (gets _) => apply (respects_gets R)
  | |- respects ?R (getitem _ _) => apply (getitem_respects R)
  | |- respects ?R (_ ≫= _) => apply (respects_bind R); [|intros ?]
  | |- respects ?R (try_except _ _) => apply (respects_try_except R); [|intros ?]
  | |- respects ?R (for_each _ _ _) => apply (respects_for_each R); intros ? ? ?
  | |- respects _ (match ?x with _ => _ end) => destruct x
  end.

(** *** Requests leave the files alone and only add to the log *)

Lemma logger_quiet r : respects quiet (logger r).
Proof.
  apply respects_modify. intros w. split; [done|]. by exists [r].
Qed.

Lemma update_db_quiet f : respects quiet (update_db f).
Proof.
  apply respects_modify. intros w. split; [done|].
  exists []. simpl. by rewrite app_nil_r.
Qed.

Lemma request_quiet e s : respects quiet (request e s).
Proof.
  unfold request. destruct (fails e s); [respects_step|apply update_db_quiet].
Qed.

Create HintDb quiet.
#[local] Hint Resolve logger_quiet update_db_quiet request_quiet : quiet.

Ltac quiet_steps :=
  repeat first [ solve [eauto with quiet] | respects_step ].

Lemma get_conn_quiet e : respects quiet (get_conn e).
Proof. unfold get_conn. quiet_steps. Qed.

Lemma create_database_schema_quiet e : respects quiet (create_database_schema e).
Proof. unfold create_database_schema, create_table_if_not_exists. quiet_steps. Qed.

Lemma load_file_quiet e processed_dir n item :
  respects quiet (load_file e processed_dir n item).
Proof.
  unfold load_file, drop_table_cascade, to_sql, count_rows. quiet_steps.
Qed.

Lemma create_analytical_views_quiet e : respects quiet (create_analytical_views e).
Proof. unfold create_analytical_views, create_or_replace_view. quiet_steps. Qed.

Lemma create_indexes_quiet e : respects quiet (create_indexes e).
Proof. unfold create_indexes, create_index_if_not_exists. quiet_steps. Qed.

Lemma check_if_table_exists_quiet e t : respects quiet (check_if_table_exists e t).
Proof. unfold check_if_table_exists. quiet_steps. Qed.

Lemma insert_metadata_quiet e row : respects quiet (insert_metadata e row).
Proof. unfold insert_metadata. quiet_steps. Qed.

Lemma conn_commit_quiet e : respects quiet (conn_commit e).
Proof. unfold conn_commit. quiet_steps. Qed.

Lemma conn_rollback_quiet e : respects quiet (conn_rollback e).
Proof. unfold conn_rollback. quiet_steps. Qed.

Lemma conn_close_quiet : respects quiet conn_close.
Proof. unfold conn_close. quiet_steps. Qed.

#[local] Hint Resolve get_conn_quiet create_database_schema_quiet
  load_file_quiet create_analytical_views_quiet create_indexes_quiet
  check_if_table_exists_quiet insert_metadata_quiet conn_commit_quiet
  conn_rollback_quiet conn_close_quiet : quiet.

Lemma after_loop_quiet e n : respects quiet (after_loop e n).
Proof. unfold after_loop. quiet_steps. Qed.

Lemma load_data_quiet e config : respects quiet (load_data e config).
Proof.
  unfold load_data. quiet_steps.
Qed.

(** *** A table that a run neither drops nor reloads *)

Lemma kept_same_db t w w' : db w' = db w -> kept t w w'.
Proof.
  intros Hdb. unfold kept. rewrite Hdb. split; [|by left].
  exists []. rewrite app_nil_r. repeat split; apply not_elem_of_nil.
Qed.

Lemma logger_kept t r : respects (kept t) (logger r).
Proof. apply respects_modify. intros w. by apply kept_same_db. Qed.

(** A change of the store that sends no request and keeps the table. *)
Lemma update_db_kept t f :
  (forall d, history (f d) = history d
             /\ (tables (f d) !! t = tables d !! t
                 \/ (tables d !! t = None
                     /\ tables (f d) !! t = Some (empty_table t)))) ->
  respects (kept t) (update_db f).
Proof.
  intros Hf. apply respects_modify. intros w. simpl.
  destruct (Hf (db w)) as [Hh Ht]. split; [|done].
  exists []. rewrite app_nil_r. repeat split; [done|apply not_elem_of_nil..].
Qed.

Lemma request_kept t e s :
  s <> DropTable t -> s <> ToSql t -> respects (kept t) (request e s).
Proof.
  intros Hd Hs. unfold request. destruct (fails e s); [respects_step|].
  apply respects_modify. intros w. simpl. split; [|by left].
  exists [s]. repeat split; by apply not_elem_of_cons; split; [|apply not_elem_of_nil].
Qed.

Lemma commit_table_kept t d table :
  history (commit_table d table) = history d
  /\ (tables (commit_table d table) !! t = tables d !! t
      \/ (tables d !! t = None
          /\ tables (commit_table d table) !! t = Some (empty_table t))).
Proof.
  unfold commit_table. destruct (decide (table = "etl_metadata")); [by split; [|left]|].
  destruct (tables d !! table) eqn:Htable; [by split; [|left]|].
  split; [done|]. simpl.
  destruct (decide (table = t)) as [->|Hne].
  - right. by rewrite lookup_insert_eq.
  - left. by rewrite lookup_insert_ne.
Qed.

Lemma foldl_commit_table_kept t created : forall d,
  history (foldl commit_table d created) = history d
  /\ (tables (foldl commit_table d created) !! t = tables d !! t
      \/ (tables d !! t = None
          /\ tables (foldl commit_table d created) !! t = Some (empty_table t))).
Proof.
  induction created as [|table created IH]; intros d; simpl; [by split; [|left]|].
  destruct (IH (commit_table d table)) as [Hh Ht].
  destruct (commit_table_kept t d table) as [Hh' Ht'].
  split; [congruence|].
  destruct Ht as [Ht|[Ht1 Ht2]], Ht' as [Ht'|[Ht1' Ht2']].
  - left. congruence.
  - right. split; [done|congruence].
  - right. split; [congruence|done].
  - congruence.
Qed.

Create HintDb kept.
#[local] Hint Resolve logger_kept : kept.

Ltac kept_steps :=
  repeat first
    [ solve [eauto with kept]
    | respects_step
    | apply request_kept; [discriminate|discriminate]
    | apply update_db_kept; intros ?; split; [reflexivity|left; reflexivity] ].

Lemma get_conn_kept t e : respects (kept t) (get_conn e).
Proof. unfold get_conn. kept_steps. Qed.

Lemma create_table_if_not_exists_kept t e table :
  respects (kept t) (create_table_if_not_exists e table).
Proof.
  unfold create_table_if_not_exists. kept_steps.
  apply update_db_kept. intros d.
  destruct (conn d); [|by split; [|left]].
  destruct (_ || _); by split; [|left].
Qed.

Lemma create_database_schema_kept t e : respects (kept t) (create_database_schema e).
Proof.
  unfold create_database_schema.
  pose proof (create_table_if_not_exists_kept t e).
  kept_steps.
Qed.

Lemma create_analytical_views_kept t e : respects (kept t) (create_analytical_views e).
Proof. unfold create_analytical_views, create_or_replace_view. kept_steps. Qed.

Lemma create_indexes_kept t e : respects (kept t) (create_indexes e).
Proof. unfold create_indexes, create_index_if_not_exists. kept_steps. Qed.

Lemma check_if_table_exists_kept t e table :
  respects (kept t) (check_if_table_exists e table).
Proof. unfold check_if_table_exists. kept_steps. Qed.

Lemma insert_metadata_kept t e row : respects (kept t) (insert_metadata e row).
Proof. unfold insert_metadata. kept_steps. Qed.

Lemma conn_commit_kept t e : respects (kept t) (conn_commit e).
Proof.
  unfold conn_commit. kept_steps.
  apply update_db_kept. intros d. simpl. apply foldl_commit_table_kept.
Qed.

Lemma conn_rollback_kept t e : respects (kept t) (conn_rollback e).
Proof. unfold conn_rollback. kept_steps. Qed.

Lemma conn_close_kept t : respects (kept t) conn_close.
Proof. unfold conn_close. kept_steps. Qed.

(** Loading another table keeps this one. *)
Lemma load_file_kept t e processed_dir n item :
  item.2 <> t -> respects (kept t) (load_file e processed_dir n item).
Proof.
  intros Hne. unfold load_file, drop_table_cascade, to_sql, count_rows.
  kept_steps.
  - apply request_kept; congruence.
  - apply update_db_kept. intros d. split; [done|]. left. simpl.
    by apply lookup_delete_ne.
  - apply request_kept; congruence.
  - apply update_db_kept. intros d. split; [done|]. left. simpl.
    by apply lookup_insert_ne.
Qed.

#[local] Hint Resolve get_conn_kept create_database_schema_kept
  create_analytical_views_kept create_indexes_kept check_if_table_exists_kept
  insert_metadata_kept conn_commit_kept conn_rollback_kept conn_close_kept : kept.

Lemma after_loop_kept t e n : respects (kept t) (after_loop e n).
Proof. unfold after_loop. kept_steps. Qed.

(** *** Taking a run that returned apart *)

Lemma for_each_Ok_split {A B} (body : B -> A -> M B) before x after :
  forall acc w r w',
    for_each body acc (before ++ x :: after) w = (Py.Ok r, w') ->
    exists a1 w1 a2 w2,
      for_each body acc before w = (Py.Ok a1, w1)
      /\ body a1 x w1 = (Py.Ok a2, w2)
      /\ for_each body a2 after w2 = (Py.Ok r, w').
Proof.
  induction before as [|y before IH]; intros acc w r w' Hrun; simpl in Hrun.
  - apply bind_Ok in Hrun as (a2 & w2 & Hx & Hafter).
    exists acc, w, a2, w2. done.
  - apply bind_Ok in Hrun as (ay & wy & Hy & Hrest).
    destruct (IH _ _ _ _ Hrest) as (a1 & w1 & a2 & w2 & Hbefore & Hx & Hafter).
    exists a1, w1, a2, w2. split; [|done].
    simpl. by rewrite (bind_run _ _ _ _ _ Hy).
Qed.

(** The parts of a run of [load_data] that returned [True]. *)
Lemma load_data_Ok e config cfg processed_dir w w' :
  config_or_import e config = Some cfg ->
  cfg !! "processed_data_path" = Some processed_dir ->
  load_data e config w = (Py.Ok true, w') ->
  exists w1 rows_loaded w2,
    (get_conn e;; create_database_schema e;; request e GetEngine) w = (Py.Ok tt, w1)
    /\ for_each (load_file e processed_dir) 0%nat files_to_load w1
       = (Py.Ok rows_loaded, w2)
    /\ after_loop e rows_loaded w2 = (Py.Ok true, w').
Proof.
  intros Hcfg Hproc Hrun. unfold load_data in Hrun.
  rewrite Hcfg in Hrun. unfold try_except in Hrun.
  match type of Hrun with
  | context [match ?body w with _ => _ end] =>
      destruct (body w) as [[b|ex] wb] eqn:Hbody
  end.
  2: { exfalso. do 3 (apply bind_Ok in Hrun as (? & ? & _ & Hrun)). done. }
  injection Hrun as -> ->. rename Hbody into Hrun.
  unfold getitem in Hrun. rewrite Hproc in Hrun.
  rewrite (bind_run _ _ w processed_dir w) in Hrun by done.
  apply bind_Ok in Hrun as (conn_id & w0 & Hconn & Hrun).
  assert (w0 = w) as ->.
  { destruct (cfg !! "postgres_conn_id"); cbv [mret M_ret raise] in Hconn;
      by simplify_eq. }
  apply bind_Ok in Hrun as ([] & wa & Hget & Hrun).
  apply bind_Ok in Hrun as ([] & wb & Hschema & Hrun).
  apply bind_Ok in Hrun as ([] & w1 & Hengine & Hrun).
  apply bind_Ok in Hrun as (rows_loaded & w2 & Hloop & Hrun).
  exists w1, rows_loaded, w2. split; [|done].
  rewrite (bind_run _ _ _ _ _ Hget), (bind_run _ _ _ _ _ Hschema). done.
Qed.

Lemma before_loop_quiet e :
  respects quiet (get_conn e;; create_database_schema e;; request e GetEngine).
Proof. quiet_steps. Qed.

Lemma before_loop_kept t e :
  respects (kept t) (get_conn e;; create_database_schema e;; request e GetEngine).
Proof. kept_steps. Qed.

Lemma log_grows_elem w w' r : log_grows w w' -> r ∈ logged w -> r ∈ logged w'.
Proof. intros [more ->] Hr. apply elem_of_app. by left. Qed.

(** The file of every other entry of [files_to_load] goes to another
    table. *)
Lemma files_to_load_split item :
  item ∈ files_to_load ->
  exists before after,
    files_to_load = (before ++ item :: after)%list
    /\ (forall other, other ∈ before -> other.2 <> item.2)
    /\ (forall other, other ∈ after -> other.2 <> item.2).
Proof.
  intros Hitem. apply list_elem_of_In in Hitem. simpl in Hitem.
  destruct Hitem as [<-|[<-|[<-|[]]]].
  - exists [], [("covid_data_by_country.csv", "country_summary");
                ("covid_daily_changes.csv", "daily_changes")].
    split; [done|]. split; intros other Hother; [by apply elem_of_nil in Hother|].
    apply list_elem_of_In in Hother. simpl in Hother.
    destruct Hother as [<-|[<-|[]]]; done.
  - exists [("covid_data_transformed.csv", "full_data")],
           [("covid_daily_changes.csv", "daily_changes")].
    split; [done|].
    split; intros other Hother; apply list_elem_of_In in Hother; simpl in Hother;
      destruct Hother as [<-|[]]; done.
  - exists [("covid_data_transformed.csv", "full_data");
            ("covid_data_by_country.csv", "country_summary")], [].
    split; [done|]. split; intros other Hother; [|by apply elem_of_nil in Hother].
    apply list_elem_of_In in Hother. simpl in Hother.
    destruct Hother as [<-|[<-|[]]]; done.
Qed.

(** The pass of the loop for a file that does not exist. *)
Lemma load_file_missing e processed_dir n item w :
  files w !! Py.path_join processed_dir item.1 = None ->
  load_file e processed_dir n item w
  = (Py.Ok n,
     World (files w) (db w)
           (logged w ++ [WARNING ("Processed data file not found: "
                                  ++ Py.path_join processed_dir item.1)])%list).
Proof.
  intros Hfile. unfold load_file.
  rewrite (bind_run _ _ w None w) by (unfold gets; by rewrite Hfile).
  reflexivity.
Qed.

(** The pass of the loop for a file that exists, when it returns: the
    file was read, and its table holds what was read. *)
Lemma load_file_present e processed_dir n item content w n' w' :
  files w !! Py.path_join processed_dir item.1 = Some content ->
  load_file e processed_dir n item w = (Py.Ok n', w') ->
  exists df, read_csv content = Py.Ok df /\ tables (db w') !! item.2 = Some df.
Proof.
  intros Hfile Hrun. unfold load_file in Hrun.
  rewrite (bind_run _ _ w (Some content) w) in Hrun
    by (unfold gets; by rewrite Hfile).
  apply bind_Ok in Hrun as (df & w0 & Hread & Hrun).
  unfold lift in Hread. injection Hread as Hread <-.
  exists df. split; [done|].
  apply bind_Ok in Hrun as ([] & w1 & Hdrop & Hrun).
  apply bind_Ok in Hrun as ([] & w2 & Hsql & Hrun).
  apply bind_Ok in Hrun as (count & w3 & Hcount & Hrun).
  cbv [mret M_ret] in Hrun. injection Hrun as _ <-.
  unfold to_sql in Hsql. apply bind_Ok in Hsql as ([] & w1' & _ & Hsql).
  cbv [update_db modify] in Hsql. injection Hsql as <-.
  unfold count_rows in Hcount. apply bind_Ok in Hcount as ([] & w2' & Hreq & Hcount).
  apply bind_Ok in Hcount as (t & w2'' & Hgets & Hcount).
  cbv [gets] in Hgets. injection Hgets as <- <-.
  assert (tables (db w2') !! item.2 = Some df) as Htable.
  { unfold request in Hreq. destruct (fails e _); [done|].
    cbv [update_db modify] in Hreq. injection Hreq as <-. simpl.
    apply lookup_insert_eq. }
  rewrite Htable in Hcount. cbv [mret M_ret] in Hcount. injection Hcount as _ <-.
  done.
Qed.

(** A run of [load_data] that returned [True] without the file of a table:
    the pass for the table warned, and nothing dropped or reloaded it. *)
Lemma load_data_skips e config cfg processed_dir w w' item :
  config_or_import e config = Some cfg ->
  cfg !! "processed_data_path" = Some processed_dir ->
  item ∈ files_to_load ->
  files w !! Py.path_join processed_dir item.1 = None ->
  load_data e config w = (Py.Ok true, w') ->
  WARNING ("Processed data file not found: " ++ Py.path_join processed_dir item.1)
    ∈ logged w'
  /\ kept item.2 w w'.
Proof.
  intros Hcfg Hproc Hitem Hfile Hrun.
  destruct (load_data_Ok e config cfg processed_dir w w' Hcfg Hproc Hrun)
    as (w1 & rows_loaded & w2 & Hbefore & Hloop & Hafter).
  destruct (files_to_load_split item Hitem)
    as (before & after & Hsplit & Hb & Ha).
  rewrite Hsplit in Hloop.
  apply for_each_Ok_split in Hloop
    as (a1 & wa & a2 & wb & Hloop1 & Hpass & Hloop2).
  assert (quiet w wa) as [Hfiles _].
  { etrans; [exact (before_loop_quiet e _ _ _ Hbefore)|].
    eapply (respects_for_each quiet); [|exact Hloop1].
    intros. apply load_file_quiet. }
  rewrite load_file_missing in Hpass by (by rewrite Hfiles).
  assert (db wb = db wa
          /\ WARNING ("Processed data file not found: "
                      ++ Py.path_join processed_dir item.1) ∈ logged wb)
    as [Hdb Hwarn].
  { injection Hpass as _ <-. split; [done|].
    simpl. apply elem_of_app. right. left. }
  clear Hpass.
  assert (quiet wb w') as [_ Hlog].
  { etrans; [|exact (after_loop_quiet e _ _ _ _ Hafter)].
    eapply (respects_for_each quiet); [|exact Hloop2].
    intros. apply load_file_quiet. }
  split.
  - by eapply log_grows_elem.
  - etrans; [exact (before_loop_kept _ e _ _ _ Hbefore)|].
    trans wa.
    { eapply (respects_for_each (kept item.2)); [|exact Hloop1].
      intros acc other Hother. apply load_file_kept. by apply Hb. }
    trans wb; [by apply kept_same_db|].
    etrans; [|exact (after_loop_kept _ e _ _ _ _ Hafter)].
    eapply (respects_for_each (kept item.2)); [|exact Hloop2].
    intros acc other Hother. apply load_file_kept. by apply Ha.
Qed.

(** A run of [load_data] that returned [True] with the file of a table in
    place: the table holds the rows of the file. *)
Lemma load_data_refreshes e config cfg processed_dir w w' item content :
  config_or_import e config = Some cfg ->
  cfg !! "processed_data_path" = Some processed_dir ->
  item ∈ files_to_load ->
  files w !! Py.path_join processed_dir item.1 = Some content ->
  load_data e config w = (Py.Ok true, w') ->
  exists df, read_csv content = Py.Ok df /\ tables (db w') !! item.2 = Some df.
Proof.
  intros Hcfg Hproc Hitem Hfile Hrun.
  destruct (load_data_Ok e config cfg processed_dir w w' Hcfg Hproc Hrun)
    as (w1 & rows_loaded & w2 & Hbefore & Hloop & Hafter).
  destruct (files_to_load_split item Hitem)
    as (before & after & Hsplit & Hb & Ha).
  rewrite Hsplit in Hloop.
  apply for_each_Ok_split in Hloop
    as (a1 & wa & a2 & wb & Hloop1 & Hpass & Hloop2).
  assert (quiet w wa) as [Hfiles _].
  { etrans; [exact (before_loop_quiet e _ _ _ Hbefore)|].
    eapply (respects_for_each quiet); [|exact Hloop1].
    intros. apply load_file_quiet. }
  rewrite <- Hfiles in Hfile.
  destruct (load_file_present _ _ _ _ _ _ _ _ Hfile Hpass) as (df & Hread & Htable).
  exists df. split; [done|].
  assert (kept item.2 wb w') as [_ Hkept].
  { etrans; [|exact (after_loop_kept _ e _ _ _ _ Hafter)].
    eapply (respects_for_each (kept item.2)); [|exact Hloop2].
    intros acc other Hother. apply load_file_kept. by apply Ha. }
  destruct Hkept as [->|[Hnone _]]; [done|congruence].
Qed.

(** *** A run in which the store fails no request *)

Section no_failures.
Context (e : env) (fs : gmap string file) (processed_dir : string).
Hypothesis fails_nothing : forall s, fails e s = false.
Hypothesis readable : forall item content,
  item ∈ files_to_load ->
  fs !! Py.path_join processed_dir item.1 = Some content ->
  exists df, read_csv content = Py.Ok df.

#[local] Abbreviation ready := (Notions.ready fs).

Lemma request_run s w :
  request e s w
  = (Py.Ok tt,
     World (files w)
           (Database (tables (db w)) (etl_metadata (db w)) (views (db w))
                     (indexes (db w)) (conn (db w)) (history (db w) ++ [s]))
           (logged w)).
Proof. unfold request. by rewrite fails_nothing. Qed.

Lemma request_succeeds s : succeeds ready (request e s) (fun _ => True).
Proof.
  intros w Hw. rewrite request_run. do 2 eexists. split; [done|]. split; [|done].
  exact Hw.
Qed.

(** A change of the store under which the tables that exist stay. *)
Lemma update_db_succeeds f :
  (forall d,
     (forall t, is_Some (tables d !! t) -> is_Some (tables (f d) !! t))
     /\ (is_Some (etl_metadata d) -> is_Some (etl_metadata (f d)))) ->
  succeeds ready (update_db f) (fun _ => True).
Proof.
  intros Hf. apply succeeds_modify. intros w (Hfiles & Htables & Haudit).
  destruct (Hf (db w)) as [Ht Ha].
  split; [done|]. split; [|by apply Ha].
  intros item Hitem. by apply Ht, Htables.
Qed.

Lemma logger_succeeds r : succeeds ready (logger r) (fun _ => True).
Proof. apply succeeds_modify. by intros w Hw. Qed.

Lemma table_lookup_succeeds item :
  item ∈ files_to_load ->
  succeeds ready (gets (fun w => tables (db w) !! item.2)) is_Some.
Proof.
  intros Hitem w Hw. do 2 eexists. split; [done|]. split; [done|].
  by apply Hw.
Qed.

Ltac succeeds_steps :=
  repeat first
    [ apply succeeds_try_except
    | apply request_succeeds
    | apply logger_succeeds
    | apply update_db_succeeds; intros ?; simpl; by split
    | eapply succeeds_bind; [|intros ? ?] ].

Lemma get_conn_succeeds : succeeds ready (get_conn e) (fun _ => True).
Proof. unfold get_conn. succeeds_steps. Qed.

Lemma create_table_if_not_exists_succeeds t :
  succeeds ready (create_table_if_not_exists e t) (fun _ => True).
Proof.
  unfold create_table_if_not_exists. succeeds_steps.
  apply update_db_succeeds. intros d.
  destruct (conn d); [|done]. by destruct (_ || _).
Qed.

Lemma create_database_schema_succeeds :
  succeeds ready (create_database_schema e) (fun _ => True).
Proof.
  unfold create_database_schema. apply succeeds_try_except.
  repeat (eapply succeeds_bind;
          [apply create_table_if_not_exists_succeeds|intros ? ?]).
  apply create_table_if_not_exists_succeeds.
Qed.

Lemma create_or_replace_view_succeeds view item :
  item ∈ files_to_load ->
  succeeds ready (create_or_replace_view e view item.2) (fun _ => True).
Proof.
  intros Hitem. unfold create_or_replace_view.
  eapply succeeds_bind; [apply request_succeeds|intros _ _].
  eapply succeeds_bind; [by apply table_lookup_succeeds|].
  intros t [df ->]. succeeds_steps.
Qed.

Lemma create_index_if_not_exists_succeeds index item :
  item ∈ files_to_load ->
  succeeds ready (create_index_if_not_exists e index item.2) (fun _ => True).
Proof.
  intros Hitem. unfold create_index_if_not_exists.
  eapply succeeds_bind; [apply request_succeeds|intros _ _].
  eapply succeeds_bind; [by apply table_lookup_succeeds|].
  intros t [df ->]. succeeds_steps.
Qed.

Lemma create_analytical_views_succeeds :
  succeeds ready (create_analytical_views e) (fun _ => True).
Proof.
  unfold create_analytical_views. apply succeeds_try_except.
  eapply succeeds_bind;
    [apply (create_or_replace_view_succeeds _ ("covid_data_by_country.csv", "country_summary"));
     set_solver|intros _ _].
  eapply succeeds_bind;
    [apply (create_or_replace_view_succeeds _ ("covid_data_by_country.csv", "country_summary"));
     set_solver|intros _ _].
  apply (create_or_replace_view_succeeds _ ("covid_daily_changes.csv", "daily_changes")).
  set_solver.
Qed.

Lemma create_indexes_succeeds : succeeds ready (create_indexes e) (fun _ => True).
Proof.
  unfold create_indexes. apply succeeds_try_except.
  eapply succeeds_bind;
    [apply (create_index_if_not_exists_succeeds _ ("covid_data_transformed.csv", "full_data"));
     set_solver|intros _ _].
  eapply succeeds_bind;
    [apply (create_index_if_not_exists_succeeds _ ("covid_data_transformed.csv", "full_data"));
     set_solver|intros _ _].
  eapply succeeds_bind;
    [apply (create_index_if_not_exists_succeeds _ ("covid_data_by_country.csv", "country_summary"));
     set_solver|intros _ _].
  eapply succeeds_bind;
    [apply (create_index_if_not_exists_succeeds _ ("covid_daily_changes.csv", "daily_changes"));
     set_solver|intros _ _].
  apply (create_index_if_not_exists_succeeds _ ("covid_daily_changes.csv", "daily_changes")).
  set_solver.
Qed.

Lemma check_if_table_exists_succeeds t :
  succeeds ready (check_if_table_exists e t) (fun _ => True).
Proof.
  unfold check_if_table_exists. apply succeeds_try_except.
  eapply succeeds_bind; [apply request_succeeds|intros _ _].
  intros w Hw. by do 2 eexists.
Qed.

Lemma insert_metadata_succeeds row :
  succeeds ready (insert_metadata e row) (fun _ => True).
Proof.
  unfold insert_metadata.
  eapply succeeds_bind; [apply request_succeeds|intros _ _].
  eapply (succeeds_bind _ _ _ is_Some).
  { intros w Hw. do 2 eexists. split; [done|]. split; [done|]. apply Hw. }
  intros rows [audit ->]. succeeds_steps.
Qed.

Lemma foldl_commit_table_grows created : forall d,
  (forall t, is_Some (tables d !! t) ->
             is_Some (tables (foldl commit_table d created) !! t))
  /\ (is_Some (etl_metadata d) ->
      is_Some (etl_metadata (foldl commit_table d created))).
Proof.
  induction created as [|table created IH]; intros d; [done|].
  simpl. destruct (IH (commit_table d table)) as [Ht Ha].
  split.
  - intros t Hsome. apply Ht. unfold commit_table.
    destruct (decide (table = "etl_metadata")); [done|].
    destruct (tables d !! table) eqn:Htable; [done|]. simpl.
    destruct (decide (table = t)) as [->|Hne];
      [by rewrite lookup_insert_eq|by rewrite lookup_insert_ne].
  - intros Hsome. apply Ha. unfold commit_table.
    destruct (decide (table = "etl_metadata")); [done|].
    by destruct (tables d !! table).
Qed.

Lemma conn_commit_succeeds : succeeds ready (conn_commit e) (fun _ => True).
Proof.
  unfold conn_commit.
  eapply succeeds_bind; [apply request_succeeds|intros _ _].
  apply update_db_succeeds. intros d. simpl. apply foldl_commit_table_grows.
Qed.

Lemma conn_close_succeeds : succeeds ready conn_close (fun _ => True).
Proof. unfold conn_close. succeeds_steps. Qed.

Lemma drop_table_cascade_run t w :
  drop_table_cascade e t w
  = (Py.Ok tt,
     World (files w)
           (Database (delete t (tables (db w))) (etl_metadata (db w))
                     (filter (fun kv => kv.2 <> t) (views (db w)))
                     (filter (fun kv => kv.2 <> t) (indexes (db w)))
                     (conn (db w)) (history (db w) ++ [DropTable t]))
           (logged w)).
Proof.
  unfold drop_table_cascade.
  by rewrite (bind_run _ _ _ _ _ (request_run _ _)).
Qed.

Lemma to_sql_run t df w :
  to_sql e t df w
  = (Py.Ok tt,
     World (files w)
           (Database (<[t := df]> (tables (db w))) (etl_metadata (db w))
                     (views (db w)) (indexes (db w)) (conn (db w))
                     (history (db w) ++ [ToSql t]))
           (logged w)).
Proof. unfold to_sql. by rewrite (bind_run _ _ _ _ _ (request_run _ _)). Qed.

Lemma count_rows_run t df w :
  tables (db w) !! t = Some df ->
  count_rows e t w
  = (Py.Ok (len df),
     World (files w)
           (Database (tables (db w)) (etl_metadata (db w)) (views (db w))
                     (indexes (db w)) (conn (db w))
                     (history (db w) ++ [CountRows t]))
           (logged w)).
Proof.
  intros Htable. unfold count_rows.
  rewrite (bind_run _ _ _ _ _ (request_run _ _)).
  unfold mbind, M_bind, gets. simpl. by rewrite Htable.
Qed.

Lemma load_file_succeeds n item :
  item ∈ files_to_load ->
  succeeds ready (load_file e processed_dir n item) (fun _ => True).
Proof.
  intros Hitem w Hw. pose proof Hw as (Hfiles & Htables & Haudit).
  destruct (files w !! Py.path_join processed_dir item.1) as [content|] eqn:Hfile.
  - rewrite Hfiles in Hfile.
    destruct (readable item content Hitem Hfile) as [df Hread].
    rewrite <- Hfiles in Hfile.
    unfold load_file.
    rewrite (bind_run _ _ w (Some content) w) by (unfold gets; by rewrite Hfile).
    rewrite (bind_run _ _ w df w) by (unfold lift; by rewrite Hread).
    rewrite (bind_run _ _ _ _ _ (drop_table_cascade_run _ _)).
    rewrite (bind_run _ _ _ _ _ (to_sql_run _ _ _)).
    erewrite bind_run; [|apply (count_rows_run _ df); apply lookup_insert_eq].
    do 2 eexists. split; [reflexivity|]. split; [|done].
    split; [done|]. split; [|done].
    intros other Hother. cbn [tables db].
    destruct (decide (item.2 = other.2)) as [->|Hne].
    + rewrite lookup_insert_eq. by eexists.
    + rewrite lookup_insert_ne, lookup_delete_ne by done. by apply Htables.
  - rewrite load_file_missing by done. do 2 eexists. split; [done|]. done.
Qed.

Lemma for_each_load_file_succeeds items : forall n,
  (forall item, item ∈ items -> item ∈ files_to_load) ->
  succeeds ready (for_each (load_file e processed_dir) n items) (fun _ => True).
Proof.
  induction items as [|item items IH]; intros n Hitems; simpl.
  - by apply succeeds_ret.
  - eapply succeeds_bind; [apply load_file_succeeds, Hitems; left|].
    intros n' _. apply IH. intros other Hother. apply Hitems. by right.
Qed.

Lemma load_data_succeeds config cfg conn_id w :
  config_or_import e config = Some cfg ->
  cfg !! "processed_data_path" = Some processed_dir ->
  cfg !! "postgres_conn_id" = Some conn_id ->
  ready w ->
  exists w', load_data e config w = (Py.Ok true, w').
Proof.
  intros Hcfg Hproc Hconn Hw.
  assert (succeeds ready (load_data e config) (fun b => b = true)) as Hrun.
  { unfold load_data. apply succeeds_try_except. rewrite Hcfg.
    unfold getitem. rewrite Hproc, Hconn.
    eapply succeeds_bind;
      [by apply (succeeds_ret _ _ (fun a => a = processed_dir))|intros ? ->].
    eapply succeeds_bind; [by apply (succeeds_ret _ _ (fun _ => True))|intros _ _].
    eapply succeeds_bind; [apply get_conn_succeeds|intros _ _].
    eapply succeeds_bind; [apply create_database_schema_succeeds|intros _ _].
    eapply succeeds_bind; [apply request_succeeds|intros _ _].
    eapply succeeds_bind; [by apply for_each_load_file_succeeds|intros rows _].
    eapply succeeds_bind; [apply create_analytical_views_succeeds|intros _ _].
    eapply succeeds_bind; [apply create_indexes_succeeds|intros _ _].
    eapply succeeds_bind; [apply check_if_table_exists_succeeds|intros present _].
    eapply succeeds_bind.
    { destruct present; [apply insert_metadata_succeeds|apply logger_succeeds]. }
    intros _ _.
    eapply succeeds_bind; [apply conn_commit_succeeds|intros _ _].
    eapply succeeds_bind; [apply conn_close_succeeds|intros _ _].
    by apply succeeds_ret. }
  destruct (Hrun w Hw) as (b & w' & Hrun' & _ & ->). eauto.
Qed.

End no_failures.

End LoadFacts.

(** ** The two merges as one join by keys *)

Module JoinFacts.
Import Calendar Order Frame World Transform Notions JoinSpec MergeFacts.

Lemma join_key_same_key r c : join_key r = join_key c <-> same_key r c.
Proof.
  unfold join_key, same_key. split.
  - intros [= ? ? ?]. done.
  - intros (-> & -> & ->). done.
Qed.

Lemma add_category_cells {A} (datasets : gmap string (list long_row))
    (category : string) (key : A -> option string * string * date)
    (left_df : list A) :
  add_category datasets category key left_df
  = flat_map (fun a => map (pair a) (cells (datasets !! category) (key a))) left_df.
Proof.
  unfold add_category, cells, merge_left.
  destruct (datasets !! category) as [right_df|].
  - apply flat_map_ext. intros a.
    destruct (filter _ right_df) as [|r matching]; [done|].
    by rewrite map_map.
  - induction left_df as [|a left_df IH]; [done|]. simpl. by rewrite IH.
Qed.

Lemma counts_cells (right_df : option (list long_row)) (c : long_row) :
  map (default 0) (cells right_df (join_key c)) = counts right_df c.
Proof.
  unfold cells, counts, partners. destruct right_df as [right_df|]; [|done].
  rewrite (list_filter_iff (fun r => join_key r = join_key c)
                           (fun r => same_key r c))
    by (intros r; apply join_key_same_key).
  destruct (filter _ right_df) as [|r matching]; [done|].
  by rewrite map_map.
Qed.

(** The rows one confirmed row gives: one per pair of a deaths cell and a
    recovered cell, the deaths cells outermost. *)
Lemma block_counts (recovered_df : option (list long_row)) (c : long_row)
    (deaths_cells : list cell) :
  let block :=
    map reconcile_row
      (flat_map (fun a : long_row * cell =>
                   map (pair a) (cells recovered_df (join_key a.1)))
                (map (pair c) deaths_cells)) in
  Forall (taken_from c) block
  /\ map (fun o => (deaths o, recovered o)) block
     = list_prod (map (default 0) deaths_cells)
                 (map (default 0) (cells recovered_df (join_key c))).
Proof.
  induction deaths_cells as [|d deaths_cells [IHtaken IHcounts]]; [done|].
  cbn [map flat_map fst]. rewrite map_app, Forall_app. split.
  - split; [|exact IHtaken].
    apply Forall_forall. intros o Ho.
    apply list_elem_of_fmap in Ho as (row & -> & Hrow).
    apply list_elem_of_fmap in Hrow as (r & -> & _).
    apply (reconcile_row_taken (c, d, r)).
  - rewrite map_app. cbn [list_prod]. f_equal; [|exact IHcounts].
    by rewrite !map_map.
Qed.

Lemma reconcile_blocks (datasets : gmap string (list long_row))
    (backbone : list long_row) :
  exists blocks : list (list obs),
    reconcile datasets backbone = concat blocks
    /\ Forall2 (fun c block =>
                  Forall (taken_from c) block
                  /\ map (fun o => (deaths o, recovered o)) block
                     = list_prod (counts (datasets !! "deaths") c)
                                 (counts (datasets !! "recovered") c))
               backbone blocks.
Proof.
  unfold reconcile. rewrite !add_category_cells.
  induction backbone as [|c backbone (blocks & Hconcat & Hblocks)].
  - exists []. split; [done|constructor].
  - eexists (_ :: blocks). cbn [flat_map].
    rewrite flat_map_app, map_app, Hconcat. split; [reflexivity|].
    constructor; [|exact Hblocks].
    destruct (block_counts (datasets !! "recovered") c
                (cells (datasets !! "deaths") (join_key c))) as [Htaken Hcounts].
    split; [exact Htaken|]. by rewrite Hcounts, !counts_cells.
Qed.

End JoinFacts.

(** ** Every run of the load with a file missing *)

Module SkipFacts.
Import Frame World Load Notions Skipping.
Import StageFacts LoadFacts.

Lemma respects_skipped {A} path t (m : M A) :
  respects quiet m -> respects (kept t) m -> respects (skipped path t) m.
Proof.
  intros Hquiet Hkept w r w' Hrun _. split.
  - by destruct (Hquiet w r w' Hrun).
  - by apply (Hkept w r w' Hrun).
Qed.

(** The handler of [load_data]. *)
Lemma handler_quiet e ex :
  respects quiet
    (logger (ERROR_exn "Error during data loading" ex);;
     open ← gets (fun w => bool_decide (is_Some (conn (db w))));
     (if open : bool then conn_rollback e;; conn_close else mret tt);;
     raise (A:=bool) (Py.AirflowException ex)).
Proof.
  repeat first
    [ apply logger_quiet | apply conn_rollback_quiet | apply conn_close_quiet
    | respects_step ].
Qed.

Lemma handler_kept t e ex :
  respects (kept t)
    (logger (ERROR_exn "Error during data loading" ex);;
     open ← gets (fun w => bool_decide (is_Some (conn (db w))));
     (if open : bool then conn_rollback e;; conn_close else mret tt);;
     raise (A:=bool) (Py.AirflowException ex)).
Proof.
  repeat first
    [ apply logger_kept | apply conn_rollback_kept | apply conn_close_kept
    | respects_step ].
Qed.

(** A pass of the loop with the file of [item] missing: the pass for the
    file itself only warns, the others load other tables. *)
Lemma load_file_skipped e processed_dir n item other :
  item ∈ files_to_load -> other ∈ files_to_load ->
  respects (skipped (Py.path_join processed_dir item.1) item.2)
           (load_file e processed_dir n other).
Proof.
  intros Hitem Hother.
  destruct (decide (other = item)) as [->|Hne].
  - intros w r w' Hrun Hmissing.
    rewrite load_file_missing in Hrun by done. injection Hrun as _ <-.
    split; [done|]. by apply kept_same_db.
  - apply respects_skipped; [apply load_file_quiet|].
    apply load_file_kept.
    apply list_elem_of_In in Hitem, Hother. simpl in Hitem, Hother.
    destruct Hitem as [<-|[<-|[<-|[]]]], Hother as [<-|[<-|[<-|[]]]]; done.
Qed.

(** However a run of [load_data] ends, the table of a missing file is
    kept. *)
Lemma load_data_skipped e config cfg processed_dir item :
  config_or_import e config = Some cfg ->
  cfg !! "processed_data_path" = Some processed_dir ->
  item ∈ files_to_load ->
  respects (skipped (Py.path_join processed_dir item.1) item.2)
           (load_data e config).
Proof.
  intros Hcfg Hproc Hitem.
  set (R := skipped (Py.path_join processed_dir item.1) item.2).
  unfold load_data. rewrite Hcfg. apply (respects_try_except R).
  2: { intros ex. apply respects_skipped; [apply handler_quiet|apply handler_kept]. }
  unfold getitem. rewrite Hproc.
  match goal with
  | |- respects _ (mret _ ≫= ?k) => change (respects R (k processed_dir))
  end.
  cbv beta.
  apply (respects_bind R).
  { destruct (cfg !! "postgres_conn_id");
      [apply (respects_ret R)|apply (respects_raise R)]. }
  intros conn_id.
  apply (respects_bind R);
    [apply respects_skipped; [apply get_conn_quiet|apply get_conn_kept]|].
  intros _.
  apply (respects_bind R);
    [apply respects_skipped;
       [apply create_database_schema_quiet|apply create_database_schema_kept]|].
  intros _.
  apply (respects_bind R);
    [apply respects_skipped; [apply request_quiet|by apply request_kept]|].
  intros _.
  apply (respects_bind R).
  { apply (respects_for_each R). intros acc other Hother.
    by apply load_file_skipped. }
  intros rows_loaded.
  apply (respects_skipped _ _ (after_loop e rows_loaded));
    [apply after_loop_quiet|apply after_loop_kept].
Qed.

Lemma for_each_prefix {A B} (body : B -> A -> M B) before rest :
  forall acc w a wa,
    for_each body acc before w = (Py.Ok a, wa) ->
    for_each body acc (before ++ rest) w = for_each body a rest wa.
Proof.
  induction before as [|x before IH]; intros acc w a wa Hrun; simpl in *.
  - by injection Hrun as -> ->.
  - apply bind_Ok in Hrun as (ax & wx & Hx & Hrun).
    rewrite (bind_run _ _ _ _ _ Hx). by apply IH.
Qed.

Lemma bind_from {A B} (m m' : M A) (k : A -> M B) w w' :
  m w = m' w' -> (m ≫= k) w = (m' ≫= k) w'.
Proof. unfold mbind, M_bind. by intros ->. Qed.

Lemma tail_quiet e processed_dir n after :
  respects quiet
    (rows_loaded ← for_each (load_file e processed_dir) n after;
     after_loop e rows_loaded).
Proof.
  apply (respects_bind quiet).
  - apply (respects_for_each quiet). intros. apply load_file_quiet.
  - intros rows_loaded. apply after_loop_quiet.
Qed.

(** A run that gets to the pass for a missing file logs the warning,
    whatever happens afterwards. *)
Lemma load_data_reaches e config cfg processed_dir w item before after w1 n wa r w' :
  config_or_import e config = Some cfg ->
  cfg !! "processed_data_path" = Some processed_dir ->
  is_Some (cfg !! "postgres_conn_id") ->
  files_to_load = (before ++ item :: after)%list ->
  files w !! Py.path_join processed_dir item.1 = None ->
  (get_conn e;; create_database_schema e;; request e GetEngine) w = (Py.Ok tt, w1) ->
  for_each (load_file e processed_dir) 0%nat before w1 = (Py.Ok n, wa) ->
  load_data e config w = (r, w') ->
  WARNING ("Processed data file not found: " ++ Py.path_join processed_dir item.1)
    ∈ logged w'.
Proof.
  intros Hcfg Hproc [conn_id Hconn] Hsplit Hmissing Hpre Hbefore Hrun.
  set (warning := WARNING ("Processed data file not found: "
                           ++ Py.path_join processed_dir item.1)).
  set (wb := World (files wa) (db wa) (logged wa ++ [warning])).
  assert (files wa = files w) as Hfiles.
  { assert (quiet w wa) as [Hf _]; [|done].
    etrans; [exact (before_loop_quiet e _ _ _ Hpre)|].
    eapply (respects_for_each quiet); [|exact Hbefore].
    intros. apply load_file_quiet. }
  assert (for_each (load_file e processed_dir) 0%nat files_to_load w1
          = for_each (load_file e processed_dir) n after wb) as Hloop.
  { rewrite Hsplit, (for_each_prefix _ _ _ _ _ _ _ Hbefore). cbn [for_each].
    by rewrite (bind_run _ _ wa n wb)
      by (rewrite load_file_missing by (by rewrite Hfiles); done). }
  unfold load_data in Hrun. rewrite Hcfg in Hrun. unfold try_except in Hrun.
  match type of Hrun with
  | context [match ?body w with _ => _ end] =>
      destruct (body w) as [rb wx] eqn:Hbody
  end.
  unfold getitem in Hbody. rewrite Hproc, Hconn in Hbody.
  rewrite (bind_run _ _ w processed_dir w) in Hbody by done.
  rewrite (bind_run _ _ w conn_id w) in Hbody by done.
  apply bind_Ok in Hpre as ([] & wg & Hget & Hpre).
  apply bind_Ok in Hpre as ([] & ws & Hschema & Hengine).
  rewrite (bind_run _ _ _ _ _ Hget) in Hbody.
  rewrite (bind_run _ _ _ _ _ Hschema) in Hbody.
  rewrite (bind_run _ _ _ _ _ Hengine) in Hbody.
  rewrite (bind_from _ _ _ _ _ Hloop) in Hbody.
  destruct (tail_quiet e processed_dir n after wb rb wx Hbody) as [_ Hlog].
  assert (warning ∈ logged wx) as Hwx.
  { apply (log_grows_elem wb wx); [done|]. simpl. apply elem_of_app. right. left. }
  destruct rb as [b|ex].
  - by injection Hrun as _ <-.
  - destruct (handler_quiet e ex wx r w' Hrun) as [_ Hlog'].
    by apply (log_grows_elem wx w').
Qed.

End SkipFacts.

Module Claims.
Import Calendar Order Frame World Transform Notions Samples JoinSpec Skipping.
Import ReshapeFacts MergeFacts RateFacts GroupFacts DeltaFacts JoinFacts.
Import StageFacts TransformStageFacts ExtractFacts LoadFacts SkipFacts.

(** C5. A wide table with M rows and N date columns (headers in the
    month/day/year format) is reshaped into a long table of exactly N * M
    rows; the row at position [j * M + i] carries the identity of row [i],
    the parsed date of column [j] and the cell of that row and column. *)
Theorem reshape_long_table (df : WideTable) :
  rectangular df ->
  Forall (fun col => is_Some (strptime_mdy col.1)) (value_vars df) ->
  exists df_long,
    reshape (WideFrame df) = Py.Ok df_long
    /\ length df_long = (length (value_vars df) * length (id_rows df))%nat
    /\ forall (j i : nat) header column r v,
         value_vars df !! j = Some (header, column) ->
         id_rows df !! i = Some r ->
         column !! i = Some v ->
         exists d, strptime_mdy header = Some d
           /\ df_long !! (j * length (id_rows df) + i)%nat = Some (LongRow r d v).
Proof.
  intros Hrect Hdates. simpl.
  destruct (to_datetime_total (melt df)) as [df_long Hlong].
  { by apply (melt_headers df (fun h => is_Some (strptime_mdy h))). }
  exists df_long. split; [done|].
  apply to_datetime_Ok in Hlong. split.
  - rewrite <- (Forall2_length _ _ _ Hlong). by apply length_melt.
  - intros j i header column r v Hj Hi Hv.
    pose proof (lookup_melt df j i header column r v Hrect Hj Hi Hv) as Hrow.
    destruct (Forall2_lookup_l _ _ _ _ _ Hlong Hrow) as (l & Hl & d & Hd & ->).
    exists d. done.
Qed.

Lemma reshape_long_table_witness :
  exists df_long,
    reshape (WideFrame jhu_sample) = Py.Ok df_long
    /\ length df_long = (3 * 2)%nat
    /\ forall (j i : nat) header column r v,
         value_vars jhu_sample !! j = Some (header, column) ->
         id_rows jhu_sample !! i = Some r ->
         column !! i = Some v ->
         exists d, strptime_mdy header = Some d
           /\ df_long !! (j * 2 + i)%nat = Some (LongRow r d v).
Proof.
  apply (reshape_long_table jhu_sample).
  - repeat constructor.
  - repeat constructor; by eexists.
Defined.

(** ** C2: the left join *)

(** C2, as stated, fails: a confirmed row whose key occurs twice in the
    deaths table comes out twice, so the output need not hold exactly one
    row per (RegionKey, date) pair of the confirmed table. *)
Lemma reconcile_fan_out :
  ~ (forall datasets backbone,
       datasets !! "confirmed" = Some backbone ->
       forall c, c ∈ backbone ->
         length (rows_for c (reconcile datasets backbone)) = 1%nat).
Proof.
  intros Hclaim.
  specialize (Hclaim {[ "confirmed" := confirmed_hubei;
                        "deaths" := deaths_hubei_twice ]}
                     confirmed_hubei eq_refl
                     (LongRow hubei (Date 2020 1 22) (Some 444))).
  specialize (Hclaim ltac:(left)).
  vm_compute in Hclaim. discriminate.
Qed.

(** C2, amended.  Every row of the reconciled output stems from a row of
    the confirmed long table and carries its region, sub-region (a missing
    one as "Unknown"), date, latitude, longitude and confirmed count, so a
    key present only in deaths or recovered never appears; and when the
    deaths and the recovered table each hold at most one row per join key
    (primary region, sub-region, date), the output has exactly one row per
    row of the confirmed table, in the same order.  In general the output is
    the confirmed rows in their order, each of them once per pair of a
    deaths row and a recovered row that have its join key, latitude and
    longitude left aside, with the counts of that pair (a missing count as
    0), the deaths rows outermost; a category without such a row, or
    without a table, stands for one row with count 0. *)
Theorem reconcile_left_join (datasets : gmap string (list long_row))
    (backbone : list long_row) :
  (forall o, o ∈ reconcile datasets backbone ->
             exists c, c ∈ backbone /\ taken_from c o)
  /\ ((forall category right_df,
         category ∈ ["deaths"; "recovered"] ->
         datasets !! category = Some right_df ->
         NoDup (map join_key right_df)) ->
      Forall2 taken_from backbone (reconcile datasets backbone))
  /\ exists blocks : list (list obs),
       reconcile datasets backbone = concat blocks
       /\ Forall2 (fun c block =>
                     Forall (taken_from c) block
                     /\ map (fun o => (deaths o, recovered o)) block
                        = list_prod (counts (datasets !! "deaths") c)
                                    (counts (datasets !! "recovered") c))
                  backbone blocks.
Proof.
  split; [|split].
  - unfold reconcile. intros o Ho.
    apply list_elem_of_fmap in Ho as (row & -> & Hrow).
    apply add_category_origin, add_category_origin in Hrow.
    exists row.1.1. split; [done|]. apply reconcile_row_taken.
  - intros Hunique. unfold reconcile.
    set (merged := add_category datasets "recovered" _ _).
    assert (map (fun row : long_row * cell * cell => row.1.1) merged = backbone)
      as Hback.
    { rewrite <- (map_map fst fst). unfold merged.
      rewrite add_category_backbone, add_category_backbone; [done| |].
      - intros right_df. apply Hunique. set_solver.
      - intros right_df. apply Hunique. set_solver. }
    rewrite <- Hback. clear Hback.
    induction merged as [|row merged IH]; simpl; constructor; [|done].
    apply reconcile_row_taken.
  - apply reconcile_blocks.
Qed.

(** Two deaths rows and two recovered rows for one confirmed row give
    four rows, and a deaths row at other coordinates is a partner all the
    same, while one in another sub-region is none. *)
Example join_by_key :
  let row region v := LongRow region (Date 2020 1 22) (Some v) in
  let elsewhere := Region (Some "Hubei") "China" 0%float 0%float in
  let other := Region (Some "Hunan") "China" 30.5%float 112.25%float in
  map (fun o => (deaths o, recovered o))
      (reconcile {[ "confirmed" := [row hubei 444];
                    "deaths" := [row hubei 17; row other 99; row elsewhere 18];
                    "recovered" := [row hubei 28; row hubei 30] ]}
                 [row hubei 444])
  = [(17, 28); (17, 30); (18, 28); (18, 30)].
Proof. vm_compute. reflexivity. Qed.

Lemma reconcile_left_join_witness :
  Forall2 taken_from confirmed_hubei
    (reconcile {[ "confirmed" := confirmed_hubei; "deaths" := deaths_hubei ]}
               confirmed_hubei).
Proof.
  apply (proj1 (proj2 (reconcile_left_join
                         {[ "confirmed" := confirmed_hubei; "deaths" := deaths_hubei ]}
                         confirmed_hubei))).
  intros category right_df Hcat Hget.
  assert (right_df = deaths_hubei) as ->.
  { apply list_elem_of_In in Hcat. simpl in Hcat.
    destruct Hcat as [<-|[<-|[]]]; vm_compute in Hget;
      [injection Hget as <-; reflexivity | discriminate]. }
  repeat constructor. set_solver.
Defined.

(** ** C6: the mortality rate *)

(** C6, as stated, fails: with a confirmed count below zero the rate is 0,
    not deaths / confirmed * 100 (here 1 / -5 * 100 = -20). *)
Lemma mortality_rate_negative_confirmed :
  ~ (forall datasets backbone o,
       o ∈ reconcile datasets backbone ->
       forall c, confirmed o = Some c ->
         (c = 0 -> mortality_rate o = 0%float)
         /\ (c <> 0 ->
             mortality_rate o
             = (float_of_Z (deaths o) / float_of_Z c * 100)%float)).
Proof.
  intros Hclaim.
  pose (backbone := [LongRow hubei (Date 2020 1 22) (Some (-5))]).
  pose (datasets := ({[ "confirmed" := backbone;
                        "deaths" := [LongRow hubei (Date 2020 1 22) (Some 1)] ]}
                     : gmap string (list long_row))).
  destruct (Hclaim datasets backbone
              (Obs "Hubei" "China" 30.5%float 112.25%float (Date 2020 1 22)
                   (Some (-5)) 1 0 (Some (-6)) 0%float)
              ltac:(vm_compute; left) (-5) eq_refl) as [_ Hrate].
  specialize (Hrate ltac:(lia)).
  apply (f_equal (fun x => PrimFloat.ltb x 0%float)) in Hrate.
  vm_compute in Hrate. discriminate.
Qed.

(** C6, amended.  At the Observation grain and at the CountrySummary grain
    the rate is deaths / confirmed * 100 when confirmed is greater than 0,
    and exactly 0 in every other case: confirmed zero, negative, or (at the
    Observation grain) missing.  The guard is total: no case is left
    without a value. *)
Theorem mortality_rate_guarded (datasets : gmap string (list long_row))
    (backbone : list long_row) :
  (forall o, o ∈ reconcile datasets backbone ->
     match confirmed o with
     | Some c =>
         (0 < c -> mortality_rate o
                   = (float_of_Z (deaths o) / float_of_Z c * 100)%float)
         /\ (c <= 0 -> mortality_rate o = 0%float)
     | None => mortality_rate o = 0%float
     end)
  /\ (forall r, r ∈ country_data (reconcile datasets backbone) ->
        (0 < c_confirmed r ->
         c_mortality_rate r
         = (float_of_Z (c_deaths r) / float_of_Z (c_confirmed r) * 100)%float)
        /\ (c_confirmed r <= 0 -> c_mortality_rate r = 0%float)).
Proof.
  split.
  - intros o Ho. rewrite (reconcile_rate _ _ _ Ho).
    destruct (confirmed o) as [c|]; [|done].
    split; [apply mortality_positive | apply mortality_guard].
  - intros r Hr. rewrite (country_rate _ _ Hr).
    split; [apply mortality_positive | apply mortality_guard].
Qed.

(** ** C7: the country-level aggregation *)

(** C7.  [country_data] holds exactly one row per (country, date) of the
    Observations.  Its confirmed, deaths, recovered and active values are
    the sums of those fields over the Observations of that country and date,
    all sub-regions together (a missing confirmed or active value adds
    nothing, as [sum] skips it), and its mortality_rate is computed from
    the summed deaths and the summed confirmed, with 0 when the summed
    confirmed is 0. *)
Theorem country_summary_sums (transformed_data : list obs) :
  NoDup (map (fun r => (c_country r, c_date r)) (country_data transformed_data))
  /\ (forall o, o ∈ transformed_data ->
        exists r, r ∈ country_data transformed_data
                  /\ (c_country r, c_date r) = country_key o)
  /\ (forall r, r ∈ country_data transformed_data ->
        let group := filter (fun o => country_key o = (c_country r, c_date r))
                            transformed_data in
        group <> []
        /\ c_confirmed r = total (fun o => default 0 (confirmed o)) group
        /\ c_deaths r = total deaths group
        /\ c_recovered r = total recovered group
        /\ c_active r = total (fun o => default 0 (active o)) group
        /\ (0 < c_confirmed r ->
            c_mortality_rate r
            = (float_of_Z (total deaths group)
               / float_of_Z (total (fun o => default 0%Z (confirmed o)) group)
               * 100)%float)
        /\ (c_confirmed r = 0 -> c_mortality_rate r = 0%float)).
Proof.
  split; [|split].
  - unfold country_data. rewrite map_map. simpl.
    rewrite (map_ext _ fst) by (by intros [[c d] g]).
    apply (ascending_NoDup _ (groupby_sum_ascending transformed_data)).
  - intros o Ho. destruct (groupby_sum_covers _ _ Ho) as [s Hs].
    exists (country_level (country_key o, s)). split; [|done].
    unfold country_data. apply list_elem_of_fmap. eauto.
  - intros r Hr group.
    pose proof (country_rate _ _ Hr) as Hrate.
    unfold country_data in Hr. apply list_elem_of_fmap in Hr as (g & -> & Hg).
    destruct (groupby_sum_group _ _ Hg) as (o & rest & Hgroup & Hsums).
    assert (group = o :: rest) as Heq.
    { subst group. simpl. destruct g as [[c d] s]. exact Hgroup. }
    destruct (foldl_add_obs (o :: rest) (Sums 0 0 0 0)) as (Hc & Hd & Hr & Ha).
    rewrite <- Hsums, <- Heq in Hc, Hd, Hr, Ha. simpl in Hc, Hd, Hr, Ha.
    assert (c_confirmed (country_level g)
            = total (fun o => default 0 (confirmed o)) group) as Hconf
      by (simpl; lia).
    assert (c_deaths (country_level g) = total deaths group) as Hdeaths
      by (simpl; lia).
    split; [by rewrite Heq|].
    split; [done|]. split; [done|].
    split; [simpl; lia|]. split; [simpl; lia|].
    rewrite Hrate. split.
    + intros Hpos. rewrite mortality_positive by done.
      by rewrite Hconf, Hdeaths.
    + intros Hzero. apply mortality_guard. lia.
Qed.

(** ** C1: the daily changes *)

(** C1.  For any Observations and any (country, sub-region), the rows of
    that series in [daily_data] are the Observations of the series, in
    ascending date order; the first row of the series has new_confirmed,
    new_deaths and new_recovered 0, and every later row has
    new_X = max(0, X - X of the row before it in the series), so a drop of
    a cumulative count gives 0 and never a negative number.  (When one of
    the two confirmed values is missing, new_confirmed is 0.) *)
Theorem daily_changes_delta (transformed_data : list obs) (k : string * string) :
  let series := filter (fun r => series_key (d_obs r) = k)
                       (daily_data transformed_data) in
  map d_obs series ≡ₚ filter (fun o => series_key o = k) transformed_data
  /\ StronglySorted date_le (map d_obs series)
  /\ (forall first, series !! 0%nat = Some first ->
        new_confirmed first = 0 /\ new_deaths first = 0 /\ new_recovered first = 0)
  /\ (forall i prev cur,
        series !! i = Some prev -> series !! S i = Some cur ->
        new_deaths cur = Z.max 0 (deaths (d_obs cur) - deaths (d_obs prev))
        /\ new_recovered cur
           = Z.max 0 (recovered (d_obs cur) - recovered (d_obs prev))
        /\ match confirmed (d_obs cur), confirmed (d_obs prev) with
           | Some a, Some b => new_confirmed cur = Z.max 0 (a - b)
           | _, _ => new_confirmed cur = 0
           end).
Proof.
  intros series. subst series. unfold daily_data.
  rewrite group_diff_filter.
  split; [|split; [|split]].
  - by rewrite sort_values_Permutation.
  - apply series_Sorted, sort_values_Sorted.
  - intros first Hfirst.
    destruct (proj1 (group_diff_series k (sort_values transformed_data) ∅)
                first Hfirst) as (Hc & Hd & Hr).
    rewrite lookup_empty in Hc, Hd, Hr. done.
  - intros i prev cur Hprev Hcur.
    destruct (proj2 (group_diff_series k (sort_values transformed_data) ∅)
                i prev cur Hprev Hcur) as (Hc & Hd & Hr).
    split; [done|]. split; [done|].
    rewrite Hc. simpl.
    destruct (confirmed (d_obs cur)), (confirmed (d_obs prev)); done.
Qed.

(** The scenario of the specification: confirmed 10, 15, 12 on three
    dates for one region gives new_confirmed 0, 5, 0. *)
Example delta_scenario :
  let row d c := Obs "Hubei" "China" 30.5%float 112.25%float (Date 2020 1 d)
                     (Some c) 0 0 (Some c) 0%float in
  map new_confirmed (daily_data [row 24 12; row 22 10; row 23 15]) = [0; 5; 0].
Proof. vm_compute. reflexivity. Qed.

(** ** C3: what [extract_data] returns *)

Lemma extract_data_result e config w :
  exists w',
    Extract.extract_data e config w = (Py.Ok (Py.PyBool false), w')
    \/ Extract.extract_data e config w = (Py.Ok Py.PyNone, w')
    \/ exists ex, Extract.extract_data e config w = (Py.Raise ex, w').
Proof.
  destruct (config_or_import e config) as [cfg|] eqn:Hcfg.
  - destruct (cfg !! "raw_data_path") as [raw_dir|] eqn:Hraw.
    + destruct (extract_data_run e config cfg raw_dir w Hcfg Hraw)
        as (n1 & n2 & n3 & w1 & w2 & w3 & _ & _ & _ & Hrun).
      eexists. right. left. exact Hrun.
    + exists w. right. right. exists (Py.KeyError "raw_data_path").
      unfold Extract.extract_data. rewrite Hcfg. unfold getitem. by rewrite Hraw.
  - eexists. left. unfold Extract.extract_data. rewrite Hcfg. reflexivity.
Qed.

(** C3 (the code departs from it).  [extract_data] never returns [True]:
    on the path that downloads it ends without a [return], so the caller
    gets [None], also when all three downloads were counted successful;
    and [run_pipeline], which tests [if not extract_success], stops after
    the extract stage in every run. *)
Theorem extract_data_never_true e config w :
  (Extract.extract_data e config w).1 <> Py.Ok (Py.PyBool true)
  /\ (forall cfg raw_dir,
        config_or_import e config = Some cfg ->
        cfg !! "raw_data_path" = Some raw_dir ->
        (Extract.extract_data e config w).1 = Py.Ok Py.PyNone)
  /\ (Main.run_pipeline e w).1 = Py.Ok false.
Proof.
  split; [|split].
  - destruct (extract_data_result e config w) as (w' & [->|[->|[ex ->]]]); done.
  - intros cfg raw_dir Hcfg Hraw.
    destruct (extract_data_run e config cfg raw_dir w Hcfg Hraw)
      as (n1 & n2 & n3 & w1 & w2 & w3 & _ & _ & _ & ->).
    done.
  - unfold Main.run_pipeline, try_except.
    destruct (extract_data_result e None w) as (w' & [Hrun|[Hrun|[ex Hrun]]]).
    + by rewrite (bind_run _ _ _ _ _ Hrun).
    + by rewrite (bind_run _ _ _ _ _ Hrun).
    + by rewrite (bind_Raise _ _ _ _ _ Hrun).
Qed.

(** The run that shows it: three downloads out of three are counted, the
    metadata file says so, and the caller gets [None]. *)
Example extract_data_three_of_three :
  let run := Extract.extract_data all_downloads_succeed None empty_world in
  run.1 = Py.Ok Py.PyNone
  /\ files run.2 !! "/opt/airflow/data/raw/extraction_metadata.txt"
     = Some (ExtractionMetadata "2026-01-01T00:00:00" 3 3)
  /\ logged run.2 = []
  /\ Main.run_pipeline all_downloads_succeed empty_world
     = (Py.Ok false,
        World (files run.2) (db run.2)
              [ERROR "Extraction failed - stopping pipeline"]).
Proof. vm_compute. done. Qed.

(** ** C9: a raw file that is there and cannot be read *)

(** C9.  [extract_data] leaves the body of a response in the raw file of
    its category even when the body is empty or no table.  For every
    category whose raw file is there and cannot be read, [transform_data]
    returns [False] through its exception handler and writes nothing; a
    category is skipped as absent only when its file does not exist: with
    the confirmed file in place and no deaths and recovered files the run
    warns about the two and returns [True]. *)
Theorem unreadable_raw_file_fails e config cfg raw_dir w :
  config_or_import e config = Some cfg ->
  cfg !! "raw_data_path" = Some raw_dir ->
  (forall item content ex,
     item ∈ Extract.URLS ->
     requests_get e item.2 = Some content ->
     read_csv content = Py.Raise ex ->
     files (Extract.extract_data e config w).2
       !! Py.path_join raw_dir (item.1 ++ ".csv") = Some content)
  /\ (forall category content ex,
        category ∈ categories ->
        files w !! Py.path_join raw_dir (category ++ ".csv") = Some content ->
        read_csv content = Py.Raise ex ->
        let run := transform_data e config w in
        run.1 = Py.Ok false
        /\ files run.2 = files w
        /\ exists ex',
             last (logged run.2)
             = Some (ERROR_exn "Error during data transformation" ex'))
  /\ (forall processed_dir df df_long,
        cfg !! "processed_data_path" = Some processed_dir ->
        files w !! Py.path_join raw_dir "confirmed.csv" = Some (Csv (WideFrame df)) ->
        reshape (WideFrame df) = Py.Ok df_long ->
        files w !! Py.path_join raw_dir "deaths.csv" = None ->
        files w !! Py.path_join raw_dir "recovered.csv" = None ->
        let run := transform_data e config w in
        run.1 = Py.Ok true
        /\ WARNING ("Raw data file not found: " ++ Py.path_join raw_dir "deaths.csv")
             ∈ logged run.2
        /\ WARNING ("Raw data file not found: " ++ Py.path_join raw_dir "recovered.csv")
             ∈ logged run.2
        /\ files run.2 !! Py.path_join processed_dir "covid_data_transformed.csv"
           = Some (Csv (FullFrame (reconcile {[ "confirmed" := df_long ]} df_long)))).
Proof.
  intros Hcfg Hraw. split; [|split].
  - intros item content ex Hitem Hget _.
    by apply (extract_data_leaves_body e config cfg).
  - intros category content ex Hcat Hfile Hread.
    by apply (transform_data_unreadable e config cfg raw_dir w category content ex).
  - intros processed_dir df df_long Hproc Hconfirmed Hreshape Hdeaths Hrecovered run.
    subst run. unfold transform_data, try_except.
    rewrite Hcfg. unfold getitem. rewrite Hraw, Hproc.
    rewrite (bind_run _ _ w raw_dir w) by done.
    rewrite (bind_run _ _ w processed_dir w) by done.
    rewrite (bind_run _ _ _ _ _
               (read_datasets_confirmed_only raw_dir w df df_long
                  Hconfirmed Hreshape Hdeaths Hrecovered)).
    rewrite lookup_singleton_eq. simpl.
    split; [done|]. split; [|split].
    + apply elem_of_app. right. left.
    + apply elem_of_app. right. right. left.
    + rewrite !lookup_insert_ne by different_paths. apply lookup_insert_eq.
Qed.

Lemma unreadable_raw_file_fails_witness :
  let run := transform_data all_downloads_succeed (Some Main.dag_CONFIG)
                            empty_deaths_file in
  run.1 = Py.Ok false
  /\ files run.2 = files empty_deaths_file
  /\ exists ex',
       last (logged run.2)
       = Some (ERROR_exn "Error during data transformation" ex').
Proof.
  apply (proj1 (proj2 (unreadable_raw_file_fails all_downloads_succeed
                         (Some Main.dag_CONFIG) Main.dag_CONFIG
                         "/opt/airflow/data/raw" empty_deaths_file
                         eq_refl eq_refl))
           "deaths" EmptyFile Py.EmptyDataError).
  - right. left.
  - reflexivity.
  - reflexivity.
Defined.

(** ** C10: a processed file that does not exist *)

(** C10.  When one of the three processed files does not exist, then in
    every run of [load_data], however it ends, no request drops or reloads
    the table of that file, and the table is as it was (a table that was
    missing can have been created without rows by the schema step).  Every
    run that gets to the file in its loop has logged the warning for it,
    whatever happens afterwards, and so has every run that returns [True].
    Such runs exist: when the store fails no request, the four tables are
    there and the files that exist can be read, [load_data] returns [True]
    although it refreshes fewer than three tables. *)
Theorem missing_file_is_skipped e config cfg processed_dir w item :
  config_or_import e config = Some cfg ->
  cfg !! "processed_data_path" = Some processed_dir ->
  item ∈ Load.files_to_load ->
  files w !! Py.path_join processed_dir item.1 = None ->
  (forall r w',
     Load.load_data e config w = (r, w') ->
     (exists new,
        history (db w') = (history (db w) ++ new)%list
        /\ (DropTable item.2 ∉ new) /\ (ToSql item.2 ∉ new))
     /\ (tables (db w') !! item.2 = tables (db w) !! item.2
         \/ (tables (db w) !! item.2 = None
             /\ tables (db w') !! item.2 = Some (Load.empty_table item.2)))
     /\ (r = Py.Ok true ->
         WARNING ("Processed data file not found: "
                  ++ Py.path_join processed_dir item.1) ∈ logged w')
     /\ (forall before after w1 n wa,
           is_Some (cfg !! "postgres_conn_id") ->
           Load.files_to_load = (before ++ item :: after)%list ->
           (Load.get_conn e;; Load.create_database_schema e;;
            Load.request e GetEngine) w = (Py.Ok tt, w1) ->
           for_each (Load.load_file e processed_dir) 0%nat before w1
           = (Py.Ok n, wa) ->
           WARNING ("Processed data file not found: "
                    ++ Py.path_join processed_dir item.1) ∈ logged w'))
  /\ (is_Some (cfg !! "postgres_conn_id") ->
      (forall s, fails e s = false) ->
      (forall other content,
         other ∈ Load.files_to_load ->
         files w !! Py.path_join processed_dir other.1 = Some content ->
         exists df, read_csv content = Py.Ok df) ->
      (forall other, other ∈ Load.files_to_load ->
                     is_Some (tables (db w) !! other.2)) ->
      is_Some (etl_metadata (db w)) ->
      exists w', Load.load_data e config w = (Py.Ok true, w')).
Proof.
  intros Hcfg Hproc Hitem Hfile. split.
  - intros r w' Hrun.
    destruct (load_data_skipped e config cfg processed_dir item
                Hcfg Hproc Hitem w r w' Hrun Hfile) as [_ [Hhistory Htable]].
    split; [done|]. split; [done|]. split.
    + intros ->.
      by destruct (load_data_skips e config cfg processed_dir w w' item
                     Hcfg Hproc Hitem Hfile Hrun).
    + intros before after w1 n wa Hconn Hsplit Hpre Hbefore.
      by apply (load_data_reaches e config cfg processed_dir w item before after
                  w1 n wa r w').
  - intros [conn_id Hconn] Hfails Hreadable Htables Haudit.
    apply (load_data_succeeds e (files w) processed_dir Hfails Hreadable
             config cfg conn_id w Hcfg Hproc Hconn).
    done.
Qed.

Lemma missing_file_is_skipped_witness :
  exists w',
    Load.load_data all_downloads_succeed (Some Main.dag_CONFIG)
                   no_daily_changes_file = (Py.Ok true, w').
Proof.
  apply (proj2 (missing_file_is_skipped all_downloads_succeed
                  (Some Main.dag_CONFIG) Main.dag_CONFIG
                  "/opt/airflow/data/processed" no_daily_changes_file
                  ("covid_daily_changes.csv", "daily_changes")
                  eq_refl eq_refl ltac:(set_solver) eq_refl)).
  - by eexists.
  - reflexivity.
  - intros other content Hother Hfile.
    apply list_elem_of_In in Hother. simpl in Hother.
    destruct Hother as [<-|[<-|[<-|[]]]]; vm_compute in Hfile;
      [injection Hfile as <-; by eexists
      |injection Hfile as <-; by eexists
      |discriminate].
  - intros other Hother.
    apply list_elem_of_In in Hother. simpl in Hother.
    destruct Hother as [<-|[<-|[<-|[]]]]; vm_compute; by eexists.
  - by eexists.
Defined.

(** The run of the witness: the daily-changes table keeps the rows of the
    earlier generation, the two other tables are reloaded. *)
Example load_two_of_three :
  let run := Load.load_data all_downloads_succeed (Some Main.dag_CONFIG)
                            no_daily_changes_file in
  run.1 = Py.Ok true
  /\ tables (db run.2) !! "daily_changes" = Some (DailyFrame (daily_data earlier_obs))
  /\ tables (db run.2) !! "full_data" = Some (FullFrame sample_obs)
  /\ etl_metadata (db run.2)
     = Some [AuditRow "load" "2026-01-01T00:00:00"
                      (length sample_obs + length (country_data sample_obs))]
  /\ logged run.2
     = [WARNING "Processed data file not found: /opt/airflow/data/processed/covid_daily_changes.csv"].
Proof. vm_compute. done. Qed.

(** ** C4: a store failure in the middle of a load *)

(** C4 (the code departs from it).  The reload of [country_summary] fails:
    [load_data] raises [AirflowException] and rolls [conn] back, and the
    audit table gets no entry; but the requests before the failure went
    through sessions of their own and stay: [full_data] holds the new
    rows, [country_summary] and the two views on it are gone, and
    [daily_changes] still holds the earlier generation. *)
Theorem load_failure_leaves_partial_state :
  let run := Load.load_data store_fails_second_reload (Some Main.dag_CONFIG)
                            three_processed_files in
  run.1 = Py.Raise (Py.AirflowException
                      (Py.OperationalError "the store failed the request"))
  /\ last (history (db run.2)) = Some Rollback
  /\ etl_metadata (db run.2) = Some []
  /\ tables (db three_processed_files) !! "full_data"
     = Some (FullFrame earlier_obs)
  /\ tables (db run.2) !! "full_data" = Some (FullFrame sample_obs)
  /\ tables (db three_processed_files) !! "country_summary"
     = Some (CountryFrame (country_data earlier_obs))
  /\ tables (db run.2) !! "country_summary" = None
  /\ views (db run.2) !! "vw_top_countries" = None
  /\ tables (db run.2) !! "daily_changes"
     = Some (DailyFrame (daily_data earlier_obs)).
Proof. vm_compute. done. Qed.

(** ** C8: running the pipeline again *)

(** C8.  Transform and load are run on a world [w].  They leave the
    three raw files as they were; and a second run of transform and load,
    on any world that holds the same three raw files (the world the first
    run left is one), with any clock and any behaviour of the store,
    returns from transform what the first returned and, when that is
    [True], leaves the same table in each of the three processed CSV
    files; each load that returns [True] leaves exactly that table in the
    destination table, so the row counts of the two runs agree. *)
Theorem pipeline_rerun (e1 l1 e2 l2 : env) (config : gmap string string)
    (processed_dir : string) (w w2 : world) :
  config !! "processed_data_path" = Some processed_dir ->
  let first_transform := transform_data e1 (Some config) w in
  let first_load := Load.load_data l1 (Some config) first_transform.2 in
  (forall raw_dir category,
     config !! "raw_data_path" = Some raw_dir ->
     category ∈ categories ->
     files first_load.2 !! Py.path_join raw_dir (category ++ ".csv")
     = files w !! Py.path_join raw_dir (category ++ ".csv"))
  /\ ((forall raw_dir category,
         config !! "raw_data_path" = Some raw_dir ->
         category ∈ categories ->
         files w2 !! Py.path_join raw_dir (category ++ ".csv")
         = files w !! Py.path_join raw_dir (category ++ ".csv")) ->
      let second_transform := transform_data e2 (Some config) w2 in
      let second_load := Load.load_data l2 (Some config) second_transform.2 in
      second_transform.1 = first_transform.1
      /\ (first_transform.1 = Py.Ok true ->
          forall item, item ∈ Load.files_to_load ->
            exists df,
              files first_transform.2 !! Py.path_join processed_dir item.1
              = Some (Csv df)
              /\ files second_transform.2 !! Py.path_join processed_dir item.1
                 = Some (Csv df)
              /\ (first_load.1 = Py.Ok true ->
                  tables (db first_load.2) !! item.2 = Some df)
              /\ (second_load.1 = Py.Ok true ->
                  tables (db second_load.2) !! item.2 = Some df))).
Proof.
  intros Hproc first_transform first_load. split.
  - intros raw_dir category Hraw Hcat.
    assert (files first_load.2 = files first_transform.2) as ->.
    { apply (load_data_quiet l1 (Some config) first_transform.2 first_load.1).
      subst first_load. by destruct (Load.load_data _ _ _). }
    by apply transform_data_keeps_raw.
  - intros Hsame second_transform second_load.
    destruct (transform_data_agree e1 e2 config processed_dir w w2 Hproc Hsame)
      as (Hflag & Hwritten).
    split; [done|].
    intros Ht1 item Hitem.
    destruct (Hwritten Ht1)
      as (full & country & daily & [Hf1 Hf2] & [Hc1 Hc2] & [Hd1 Hd2]).
    assert (exists df,
              files first_transform.2 !! Py.path_join processed_dir item.1
              = Some (Csv df)
              /\ files second_transform.2 !! Py.path_join processed_dir item.1
                 = Some (Csv df)) as (df & Hfile1 & Hfile2).
    { pose proof Hitem as Hitem'. apply list_elem_of_In in Hitem'. simpl in Hitem'.
      destruct Hitem' as [<-|[<-|[<-|[]]]]; eauto. }
    exists df. split; [done|]. split; [done|]. split.
    + intros Hl1.
      destruct (load_data_refreshes l1 (Some config) config processed_dir
                  first_transform.2 first_load.2 item (Csv df)
                  eq_refl Hproc Hitem Hfile1) as (df' & [= <-] & Htable); [|done].
      by apply run_returned.
    + intros Hl2.
      destruct (load_data_refreshes l2 (Some config) config processed_dir
                  second_transform.2 second_load.2 item (Csv df)
                  eq_refl Hproc Hitem Hfile2) as (df' & [= <-] & Htable); [|done].
      by apply run_returned.
Qed.

(** The second run starts where the first one ended. *)
Lemma pipeline_rerun_witness :
  let first_transform :=
    transform_data all_downloads_succeed (Some Main.dag_CONFIG) three_raw_files in
  let first_load :=
    Load.load_data all_downloads_succeed (Some Main.dag_CONFIG) first_transform.2 in
  let second_transform :=
    transform_data a_day_later (Some Main.dag_CONFIG) first_load.2 in
  second_transform.1 = first_transform.1.
Proof.
  intros first_transform first_load.
  destruct (pipeline_rerun all_downloads_succeed all_downloads_succeed
              a_day_later a_day_later Main.dag_CONFIG
              "/opt/airflow/data/processed" three_raw_files first_load.2 eq_refl)
    as [Hkept Hagain].
  exact (proj1 (Hagain Hkept)).
Defined.

(** The two runs of the witness: all four stages return [True], the
    three tables hold the same numbers of rows after each load, and the
    audit table tells the runs apart. *)
Example rerun_sample :
  let first_transform :=
    transform_data all_downloads_succeed (Some Main.dag_CONFIG) three_raw_files in
  let first_load :=
    Load.load_data all_downloads_succeed (Some Main.dag_CONFIG) first_transform.2 in
  let second_transform :=
    transform_data a_day_later (Some Main.dag_CONFIG) first_load.2 in
  let second_load :=
    Load.load_data a_day_later (Some Main.dag_CONFIG) second_transform.2 in
  first_transform.1 = Py.Ok true /\ first_load.1 = Py.Ok true
  /\ second_transform.1 = Py.Ok true /\ second_load.1 = Py.Ok true
  /\ map_to_list (len <$> tables (db first_load.2))
     = map_to_list (len <$> tables (db second_load.2))
  /\ length <$> etl_metadata (db first_load.2) = Some 1%nat
  /\ length <$> etl_metadata (db second_load.2) = Some 2%nat.
Proof. vm_compute. done. Qed.

End Claims.

(** * Further properties of the stages *)

(** ** Dates, joined counts and derived columns *)

Module TableFacts.
Import Calendar Order Frame World Transform Notions Measures.
Import MergeFacts GroupFacts DeltaFacts.

Lemma digit_range c x : digit c = Some x -> 0 <= x <= 9.
Proof.
  unfold digit. destruct (_ && _) eqn:Hc; [|done].
  intros [= <-]. apply andb_true_iff in Hc as [H1 H2]. lia.
Qed.

Lemma two_digits_range a b v : two_digits a b = Some v -> 0 <= v <= 99.
Proof.
  unfold two_digits. destruct (digit a) as [x|] eqn:Hx; [|done].
  destruct (digit b) as [y|] eqn:Hy; [|done].
  intros [= <-]. apply digit_range in Hx, Hy. lia.
Qed.

Lemma month_field_range s m : month_field s = Some m -> 1 <= m <= 12.
Proof.
  destruct s as [|a [|b [|]]]; simpl; try done.
  - destruct (digit a) as [x|] eqn:Hx; [|done]. simpl.
    destruct (1 <=? x) eqn:H1; [|done]. intros [= <-].
    apply digit_range in Hx. lia.
  - destruct (two_digits a b) as [v|]; [|done]. simpl.
    destruct (_ && _) eqn:Hv; [|done]. intros [= <-].
    apply andb_true_iff in Hv as [H1 H2]. lia.
Qed.

Lemma day_field_range s d : day_field s = Some d -> 1 <= d.
Proof.
  destruct s as [|a [|b [|]]]; simpl; try done.
  - destruct (digit a) as [x|]; [|done]. simpl.
    destruct (1 <=? x) eqn:H1; [|done]. intros [= <-]. lia.
  - destruct (Ascii.eqb a " ").
    + destruct (digit b) as [x|]; [|done]. simpl.
      destruct (1 <=? x) eqn:H1; [|done]. intros [= <-]. lia.
    + destruct (two_digits a b) as [v|]; [|done]. simpl.
      destruct (_ && _) eqn:Hv; [|done]. intros [= <-].
      apply andb_true_iff in Hv as [H1 H2]. lia.
Qed.

Lemma year_field_range s y : year_field s = Some y -> 1969 <= y <= 2068.
Proof.
  destruct s as [|a [|b [|]]]; simpl; try done.
  destruct (two_digits a b) as [v|] eqn:Hv; [|done]. simpl.
  apply two_digits_range in Hv.
  destruct (v <=? 68) eqn:H68; intros [= <-]; lia.
Qed.

Lemma strptime_mdy_calendar_day s d : strptime_mdy s = Some d -> calendar_day d.
Proof.
  unfold strptime_mdy.
  destruct (split_on "/" s) as [|ms [|ds [|ys [|]]]]; try done.
  destruct (month_field ms) as [m|] eqn:Hm; [|done].
  destruct (day_field ds) as [dd|] eqn:Hd; [|done].
  destruct (year_field ys) as [y|] eqn:Hy; [|done]. simpl.
  destruct (dd <=? days_in_month y m) eqn:Hlast; [|done].
  intros [= <-]. unfold calendar_day. simpl.
  apply month_field_range in Hm. apply day_field_range in Hd.
  apply year_field_range in Hy. lia.
Qed.

(** With at most one row per key, a left join pairs every left row with
    the count of its partner, or with NaN. *)
Lemma merge_left_unique {A} (key : A -> option string * string * date)
    (left_df : list A) (right_df : list long_row) :
  NoDup (map join_key right_df) ->
  merge_left key left_df right_df
  = map (fun a => (a, r ← head (filter (fun r => join_key r = key a) right_df);
                      l_value r)) left_df.
Proof.
  intros Hnodup. unfold merge_left.
  induction left_df as [|a left_df IH]; [done|].
  change (a :: left_df) with ([a] ++ left_df)%list.
  rewrite flat_map_app, map_app, IH. f_equal.
  cbn [flat_map map]. rewrite app_nil_r.
  pose proof (unique_partner right_df (key a) Hnodup) as Hlen.
  destruct (filter _ right_df) as [|r [|r' partners]]; simpl in *; [done|done|lia].
Qed.

Lemma partner_joined_value (right_df : list long_row) (c : long_row) :
  NoDup (map join_key right_df) ->
  joined_value (Some right_df) c
    (default 0 (r ← head (filter (fun r => join_key r = join_key c) right_df);
                l_value r)).
Proof.
  intros Hnodup. pose proof (unique_partner right_df (join_key c) Hnodup) as Hlen.
  split.
  - intros r Hr Hkey.
    assert (r ∈ filter (fun r => join_key r = join_key c) right_df) as Hin
      by (by apply list_elem_of_filter).
    destruct (filter _ right_df) as [|r' [|r'' partners]]; simpl in *;
      [by apply elem_of_nil in Hin| |lia].
    by apply list_elem_of_singleton in Hin as ->.
  - intros Hnone.
    destruct (filter _ right_df) as [|r partners] eqn:Hf; [done|].
    exfalso. assert (r ∈ filter (fun r => join_key r = join_key c) right_df) as Hin
      by (rewrite Hf; left).
    apply list_elem_of_filter in Hin as [Hkey Hin]. by apply (Hnone r).
Qed.

Lemma add_category_joined {A} (datasets : gmap string (list long_row))
    (category : string) (this : A -> long_row) (left_df : list A) :
  (forall right_df, datasets !! category = Some right_df ->
                    NoDup (map join_key right_df)) ->
  exists v : A -> cell,
    add_category datasets category (fun a => join_key (this a)) left_df
    = map (fun a => (a, v a)) left_df
    /\ forall a, joined_value (datasets !! category) (this a) (default 0 (v a)).
Proof.
  intros Hunique. unfold add_category.
  destruct (datasets !! category) as [right_df|].
  - eexists. split; [apply merge_left_unique; by apply Hunique|].
    intros a. simpl. apply partner_joined_value. by apply Hunique.
  - exists (fun _ => Some 0). done.
Qed.

Lemma reconcile_row_active row :
  active (reconcile_row row)
  = (fun c => c - deaths (reconcile_row row) - recovered (reconcile_row row))
      <$> confirmed (reconcile_row row).
Proof. reflexivity. Qed.

Lemma total_active (group : list obs) :
  Forall (fun o => exists c, confirmed o = Some c
                             /\ active o = Some (c - deaths o - recovered o)) group ->
  total (fun o => default 0 (active o)) group
  = total (fun o => default 0 (confirmed o)) group
    - total deaths group - total recovered group.
Proof.
  induction 1 as [|o group (c & Hc & Ha) _ IH]; simpl; [done|].
  rewrite IH, Hc, Ha. simpl. lia.
Qed.

Lemma length_group_add o groups :
  (length (group_add o groups) <= S (length groups))%nat.
Proof.
  induction groups as [|g groups IH]; simpl; [lia|].
  destruct (decide (country_key o = g.1)); simpl; [lia|].
  destruct (decide (lexico (country_key o) g.1)); simpl; lia.
Qed.

Lemma length_groupby_sum rows : (length (groupby_sum rows) <= length rows)%nat.
Proof.
  unfold groupby_sum.
  assert (forall groups,
            (length (foldl (fun groups o => group_add o groups) groups rows)
             <= length groups + length rows)%nat) as Hlen.
  { induction rows as [|o rows IH]; intros groups; simpl; [lia|].
    specialize (IH (group_add o groups)).
    pose proof (length_group_add o groups). lia. }
  apply (Hlen []).
Qed.

Lemma group_diff_nonnegative rows : forall last,
  Forall (fun r => 0 <= new_confirmed r /\ 0 <= new_deaths r /\ 0 <= new_recovered r)
         (group_diff last rows).
Proof.
  induction rows as [|o rows IH]; intros last; simpl; constructor; [|done].
  unfold new_count. simpl. lia.
Qed.

End TableFacts.

(** ** Runs of the transform stage *)

Module TransformRuns.
Import Calendar Order Frame World Transform Notions Measures.
Import ReshapeFacts StageFacts TransformStageFacts LoadFacts.

Lemma logger_offline r : respects offline (logger r).
Proof. apply respects_modify. intros w. split; [done|]. by exists [r]. Qed.

Lemma write_file_offline path content : respects offline (write_file path content).
Proof.
  apply respects_modify. intros w. split; [done|].
  exists []. simpl. by rewrite app_nil_r.
Qed.

Lemma transform_data_offline e config : respects offline (transform_data e config).
Proof.
  unfold transform_data.
  repeat first
    [ apply logger_offline
    | apply write_file_offline
    | apply (read_datasets_respects offline); intros ?
    | progress cbv zeta
    | respects_step ].
Qed.

(** The loop of step 1 fills in the categories it is given and no other. *)
Lemma read_datasets_keys raw_dir todo : forall datasets w ds' w',
  read_datasets raw_dir todo datasets w = (Py.Ok ds', w') ->
  forall category, category ∉ todo -> ds' !! category = datasets !! category.
Proof.
  induction todo as [|c todo IH]; intros datasets w ds' w' Hrun category Hcat.
  - by injection Hrun as <- _.
  - apply not_elem_of_cons in Hcat as [Hne Hcat].
    simpl in Hrun. apply bind_Ok in Hrun as (f & w0 & Hf & Hrun).
    injection Hf as <- <-.
    destruct (files w !! Py.path_join raw_dir (c ++ ".csv")) as [content|].
    + apply bind_Ok in Hrun as (df & w1 & _ & Hrun).
      apply bind_Ok in Hrun as (df_long & w2 & _ & Hrun).
      rewrite (IH _ _ _ _ Hrun category Hcat). by rewrite lookup_insert_ne.
    + apply bind_Ok in Hrun as ([] & w1 & _ & Hrun).
      by rewrite (IH _ _ _ _ Hrun category Hcat).
Qed.

(** The loop returns when every file that is there can be read and
    reshaped. *)
Lemma read_datasets_returns raw_dir todo : forall datasets w,
  (forall category content,
     category ∈ todo ->
     files w !! Py.path_join raw_dir (category ++ ".csv") = Some content ->
     exists df df_long, read_csv content = Py.Ok df /\ reshape df = Py.Ok df_long) ->
  exists ds' w', read_datasets raw_dir todo datasets w = (Py.Ok ds', w').
Proof.
  induction todo as [|c todo IH]; intros datasets w Hfine; [by do 2 eexists|].
  simpl. unfold mbind, M_bind, gets, lift, logger, modify. simpl.
  destruct (files w !! Py.path_join raw_dir (c ++ ".csv")) as [content|] eqn:Hfile.
  - destruct (Hfine c content) as (df & df_long & -> & ->); [left|done|].
    apply IH. intros category content' Hcat. apply Hfine. by right.
  - simpl. apply IH. intros category content' Hcat. simpl. apply Hfine. by right.
Qed.

(** A file that is there and cannot be read or reshaped ends the loop
    with an exception. *)
Lemma read_datasets_fails raw_dir category content todo :
  category ∈ todo ->
  (forall df, read_csv content = Py.Ok df -> exists ex, reshape df = Py.Raise ex) ->
  forall datasets w,
    files w !! Py.path_join raw_dir (category ++ ".csv") = Some content ->
    exists ex' w', read_datasets raw_dir todo datasets w = (Py.Raise ex', w').
Proof.
  intros Hin Hbad.
  induction todo as [|c todo IH]; intros datasets w Hfile;
    [by apply elem_of_nil in Hin|].
  simpl. unfold mbind, M_bind, gets, lift. simpl.
  destruct (decide (c = category)) as [->|Hne].
  - rewrite Hfile. destruct (read_csv content) as [df|ex]; [|eauto].
    destruct (Hbad df eq_refl) as [ex ->]. eauto.
  - apply elem_of_cons in Hin as [->|Hin]; [done|].
    destruct (files w !! Py.path_join raw_dir (c ++ ".csv")) as [other|].
    + destruct (read_csv other) as [df|]; [|eauto].
      destruct (reshape df) as [df_long|]; [|eauto].
      by apply IH.
    + simpl. by apply IH.
Qed.

Lemma transform_data_fails e config cfg raw_dir w category content :
  config_or_import e config = Some cfg ->
  cfg !! "raw_data_path" = Some raw_dir ->
  category ∈ categories ->
  files w !! Py.path_join raw_dir (category ++ ".csv") = Some content ->
  (forall df, read_csv content = Py.Ok df -> exists ex, reshape df = Py.Raise ex) ->
  let run := transform_data e config w in
  run.1 = Py.Ok false
  /\ files run.2 = files w
  /\ exists ex,
       last (logged run.2) = Some (ERROR_exn "Error during data transformation" ex).
Proof.
  intros Hcfg Hraw Hcat Hfile Hbad run. subst run.
  unfold transform_data, try_except. rewrite Hcfg. unfold getitem. rewrite Hraw.
  rewrite (bind_run _ _ w raw_dir w) by done.
  destruct (cfg !! "processed_data_path") as [processed_dir|].
  - rewrite (bind_run _ _ w processed_dir w) by done.
    destruct (read_datasets_fails raw_dir category content categories
                Hcat Hbad ∅ w Hfile) as (ex' & w' & Hrun).
    rewrite (bind_Raise _ _ _ _ _ Hrun). simpl.
    pose proof (read_datasets_respects same_files raw_dir categories
                  logger_same_files ∅ w _ _ Hrun) as Hfiles.
    repeat split; [done|]. exists ex'. apply last_snoc.
  - simpl. repeat split. eexists. apply last_snoc.
Qed.

(** A header that is no date makes the reshape step raise as soon as the
    table has a row. *)
Lemma reshape_bad_header (df : WideTable) header column :
  (header, column) ∈ value_vars df ->
  strptime_mdy header = None ->
  id_rows df <> [] -> column <> [] ->
  exists ex, reshape (WideFrame df) = Py.Raise ex.
Proof.
  intros Hcol Hbad Hrows Hcells. simpl.
  destruct (to_datetime (melt df)) as [df_long|ex] eqn:Hlong; [|by eexists].
  exfalso. apply to_datetime_Ok in Hlong.
  destruct (id_rows df) as [|r ids] eqn:Hids; [done|].
  destruct column as [|v column]; [done|].
  assert ((r, header, v) ∈ melt df) as Hrow.
  { unfold melt. apply list_elem_of_In, in_flat_map.
    exists (header, v :: column). split; [by apply list_elem_of_In|].
    rewrite Hids. simpl. by left. }
  apply list_elem_of_lookup in Hrow as [i Hi].
  destruct (Forall2_lookup_l _ _ _ _ _ Hlong Hi) as (l & _ & d & Hd & _).
  simpl in Hd. congruence.
Qed.

Lemma melt_no_rows cols : melt (Wide [] cols) = [].
Proof. induction cols as [|col cols IH]; [done|]. by rewrite melt_cons, IH. Qed.

Lemma reconcile_nil datasets : reconcile datasets [] = [].
Proof.
  unfold reconcile, add_category.
  destruct (datasets !! "deaths"), (datasets !! "recovered"); reflexivity.
Qed.

End TransformRuns.

(** ** Runs of the extract stage *)

Module ExtractRuns.
Import Frame World Extract Notions Measures.
Import StageFacts ExtractFacts.

(** One pass of the download loop: what it counts, writes and logs. *)
Lemma download_result e raw_dir n item w :
  exists more,
    download e raw_dir n item w
    = (Py.Ok (if counted e item then S n else n),
       World match requests_get e item.2 with
             | Some content =>
                 <[Py.path_join raw_dir (item.1 ++ ".csv") := content]> (files w)
             | None => files w
             end
             (db w) (logged w ++ more))
    /\ (requests_get e item.2 = None ->
        more = [ERROR_exn ("HTTP error downloading " ++ item.1 ++ " data")
                          Py.RequestException])
    /\ (counted e item = true -> more = []).
Proof.
  unfold download, counted, try_except, get, mbind, M_bind, write_file, modify,
    lift, logger, raise, mret, M_ret.
  destruct (requests_get e item.2) as [content|]; simpl.
  - destruct (nonempty content) eqn:Hsize; simpl.
    + destruct content; simpl in *; try done;
        first [ by (eexists; split; [reflexivity|split; done])
              | by (exists []; rewrite app_nil_r; split; [reflexivity|split; done]) ].
    + eexists. split; [done|]. split; done.
  - eexists. split; [done|]. split; done.
Qed.

Lemma length_filter_counted e (items : list (string * string)) (n : nat) :
  foldl (fun n item => if counted e item then S n else n) n items
  = (n + length (filter (fun item => counted e item = true) items))%nat.
Proof.
  revert n. induction items as [|item items IH]; intros n; simpl; [lia|].
  rewrite IH, filter_cons.
  destruct (decide (counted e item = true)) as [->|Hne]; simpl; [lia|].
  by destruct (counted e item).
Qed.

End ExtractRuns.

(** ** Runs of the load stage *)

Module LoadRuns.
Import Frame World Load Notions Measures.
Import StageFacts LoadFacts.

(** A request that went through. *)
Lemma request_Ok e s w u w' :
  request e s w = (Py.Ok u, w') ->
  fails e s = false
  /\ w' = World (files w)
                (Database (tables (db w)) (etl_metadata (db w)) (views (db w))
                          (indexes (db w)) (conn (db w)) (history (db w) ++ [s]))
                (logged w).
Proof.
  unfold request. destruct (fails e s); [done|].
  intros [= _ <-]. done.
Qed.

Lemma commit_table_history d table : history (commit_table d table) = history d.
Proof.
  unfold commit_table. destruct (decide _); [done|]. by destruct (tables d !! table).
Qed.

Lemma foldl_commit_table_history created : forall d,
  history (foldl commit_table d created) = history d.
Proof.
  induction created as [|table created IH]; intros d; simpl; [done|].
  by rewrite IH, commit_table_history.
Qed.

Lemma foldl_commit_table_settled created : forall d,
  settled d (foldl commit_table d created).
Proof.
  induction created as [|table created IH]; intros d; simpl; [reflexivity|].
  etrans; [|apply IH].
  unfold commit_table. destruct (decide _); [done|].
  destruct (tables d !! table) eqn:Htable; [done|].
  split; [|done]. simpl. intros t Ht.
  destruct (decide (table = t)) as [->|Hne].
  - by rewrite lookup_insert_eq.
  - by rewrite lookup_insert_ne.
Qed.

Lemma foldl_commit_table_audit created rows : forall d,
  etl_metadata d = Some rows ->
  etl_metadata (foldl commit_table d created) = Some rows.
Proof.
  induction created as [|table created IH]; intros d Hd; simpl; [done|].
  apply IH. unfold commit_table. destruct (decide _); simpl.
  - by rewrite Hd.
  - by destruct (tables d !! table).
Qed.

(** [conn.commit()] and [conn.close()] that went through. *)
Lemma conn_commit_Ok e w u w' :
  conn_commit e w = (Py.Ok u, w') ->
  files w' = files w
  /\ db w' = (let d := foldl commit_table (db w) (default [] (conn (db w))) in
              Database (tables d) (etl_metadata d) (views d) (indexes d) (Some [])
                       (history (db w) ++ [Commit])).
Proof.
  unfold conn_commit. intros Hrun.
  apply bind_Ok in Hrun as ([] & w1 & Hreq & Hrun).
  apply request_Ok in Hreq as [_ ->].
  injection Hrun as _ <-. split; [done|]. simpl.
  set (d1 := Database _ _ _ _ _ (history (db w) ++ [Commit])).
  assert (forall created d,
            foldl commit_table
              (Database (tables d) (etl_metadata d) (views d) (indexes d) (conn d)
                        (history d ++ [Commit])) created
            = let d' := foldl commit_table d created in
              Database (tables d') (etl_metadata d') (views d') (indexes d') (conn d')
                       (history d' ++ [Commit])) as Hfold.
  { induction created as [|table created IH]; intros d; [done|].
    simpl. rewrite <- IH. f_equal.
    unfold commit_table. simpl. destruct (decide _); [done|].
    by destruct (tables d !! table). }
  subst d1. rewrite Hfold. simpl. by rewrite foldl_commit_table_history.
Qed.

(** *** Steps that respect a relation between stores *)

Section store_relations.
Context (P : relation database) `{!PreOrder P}.

Lemma logger_store r : respects (store_rel P) (logger r).
Proof. apply respects_modify. intros w. unfold store_rel. reflexivity. Qed.

Lemma update_db_store f : (forall d, P d (f d)) -> respects (store_rel P) (update_db f).
Proof. intros Hf. apply respects_modify. intros w. apply Hf. Qed.

Lemma request_store e s :
  (forall d, P d (Database (tables d) (etl_metadata d) (views d) (indexes d)
                           (conn d) (history d ++ [s]))) ->
  respects (store_rel P) (request e s).
Proof.
  intros Hs. unfold request. destruct (fails e s); [apply (respects_raise _)|].
  by apply update_db_store.
Qed.

End store_relations.

Ltac store_steps :=
  repeat first
    [ apply logger_store; apply _
    | apply request_store; [apply _|intros ?; done]
    | apply update_db_store; intros ?; simpl; repeat case_match; done
    | respects_step ].

Lemma before_loop_audit e :
  respects (store_rel audit_kept)
           (get_conn e;; create_database_schema e;; request e GetEngine).
Proof.
  unfold get_conn, create_database_schema, create_table_if_not_exists. store_steps.
Qed.

Lemma load_file_audit e processed_dir n item :
  respects (store_rel audit_kept) (load_file e processed_dir n item).
Proof. unfold load_file, drop_table_cascade, to_sql, count_rows. store_steps. Qed.

Lemma create_analytical_views_audit e :
  respects (store_rel audit_kept) (create_analytical_views e).
Proof. unfold create_analytical_views, create_or_replace_view. store_steps. Qed.

Lemma create_indexes_audit e : respects (store_rel audit_kept) (create_indexes e).
Proof. unfold create_indexes, create_index_if_not_exists. store_steps. Qed.

(** The steps after [create_indexes] lose no table and leave the views
    and the indexes alone. *)
Lemma after_indexes_settled e rows_loaded :
  respects (store_rel settled)
    (present ← check_if_table_exists e "etl_metadata";
     (if present : bool
      then insert_metadata e (AuditRow "load" (now e) rows_loaded)
      else logger (WARNING "etl_metadata table does not exist. Skipping metadata insertion."));;
     conn_commit e;;
     conn_close;;
     mret true).
Proof.
  unfold check_if_table_exists, insert_metadata, conn_commit, conn_close.
  store_steps.
  apply update_db_store. intros d. simpl.
  destruct (foldl_commit_table_settled (default [] (conn d)) d) as (Ht & Hv & Hi).
  split; [done|]. split; done.
Qed.

(** A view, an index and the three views that were created. *)
Lemma create_or_replace_view_Ok e view table w u w' :
  create_or_replace_view e view table w = (Py.Ok u, w') ->
  is_Some (tables (db w) !! table)
  /\ tables (db w') = tables (db w)
  /\ views (db w') = <[view := table]> (views (db w))
  /\ indexes (db w') = indexes (db w).
Proof.
  unfold create_or_replace_view. intros Hrun.
  apply bind_Ok in Hrun as ([] & w1 & Hreq & Hrun).
  apply request_Ok in Hreq as [_ ->].
  apply bind_Ok in Hrun as (t & w2 & Hgets & Hrun).
  injection Hgets as <- <-. simpl in Hrun.
  destruct (tables (db w) !! table) as [df|]; [|done].
  injection Hrun as _ <-. split; [by eexists|]. done.
Qed.

Lemma create_index_if_not_exists_Ok e index table w u w' :
  create_index_if_not_exists e index table w = (Py.Ok u, w') ->
  is_Some (tables (db w) !! table)
  /\ tables (db w') = tables (db w)
  /\ views (db w') = views (db w)
  /\ indexes (db w') = <[index := table]> (indexes (db w)).
Proof.
  unfold create_index_if_not_exists. intros Hrun.
  apply bind_Ok in Hrun as ([] & w1 & Hreq & Hrun).
  apply request_Ok in Hreq as [_ ->].
  apply bind_Ok in Hrun as (t & w2 & Hgets & Hrun).
  injection Hgets as <- <-. simpl in Hrun.
  destruct (tables (db w) !! table) as [df|]; [|done].
  injection Hrun as _ <-. split; [by eexists|]. done.
Qed.

(** A [try: ... except: log; raise] that returned ran its body to the end. *)
Lemma reraise_Ok {A} (body : M A) (log : Py.exn -> M unit) w a w' :
  try_except body (fun ex => log ex;; raise ex) w = (Py.Ok a, w') ->
  body w = (Py.Ok a, w').
Proof.
  unfold try_except. destruct (body w) as [[b|ex] wb]; [done|].
  intros Hrun. by apply bind_Ok in Hrun as (? & ? & _ & Hrun).
Qed.

Lemma create_analytical_views_Ok e w u w' :
  create_analytical_views e w = (Py.Ok u, w') ->
  tables (db w') = tables (db w)
  /\ indexes (db w') = indexes (db w)
  /\ Forall (fun view => is_Some (tables (db w') !! view.2)
                         /\ views (db w') !! view.1 = Some view.2)
            analytical_views.
Proof.
  unfold create_analytical_views. intros Hrun. apply reraise_Ok in Hrun.
  apply bind_Ok in Hrun as ([] & w1 & H1 & Hrun).
  apply bind_Ok in Hrun as ([] & w2 & H2 & H3).
  apply create_or_replace_view_Ok in H1 as (Hs1 & Ht1 & Hv1 & Hi1).
  apply create_or_replace_view_Ok in H2 as (Hs2 & Ht2 & Hv2 & Hi2).
  apply create_or_replace_view_Ok in H3 as (Hs3 & Ht3 & Hv3 & Hi3).
  split; [congruence|]. split; [congruence|].
  rewrite Ht3. rewrite Ht2 in *. rewrite Ht1 in *.
  rewrite Hv3, Hv2, Hv1. unfold analytical_views.
  repeat constructor; simpl; try done.
  - rewrite !lookup_insert_ne by done. by rewrite lookup_insert_eq.
  - rewrite lookup_insert_ne by done. by rewrite lookup_insert_eq.
  - by rewrite lookup_insert_eq.
Qed.

Lemma create_indexes_Ok e w u w' :
  create_indexes e w = (Py.Ok u, w') ->
  tables (db w') = tables (db w)
  /\ views (db w') = views (db w)
  /\ is_Some (tables (db w') !! "full_data")
  /\ Forall (fun index => is_Some (indexes (db w') !! index)) index_names.
Proof.
  unfold create_indexes. intros Hrun. apply reraise_Ok in Hrun.
  apply bind_Ok in Hrun as ([] & w1 & H1 & Hrun).
  apply bind_Ok in Hrun as ([] & w2 & H2 & Hrun).
  apply bind_Ok in Hrun as ([] & w3 & H3 & Hrun).
  apply bind_Ok in Hrun as ([] & w4 & H4 & H5).
  apply create_index_if_not_exists_Ok in H1 as (Hs1 & Ht1 & Hv1 & Hi1).
  apply create_index_if_not_exists_Ok in H2 as (Hs2 & Ht2 & Hv2 & Hi2).
  apply create_index_if_not_exists_Ok in H3 as (Hs3 & Ht3 & Hv3 & Hi3).
  apply create_index_if_not_exists_Ok in H4 as (Hs4 & Ht4 & Hv4 & Hi4).
  apply create_index_if_not_exists_Ok in H5 as (Hs5 & Ht5 & Hv5 & Hi5).
  split; [congruence|]. split; [congruence|].
  split; [by rewrite Ht5, Ht4, Ht3, Ht2, Ht1|].
  rewrite Hi5, Hi4, Hi3, Hi2, Hi1. unfold index_names.
  repeat constructor.
  - rewrite !lookup_insert_ne by done. by rewrite lookup_insert_eq.
  - rewrite !lookup_insert_ne by done. by rewrite lookup_insert_eq.
  - rewrite !lookup_insert_ne by done. by rewrite lookup_insert_eq.
  - rewrite lookup_insert_ne by done. by rewrite lookup_insert_eq.
  - by rewrite lookup_insert_eq.
Qed.

(** A run of [load_data] that returned [True] had a configuration with
    the processed directory in it. *)
Lemma load_data_true_config e config w w' :
  load_data e config w = (Py.Ok true, w') ->
  exists cfg processed_dir,
    config_or_import e config = Some cfg
    /\ cfg !! "processed_data_path" = Some processed_dir.
Proof.
  intros Hrun. unfold load_data in Hrun.
  destruct (config_or_import e config) as [cfg|] eqn:Hcfg; [|done].
  destruct (cfg !! "processed_data_path") as [processed_dir|] eqn:Hproc; [by eauto|].
  exfalso. unfold try_except, getitem in Hrun. rewrite Hproc in Hrun.
  rewrite (bind_Raise _ _ w (Py.KeyError "processed_data_path") w) in Hrun by done.
  do 3 (apply bind_Ok in Hrun as (? & ? & _ & Hrun)). done.
Qed.

(** One pass of the loop over the files adds the rows of its file. *)
Lemma load_file_counts e processed_dir n item w n' w' :
  load_file e processed_dir n item w = (Py.Ok n', w') ->
  n' = match files w !! Py.path_join processed_dir item.1 with
       | Some (Csv df) => (n + len df)%nat
       | _ => n
       end.
Proof.
  intros Hrun.
  destruct (files w !! Py.path_join processed_dir item.1) as [content|] eqn:Hfile.
  - pose proof Hrun as Hrun'.
    unfold load_file in Hrun.
    rewrite (bind_run _ _ w (Some content) w) in Hrun
      by (unfold gets; by rewrite Hfile).
    apply bind_Ok in Hrun as (df & w0 & Hread & Hrun).
    unfold lift in Hread. injection Hread as Hread <-.
    apply bind_Ok in Hrun as ([] & w1 & Hdrop & Hrun).
    apply bind_Ok in Hrun as ([] & w2 & Hsql & Hrun).
    apply bind_Ok in Hrun as (count & w3 & Hcount & Hrun).
    cbv [mret M_ret] in Hrun. injection Hrun as <- <-.
    unfold to_sql in Hsql. apply bind_Ok in Hsql as ([] & w1' & _ & Hsql).
    cbv [update_db modify] in Hsql. injection Hsql as <-.
    unfold count_rows in Hcount. apply bind_Ok in Hcount as ([] & w2' & Hreq & Hcount).
    apply bind_Ok in Hcount as (t & w2'' & Hgets & Hcount).
    cbv [gets] in Hgets. injection Hgets as <- <-.
    apply request_Ok in Hreq as [_ ->]. simpl in Hcount.
    rewrite lookup_insert_eq in Hcount. cbv [mret M_ret] in Hcount.
    injection Hcount as <- _.
    destruct content; simpl in Hread; try done. by injection Hread as ->.
  - rewrite load_file_missing in Hrun by done. by injection Hrun as <- _.
Qed.

Lemma for_each_load_file_counts e processed_dir w n w' :
  for_each (load_file e processed_dir) 0%nat files_to_load w = (Py.Ok n, w') ->
  n = rows_on_disk processed_dir (files w).
Proof.
  intros Hrun. unfold files_to_load in Hrun. cbn [for_each] in Hrun.
  apply bind_Ok in Hrun as (n1 & w1 & H1 & Hrun).
  apply bind_Ok in Hrun as (n2 & w2 & H2 & Hrun).
  apply bind_Ok in Hrun as (n3 & w3 & H3 & Hrun).
  injection Hrun as <- _.
  destruct (load_file_quiet e processed_dir _ _ _ _ _ H1) as [Hf1 _].
  destruct (load_file_quiet e processed_dir _ _ _ _ _ H2) as [Hf2 _].
  apply load_file_counts in H1, H2, H3.
  rewrite Hf2, Hf1 in H3. rewrite Hf1 in H2.
  unfold rows_on_disk, files_to_load. cbn [foldl]. by rewrite <- H1, <- H2.
Qed.

End LoadRuns.

(** ** What a load that raises leaves behind *)

Module RollbackFacts.
Import Frame World Load Notions Measures Raising.
Import StageFacts LoadFacts LoadRuns.

Lemma raising_bind {A B} (R : relation world) `{!PreOrder R}
    (m : M A) (k : A -> M B) :
  respects R m -> (forall a, raising R (k a)) -> raising R (m ≫= k).
Proof.
  intros Hm Hk w ex w''. unfold mbind, M_bind.
  destruct (m w) as [[a|ex'] w'] eqn:Hrun.
  - intros Hkrun. etrans; [by eapply Hm|by eapply Hk].
  - intros [= _ <-]. by eapply Hm.
Qed.

Lemma raising_try_except {A} (R : relation world) `{!PreOrder R}
    (body : M A) handler :
  raising R body -> (forall ex, respects R (handler ex)) ->
  raising R (try_except body handler).
Proof.
  intros Hbody Hhandler w ex w''. unfold try_except.
  destruct (body w) as [[a|ex'] w'] eqn:Hrun; [done|].
  intros Hrun'. etrans; [by eapply Hbody|by eapply Hhandler].
Qed.

(** The commit is the last thing that can go wrong, and when it does the
    store has not changed. *)
Lemma raising_commit (R : relation world) `{!PreOrder R} e :
  raising R (conn_commit e;; conn_close;; mret true).
Proof.
  intros w ex w'. unfold conn_commit, request, mbind, M_bind.
  destruct (fails e Commit); [|done].
  intros [= _ <-]. done.
Qed.

Section untouched.
Context (path t : string).

Lemma logger_untouched r : respects (untouched path t) (logger r).
Proof. apply respects_modify. intros w _. done. Qed.

Lemma update_db_untouched f :
  (forall d, tables (f d) !! t = tables d !! t) ->
  respects (untouched path t) (update_db f).
Proof. intros Hf. apply respects_modify. intros w _. split; [done|apply Hf]. Qed.

Lemma request_untouched e s : respects (untouched path t) (request e s).
Proof.
  unfold request. destruct (fails e s); [apply (respects_raise _)|].
  by apply update_db_untouched.
Qed.

End untouched.

Ltac untouched_steps :=
  repeat first
    [ apply logger_untouched
    | apply request_untouched
    | apply update_db_untouched; intros ?; simpl; repeat case_match; done
    | respects_step ].

Lemma before_loop_untouched path t e :
  respects (untouched path t)
           (get_conn e;; create_database_schema e;; request e GetEngine).
Proof.
  unfold get_conn, create_database_schema, create_table_if_not_exists.
  untouched_steps.
Qed.

(** A pass of the loop leaves the table of a missing file alone: the pass
    for the file itself only warns, the others load other tables. *)
Lemma load_file_untouched e processed_dir n item other :
  item ∈ files_to_load -> other ∈ files_to_load ->
  respects (untouched (Py.path_join processed_dir item.1) item.2)
           (load_file e processed_dir n other).
Proof.
  intros Hitem Hother.
  destruct (decide (other = item)) as [->|Hne].
  - intros w r w' Hrun Hmissing.
    rewrite load_file_missing in Hrun by done. by injection Hrun as _ <-.
  - assert (other.2 <> item.2) as Htable.
    { apply list_elem_of_In in Hitem, Hother. simpl in Hitem, Hother.
      destruct Hitem as [<-|[<-|[<-|[]]]], Hother as [<-|[<-|[<-|[]]]]; done. }
    unfold load_file, drop_table_cascade, to_sql, count_rows.
    untouched_steps.
    + apply update_db_untouched. intros d. simpl. by apply lookup_delete_ne.
    + apply update_db_untouched. intros d. simpl. by apply lookup_insert_ne.
Qed.

Lemma rest_untouched path t e :
  (forall ex,
     respects (untouched path t)
       (logger (ERROR_exn "Error during data loading" ex);;
        open ← gets (fun w => bool_decide (is_Some (conn (db w))));
        (if open : bool then conn_rollback e;; conn_close else mret tt);;
        raise (A:=bool) (Py.AirflowException ex)))
  /\ respects (untouched path t) (create_analytical_views e)
  /\ respects (untouched path t) (create_indexes e)
  /\ respects (untouched path t) (check_if_table_exists e "etl_metadata")
  /\ (forall row, respects (untouched path t) (insert_metadata e row)).
Proof.
  split; [intros ex|split; [|split; [|split; [|intros row]]]];
    unfold conn_rollback, conn_close, create_analytical_views,
      create_or_replace_view, create_indexes, create_index_if_not_exists,
      check_if_table_exists, insert_metadata;
    untouched_steps.
Qed.

End RollbackFacts.

(** ** The metadata of a transformation *)

Module MetadataFacts.
Import Calendar Order Frame World Transform Notions Measures.
Import GroupFacts DeltaFacts StageFacts TransformStageFacts.

(** The smallest and the largest date of a column. *)
Lemma foldl_min_date rows : forall lo,
  let m := foldl (fun lo r => if decide (lexico (o_date r) lo) then o_date r else lo)
                 lo rows in
  ~ lexico lo m
  /\ Forall (fun o => ~ lexico (o_date o) m) rows
  /\ (m = lo \/ m ∈ map o_date rows).
Proof.
  induction rows as [|r rows IH]; intros lo; simpl.
  - split; [apply irreflexivity, _|]. split; [constructor|by left].
  - destruct (decide (lexico (o_date r) lo)) as [Hlt|Hge].
    + destruct (IH (o_date r)) as (Hm & Hall & Hin). split; [|split].
      * intros Hlo. apply Hm. by etrans.
      * by constructor.
      * right. destruct Hin as [->|Hin]; [left|by right].
    + destruct (IH lo) as (Hm & Hall & Hin). split; [done|split].
      * constructor; [|done]. intros Hr. apply Hge.
        destruct (trichotomyT lexico lo
                    (foldl (fun lo r => if decide (lexico (o_date r) lo)
                                        then o_date r else lo) lo rows))
          as [[Hlt|Heq]|Hgt]; [done| |by etrans].
        by rewrite Heq.
      * destruct Hin as [->|Hin]; [by left|right; by right].
Qed.

Lemma foldl_max_date rows : forall hi,
  let m := foldl (fun hi r => if decide (lexico hi (o_date r)) then o_date r else hi)
                 hi rows in
  ~ lexico m hi
  /\ Forall (fun o => ~ lexico m (o_date o)) rows
  /\ (m = hi \/ m ∈ map o_date rows).
Proof.
  induction rows as [|r rows IH]; intros hi; simpl.
  - split; [apply irreflexivity, _|]. split; [constructor|by left].
  - destruct (decide (lexico hi (o_date r))) as [Hlt|Hge].
    + destruct (IH (o_date r)) as (Hm & Hall & Hin). split; [|split].
      * intros Hhi. apply Hm. by etrans.
      * by constructor.
      * right. destruct Hin as [->|Hin]; [left|by right].
    + destruct (IH hi) as (Hm & Hall & Hin). split; [done|split].
      * constructor; [|done]. intros Hr. apply Hge.
        destruct (trichotomyT lexico
                    (foldl (fun hi r => if decide (lexico hi (o_date r))
                                        then o_date r else hi) hi rows) hi)
          as [[Hlt|Heq]|Hgt]; [done| |by etrans].
        by rewrite <- Heq.
      * destruct Hin as [->|Hin]; [by left|right; by right].
Qed.

(** The countries of the country-level table are those of the
    Observations. *)
Lemma country_data_countries rows c :
  c ∈ map c_country (country_data rows) <-> c ∈ map o_country rows.
Proof.
  split.
  - intros Hc. apply list_elem_of_fmap in Hc as (r & -> & Hr).
    unfold country_data in Hr. apply list_elem_of_fmap in Hr as (g & -> & Hg).
    destruct (groupby_sum_group _ _ Hg) as (o & rest & Hgroup & _).
    assert (o ∈ filter (fun o => country_key o = g.1) rows) as Ho
      by (rewrite Hgroup; left).
    apply list_elem_of_filter in Ho as [Hkey Ho].
    apply list_elem_of_fmap. exists o. split; [|done].
    simpl. rewrite <- Hkey. done.
  - intros Hc. apply list_elem_of_fmap in Hc as (o & -> & Ho).
    destruct (groupby_sum_covers _ _ Ho) as [s Hs].
    apply list_elem_of_fmap. exists (country_level (country_key o, s)).
    split; [done|]. unfold country_data. apply list_elem_of_fmap. eauto.
Qed.

(** A run that found its configuration, its datasets and the confirmed
    one among them. *)
Lemma transform_data_writes e config cfg raw_dir processed_dir w datasets w' backbone :
  config_or_import e config = Some cfg ->
  cfg !! "raw_data_path" = Some raw_dir ->
  cfg !! "processed_data_path" = Some processed_dir ->
  read_datasets raw_dir categories ∅ w = (Py.Ok datasets, w') ->
  datasets !! "confirmed" = Some backbone ->
  let transformed_data := reconcile datasets backbone in
  files (transform_data e config w).2
    !! Py.path_join processed_dir "covid_data_transformed.csv"
  = Some (Csv (FullFrame transformed_data))
  /\ files (transform_data e config w).2
       !! Py.path_join processed_dir "covid_data_by_country.csv"
     = Some (Csv (CountryFrame (country_data transformed_data)))
  /\ files (transform_data e config w).2
       !! Py.path_join processed_dir "transformation_metadata.txt"
     = Some (TransformationMetadata (now e)
               (length (sort_values transformed_data))
               (nunique (sort_values transformed_data))
               (date_range (sort_values transformed_data))).
Proof.
  intros Hcfg Hraw Hproc Hread Hconfirmed transformed_data.
  unfold transform_data, try_except.
  rewrite Hcfg. unfold getitem. rewrite Hraw, Hproc.
  rewrite (bind_run _ _ w raw_dir w) by done.
  rewrite (bind_run _ _ w processed_dir w) by done.
  rewrite (bind_run _ _ _ _ _ Hread). rewrite Hconfirmed. simpl.
  repeat split.
  - rewrite !lookup_insert_ne by different_paths. apply lookup_insert_eq.
  - rewrite !lookup_insert_ne by different_paths. apply lookup_insert_eq.
  - apply lookup_insert_eq.
Qed.

End MetadataFacts.

Module TableBehaviour.
Import Calendar Order Frame World Transform Notions Measures Samples Cases.
Import ReshapeFacts MergeFacts RateFacts GroupFacts DeltaFacts TableFacts.

(** X1.  Every date of a long table that the reshape step returns is a
    day of the calendar, in the years 1969 to 2068 that a two-digit year
    can name. *)
Theorem reshape_dates_are_calendar_days (df : frame) (df_long : list long_row) :
  reshape df = Py.Ok df_long ->
  Forall (fun r => calendar_day (l_date r)) df_long.
Proof.
  destruct df as [w| | |]; try done. simpl. intros Hlong.
  apply to_datetime_Ok in Hlong.
  apply Forall_forall. intros r Hr.
  apply list_elem_of_lookup in Hr as [i Hi].
  destruct (Forall2_lookup_r _ _ _ _ _ Hlong Hi) as (row & _ & d & Hd & ->).
  simpl. by eapply strptime_mdy_calendar_day.
Qed.

Lemma reshape_dates_are_calendar_days_witness :
  Forall (fun r => calendar_day (l_date r)) sample_long.
Proof.
  apply (reshape_dates_are_calendar_days (WideFrame jhu_sample) sample_long).
  reflexivity.
Defined.

(** Headers the format takes and headers it refuses. *)
Example date_headers :
  strptime_mdy "1/22/20" = Some (Date 2020 1 22)
  /\ strptime_mdy "01/05/21" = Some (Date 2021 1 5)
  /\ strptime_mdy "2/29/20" = Some (Date 2020 2 29)
  /\ strptime_mdy "12/31/69" = Some (Date 1969 12 31)
  /\ strptime_mdy "2/29/21" = None
  /\ strptime_mdy "1/22/2020" = None
  /\ strptime_mdy "2020-01-22" = None
  /\ strptime_mdy "Population" = None.
Proof. vm_compute. done. Qed.

(** X2.  A category without a table gives a column of zeros: without
    deaths every Observation has deaths 0, without recovered every
    Observation has recovered 0, and without both the output has one row
    per confirmed row, in the same order, with active equal to confirmed. *)
Theorem absent_category_is_zero (datasets : gmap string (list long_row))
    (backbone : list long_row) :
  (datasets !! "deaths" = None ->
   Forall (fun o => deaths o = 0) (reconcile datasets backbone))
  /\ (datasets !! "recovered" = None ->
      Forall (fun o => recovered o = 0) (reconcile datasets backbone))
  /\ (datasets !! "deaths" = None -> datasets !! "recovered" = None ->
      Forall2 (fun c o => taken_from c o /\ deaths o = 0 /\ recovered o = 0
                          /\ active o = confirmed o)
              backbone (reconcile datasets backbone)).
Proof.
  unfold reconcile, add_category. split; [|split].
  - intros ->. apply Forall_forall. intros o Ho.
    apply list_elem_of_fmap in Ho as (row & -> & Hrow).
    apply add_category_origin in Hrow. simpl in Hrow.
    apply list_elem_of_fmap in Hrow as (c & Hc & _). simpl. by rewrite Hc.
  - intros ->. apply Forall_forall. intros o Ho.
    apply list_elem_of_fmap in Ho as (row & -> & Hrow).
    apply list_elem_of_fmap in Hrow as (a & -> & _). done.
  - intros -> ->. rewrite !map_map.
    induction backbone as [|c backbone IH]; simpl; [constructor|].
    constructor; [|done].
    repeat split. simpl. destruct (l_value c) as [v|]; simpl; [f_equal; lia|done].
Qed.

(** The scenario of the specification: confirmed 100 and no deaths table
    give deaths 0, active 100 and mortality_rate 0. *)
Example deaths_absent_scenario :
  let c := LongRow hubei (Date 2020 1 22) (Some 100) in
  reconcile {[ "confirmed" := [c] ]} [c]
  = [Obs "Hubei" "China" 30.5%float 112.25%float (Date 2020 1 22)
         (Some 100) 0 0 (Some 100) 0%float].
Proof. vm_compute. reflexivity. Qed.

(** X3.  When the deaths and the recovered table hold at most one row per
    join key, the deaths and recovered of the i-th Observation are the
    counts of the rows with the key of the i-th confirmed row: 0 when the
    table is absent, when no row has that key, or when the count is missing.
    A missing sub-region is a key value like any other. *)
Theorem reconcile_joined_counts (datasets : gmap string (list long_row))
    (backbone : list long_row) :
  (forall category right_df,
     category ∈ ["deaths"; "recovered"] ->
     datasets !! category = Some right_df ->
     NoDup (map join_key right_df)) ->
  Forall2 (fun c o => joined_value (datasets !! "deaths") c (deaths o)
                      /\ joined_value (datasets !! "recovered") c (recovered o))
          backbone (reconcile datasets backbone).
Proof.
  intros Hunique. unfold reconcile.
  destruct (add_category_joined datasets "deaths" (fun c : long_row => c) backbone)
    as (vd & Hvd & Hd).
  { intros right_df. apply Hunique. set_solver. }
  change (add_category datasets "deaths" join_key backbone = map (fun a => (a, vd a)) backbone)
    in Hvd.
  rewrite Hvd.
  destruct (add_category_joined datasets "recovered"
              (fun a : long_row * cell => a.1) (map (fun a => (a, vd a)) backbone))
    as (vr & Hvr & Hr).
  { intros right_df. apply Hunique. set_solver. }
  cbn beta in Hvr. rewrite Hvr. clear Hvd Hvr.
  rewrite !map_map.
  induction backbone as [|c backbone IH]; simpl; [constructor|].
  constructor; [|done].
  split; [apply Hd|apply (Hr (c, vd c))].
Qed.

Lemma reconcile_joined_counts_witness :
  Forall2 (fun c o => joined_value (hubei_datasets !! "deaths") c (deaths o)
                      /\ joined_value (hubei_datasets !! "recovered") c (recovered o))
          confirmed_hubei (reconcile hubei_datasets confirmed_hubei).
Proof.
  apply (reconcile_joined_counts hubei_datasets confirmed_hubei).
  intros category right_df Hcat Hget.
  assert (right_df = deaths_hubei) as ->.
  { apply list_elem_of_In in Hcat. simpl in Hcat.
    destruct Hcat as [<-|[<-|[]]]; vm_compute in Hget;
      [injection Hget as <-; reflexivity | discriminate]. }
  repeat constructor. set_solver.
Defined.

(** X4.  For every Observation active is confirmed - deaths - recovered
    (missing when confirmed is missing, and not clamped when negative); and
    a country row whose Observations all have a confirmed count has active
    equal to its confirmed - deaths - recovered. *)
Theorem active_identity (datasets : gmap string (list long_row))
    (backbone : list long_row) :
  let transformed_data := reconcile datasets backbone in
  (forall o, o ∈ transformed_data ->
     active o = (fun c => c - deaths o - recovered o) <$> confirmed o)
  /\ (forall r, r ∈ country_data transformed_data ->
        (forall o, o ∈ transformed_data ->
                   country_key o = (c_country r, c_date r) ->
                   confirmed o <> None) ->
        c_active r = c_confirmed r - c_deaths r - c_recovered r).
Proof.
  intros transformed_data.
  assert (forall o, o ∈ transformed_data ->
            active o = (fun c => c - deaths o - recovered o) <$> confirmed o)
    as Hrow.
  { intros o Ho. apply list_elem_of_fmap in Ho as (row & -> & _).
    apply reconcile_row_active. }
  split; [done|].
  intros r Hr Hconfirmed.
  unfold country_data in Hr. apply list_elem_of_fmap in Hr as (g & -> & Hg).
  destruct (groupby_sum_group _ _ Hg) as (o & rest & Hgroup & Hsums).
  destruct (foldl_add_obs (o :: rest) (Sums 0 0 0 0)) as (Hc & Hd & Hr & Ha).
  rewrite <- Hsums in Hc, Hd, Hr, Ha. simpl in Hc, Hd, Hr, Ha.
  assert (Forall (fun o => exists c, confirmed o = Some c
                                     /\ active o = Some (c - deaths o - recovered o))
                 (o :: rest)) as Hall.
  { apply Forall_forall. intros p Hp. rewrite <- Hgroup in Hp.
    apply list_elem_of_filter in Hp as [Hkey Hp].
    specialize (Hrow p Hp). specialize (Hconfirmed p Hp).
    destruct g as [[country d] s]. simpl in *.
    specialize (Hconfirmed Hkey).
    destruct (confirmed p) as [c|]; [|done]. exists c. done. }
  pose proof (total_active _ Hall) as Htotal. simpl in Htotal.
  simpl. lia.
Qed.

(** A negative active count is kept, and a missing confirmed count leaves
    the country row with an active sum that is not its confirmed - deaths -
    recovered. *)
Example active_edge_cases :
  let c d v := LongRow hubei (Date 2020 1 d) v in
  let t := reconcile {[ "confirmed" := [c 22 (Some 5); c 23 None];
                        "deaths" := [c 22 (Some 7); c 23 (Some 2)] ]}
                     [c 22 (Some 5); c 23 None] in
  map active t = [Some (-2); None]
  /\ map (fun r => (c_confirmed r, c_deaths r, c_active r)) (country_data t)
     = [(5, 7, -2); (0, 2, 0)].
Proof. vm_compute. done. Qed.

(** X5.  The country summary holds its rows in strictly ascending order
    of (country, date), and never more rows than there are Observations. *)
Theorem country_data_order (transformed_data : list obs) :
  StronglySorted lexico
    (map (fun r => (c_country r, c_date r)) (country_data transformed_data))
  /\ (length (country_data transformed_data) <= length transformed_data)%nat.
Proof.
  split.
  - unfold country_data. rewrite map_map.
    rewrite (map_ext _ fst) by (by intros [[c d] g]).
    apply groupby_sum_ascending.
  - unfold country_data. rewrite length_map. apply length_groupby_sum.
Qed.

(** X6.  The daily-changes table holds every Observation once, ordered
    by (country, sub-region, date), and none of its three increments is
    negative. *)
Theorem daily_data_rows (transformed_data : list obs) :
  map d_obs (daily_data transformed_data) ≡ₚ transformed_data
  /\ StronglySorted key_le (map d_obs (daily_data transformed_data))
  /\ Forall (fun r => 0 <= new_confirmed r /\ 0 <= new_deaths r
                      /\ 0 <= new_recovered r)
            (daily_data transformed_data).
Proof.
  unfold daily_data. rewrite group_diff_obs. split; [|split].
  - apply sort_values_Permutation.
  - apply sort_values_Sorted.
  - apply group_diff_nonnegative.
Qed.

End TableBehaviour.

Module TransformBehaviour.
Import Calendar Order Frame World Transform Notions Measures Samples Cases.
Import ReshapeFacts StageFacts TransformStageFacts TransformRuns LoadFacts.

(** X7.  [transform_data] never raises: it returns [True] or [False].
    It leaves the store alone and only adds to the log.  When it returns
    [False] no file has changed; when it returns [True] no file has changed
    but the four it writes into the processed directory. *)
Theorem transform_data_outcome e config w :
  let run := transform_data e config w in
  (exists b, run.1 = Py.Ok b)
  /\ db run.2 = db w
  /\ log_grows w run.2
  /\ (run.1 = Py.Ok false -> files run.2 = files w)
  /\ (run.1 = Py.Ok true ->
      exists cfg processed_dir,
        config_or_import e config = Some cfg
        /\ cfg !! "processed_data_path" = Some processed_dir
        /\ wrote_only (processed_paths processed_dir) w run.2).
Proof.
  intros run.
  assert (offline w run.2) as [Hdb Hlog].
  { apply (transform_data_offline e config w run.1). subst run.
    by destruct (transform_data e config w). }
  destruct (transform_data_cases e config w)
    as [(Hr & Hf & _)
       |(cfg & raw & proc & ds & full & country & daily & meta
         & Hcfg & _ & Hproc & _ & _ & Hr & Hf)]; fold run in Hr, Hf.
  - split; [by eexists|]. do 2 (split; [done|]). split; [done|].
    rewrite Hr. done.
  - split; [by eexists|]. do 2 (split; [done|]). split; [by rewrite Hr|].
    intros _. exists cfg, proc. do 2 (split; [done|]).
    intros p Hp. rewrite Hf. unfold processed_paths in Hp.
    repeat (apply not_elem_of_cons in Hp as [? Hp]).
    by rewrite !lookup_insert_ne.
Qed.

(** X8.  Without the confirmed file [transform_data] returns [False] and
    writes nothing, whatever the deaths and recovered files hold; the log
    has the warning for the file, and ends with the error for the missing
    dataset when the two other files are absent or can be reshaped. *)
Theorem missing_confirmed_fails e config cfg raw_dir processed_dir w :
  config_or_import e config = Some cfg ->
  cfg !! "raw_data_path" = Some raw_dir ->
  cfg !! "processed_data_path" = Some processed_dir ->
  files w !! Py.path_join raw_dir "confirmed.csv" = None ->
  let run := transform_data e config w in
  run.1 = Py.Ok false
  /\ files run.2 = files w
  /\ WARNING ("Raw data file not found: " ++ Py.path_join raw_dir "confirmed.csv")
       ∈ logged run.2
  /\ ((forall category content,
         category ∈ ["deaths"; "recovered"] ->
         files w !! Py.path_join raw_dir (category ++ ".csv") = Some content ->
         exists df df_long, read_csv content = Py.Ok df /\ reshape df = Py.Ok df_long) ->
      last (logged run.2) = Some (ERROR "Required 'confirmed' dataset missing")).
Proof.
  intros Hcfg Hraw Hproc Hfile run. subst run.
  unfold transform_data, try_except. rewrite Hcfg. unfold getitem. rewrite Hraw, Hproc.
  rewrite (bind_run _ _ w raw_dir w) by done.
  rewrite (bind_run _ _ w processed_dir w) by done.
  set (warning := WARNING ("Raw data file not found: "
                           ++ Py.path_join raw_dir "confirmed.csv")).
  set (wl := World (files w) (db w) (logged w ++ [warning])).
  assert (read_datasets raw_dir categories ∅ w
          = read_datasets raw_dir ["deaths"; "recovered"] ∅ wl) as Hstep.
  { unfold categories. cbn [read_datasets].
    change ("confirmed" ++ ".csv") with "confirmed.csv".
    rewrite (bind_run _ _ w None w) by (unfold gets; by rewrite Hfile).
    by rewrite (bind_run _ _ w tt wl). }
  pose proof (read_datasets_respects same_files raw_dir ["deaths"; "recovered"]
                logger_same_files ∅ wl) as Hfiles.
  pose proof (read_datasets_respects log_grows raw_dir ["deaths"; "recovered"]
                logger_log_grows ∅ wl) as Hlog.
  destruct (read_datasets raw_dir ["deaths"; "recovered"] ∅ wl)
    as [[ds|ex] w'] eqn:Hrest.
  - specialize (Hfiles _ _ eq_refl). specialize (Hlog _ _ eq_refl).
    rewrite (bind_run _ _ w ds w') by done.
    rewrite (read_datasets_keys _ _ _ _ _ _ Hrest "confirmed")
      by (rewrite !not_elem_of_cons; repeat split; [done..|apply not_elem_of_nil]).
    rewrite lookup_empty. simpl.
    split; [done|]. split; [done|]. split.
    + apply elem_of_app. left. apply (log_grows_elem wl w'); [done|].
      apply elem_of_app. right. left.
    + intros _. apply last_snoc.
  - specialize (Hfiles _ _ eq_refl). specialize (Hlog _ _ eq_refl).
    rewrite (bind_Raise _ _ w ex w') by done. simpl.
    split; [done|]. split; [done|]. split.
    + apply elem_of_app. left. apply (log_grows_elem wl w'); [done|].
      apply elem_of_app. right. left.
    + intros Hfine. exfalso.
      destruct (read_datasets_returns raw_dir ["deaths"; "recovered"] ∅ wl Hfine)
        as (ds' & w'' & Hok).
      congruence.
Qed.

Lemma missing_confirmed_fails_witness :
  let run := transform_data hosts_down (Some Main.dag_CONFIG) empty_world in
  run.1 = Py.Ok false
  /\ files run.2 = files empty_world
  /\ WARNING ("Raw data file not found: "
              ++ Py.path_join "/opt/airflow/data/raw" "confirmed.csv")
       ∈ logged run.2
  /\ ((forall category content,
         category ∈ ["deaths"; "recovered"] ->
         files empty_world !! Py.path_join "/opt/airflow/data/raw" (category ++ ".csv")
         = Some content ->
         exists df df_long, read_csv content = Py.Ok df /\ reshape df = Py.Ok df_long) ->
      last (logged run.2) = Some (ERROR "Required 'confirmed' dataset missing")).
Proof.
  exact (missing_confirmed_fails hosts_down (Some Main.dag_CONFIG) Main.dag_CONFIG
           "/opt/airflow/data/raw" "/opt/airflow/data/processed" empty_world
           eq_refl eq_refl eq_refl eq_refl).
Defined.

(** X9.  A raw file whose table has a row and a counts column whose
    header is not a month/day/two-digit-year date makes [transform_data]
    return [False] through its exception handler, with nothing written. *)
Theorem unparseable_header_fails e config cfg raw_dir w category df header column :
  config_or_import e config = Some cfg ->
  cfg !! "raw_data_path" = Some raw_dir ->
  category ∈ categories ->
  files w !! Py.path_join raw_dir (category ++ ".csv") = Some (Csv (WideFrame df)) ->
  (header, column) ∈ value_vars df ->
  strptime_mdy header = None ->
  id_rows df <> [] -> column <> [] ->
  let run := transform_data e config w in
  run.1 = Py.Ok false
  /\ files run.2 = files w
  /\ exists ex,
       last (logged run.2) = Some (ERROR_exn "Error during data transformation" ex).
Proof.
  intros Hcfg Hraw Hcat Hfile Hcol Hbad Hrows Hcells.
  apply (transform_data_fails e config cfg raw_dir w category
           (Csv (WideFrame df))); try done.
  intros df' [= <-]. by apply (reshape_bad_header df header column).
Qed.

Lemma unparseable_header_fails_witness :
  let run := transform_data all_downloads_succeed (Some Main.dag_CONFIG)
                            four_digit_years in
  run.1 = Py.Ok false
  /\ files run.2 = files four_digit_years
  /\ exists ex,
       last (logged run.2) = Some (ERROR_exn "Error during data transformation" ex).
Proof.
  apply (unparseable_header_fails all_downloads_succeed (Some Main.dag_CONFIG)
           Main.dag_CONFIG "/opt/airflow/data/raw" four_digit_years "confirmed"
           (Wide [hubei] [("1/22/2020", [Some 444])]) "1/22/2020" [Some 444]).
  - reflexivity.
  - reflexivity.
  - left.
  - reflexivity.
  - left.
  - reflexivity.
  - discriminate.
  - discriminate.
Defined.

(** X10.  A confirmed file with a header line and no rows is reshaped
    without a look at its headers; with no deaths and recovered files
    [transform_data] then returns [True] and writes three tables without
    rows, and metadata that count 0 records, 0 countries and no dates. *)
Theorem empty_confirmed_table_succeeds e config cfg raw_dir processed_dir w cols :
  config_or_import e config = Some cfg ->
  cfg !! "raw_data_path" = Some raw_dir ->
  cfg !! "processed_data_path" = Some processed_dir ->
  files w !! Py.path_join raw_dir "confirmed.csv" = Some (Csv (WideFrame (Wide [] cols))) ->
  files w !! Py.path_join raw_dir "deaths.csv" = None ->
  files w !! Py.path_join raw_dir "recovered.csv" = None ->
  let run := transform_data e config w in
  run.1 = Py.Ok true
  /\ files run.2 !! Py.path_join processed_dir "covid_data_transformed.csv"
     = Some (Csv (FullFrame []))
  /\ files run.2 !! Py.path_join processed_dir "covid_data_by_country.csv"
     = Some (Csv (CountryFrame []))
  /\ files run.2 !! Py.path_join processed_dir "covid_daily_changes.csv"
     = Some (Csv (DailyFrame []))
  /\ files run.2 !! Py.path_join processed_dir "transformation_metadata.txt"
     = Some (TransformationMetadata (now e) 0 0 None).
Proof.
  intros Hcfg Hraw Hproc Hconfirmed Hdeaths Hrecovered run. subst run.
  unfold transform_data, try_except.
  rewrite Hcfg. unfold getitem. rewrite Hraw, Hproc.
  rewrite (bind_run _ _ w raw_dir w) by done.
  rewrite (bind_run _ _ w processed_dir w) by done.
  assert (reshape (WideFrame (Wide [] cols)) = Py.Ok []) as Hreshape
    by (simpl; by rewrite melt_no_rows).
  rewrite (bind_run _ _ _ _ _
             (read_datasets_confirmed_only raw_dir w (Wide [] cols) []
                Hconfirmed Hreshape Hdeaths Hrecovered)).
  rewrite lookup_singleton_eq. cbv zeta. rewrite reconcile_nil. simpl.
  split; [done|]. repeat split.
  - rewrite !lookup_insert_ne by different_paths. apply lookup_insert_eq.
  - rewrite !lookup_insert_ne by different_paths. apply lookup_insert_eq.
  - rewrite lookup_insert_ne by different_paths. apply lookup_insert_eq.
  - apply lookup_insert_eq.
Qed.

Lemma empty_confirmed_table_succeeds_witness :
  (transform_data all_downloads_succeed (Some Main.dag_CONFIG) header_only).1
  = Py.Ok true.
Proof.
  apply (empty_confirmed_table_succeeds all_downloads_succeed
           (Some Main.dag_CONFIG) Main.dag_CONFIG "/opt/airflow/data/raw"
           "/opt/airflow/data/processed" header_only
           [("1/22/20", []); ("Population", [])]);
    reflexivity.
Defined.

End TransformBehaviour.

Module MetadataBehaviour.
Import Calendar Order Frame World Transform Notions Measures Samples Cases.
Import GroupFacts DeltaFacts StageFacts TransformStageFacts MetadataFacts.

(** X11.  When [transform_data] returns [True], the metadata file agrees
    with the tables written beside it: its record count is the number of
    rows of the full table, its country count is the number of distinct
    countries of the country-level table, and its date range, which is
    missing exactly when the full table has no rows, runs from a date of the
    table that no row precedes to a date of the table that no row follows. *)
Theorem transformation_metadata_agrees e config w :
  let run := transform_data e config w in
  run.1 = Py.Ok true ->
  exists processed_dir full country records countries range,
    files run.2 !! Py.path_join processed_dir "covid_data_transformed.csv"
    = Some (Csv (FullFrame full))
    /\ files run.2 !! Py.path_join processed_dir "covid_data_by_country.csv"
       = Some (Csv (CountryFrame country))
    /\ files run.2 !! Py.path_join processed_dir "transformation_metadata.txt"
       = Some (TransformationMetadata (now e) records countries range)
    /\ records = length full
    /\ countries = length (remove_dups (map c_country country))
    /\ match range with
       | None => full = []
       | Some (lo, hi) =>
           lo ∈ map o_date full /\ hi ∈ map o_date full
           /\ Forall (fun o => ~ lexico (o_date o) lo /\ ~ lexico hi (o_date o)) full
       end.
Proof.
  intros run Htrue. subst run.
  destruct (transform_data_cases e config w)
    as [(Hr & _)
       |(cfg & raw & proc & ds & full & country & daily & meta
         & Hcfg & Hraw & Hproc & Hread & Hout & _ & _)]; [congruence|].
  unfold outputs in Hout.
  destruct (ds !! "confirmed") as [backbone|] eqn:Hconfirmed; [|done].
  clear Hout full country daily meta.
  destruct (read_datasets raw categories ∅ w) as [r w1] eqn:Hrun.
  simpl in Hread. subst r.
  destruct (transform_data_writes e config cfg raw proc w ds w1 backbone
              Hcfg Hraw Hproc Hrun Hconfirmed) as (Hfull & Hcountry & Hmeta).
  set (t := reconcile ds backbone) in *.
  exists proc, t, (country_data t). do 3 eexists.
  split; [exact Hfull|]. split; [exact Hcountry|]. split; [exact Hmeta|].
  split; [|split].
  - apply Permutation_length, sort_values_Permutation.
  - unfold nunique. apply Permutation_length, NoDup_Permutation.
    + apply NoDup_remove_dups.
    + apply NoDup_remove_dups.
    + intros c. rewrite !elem_of_remove_dups, country_data_countries.
      by rewrite (sort_values_Permutation t).
  - pose proof (sort_values_Permutation t) as Hperm.
    unfold date_range. destruct (sort_values t) as [|o rest] eqn:Hsorted.
    + symmetry in Hperm. by apply Permutation_nil_r in Hperm.
    + destruct (foldl_min_date rest (o_date o)) as (Hlo & Hlos & Hlo_in).
      destruct (foldl_max_date rest (o_date o)) as (Hhi & Hhis & Hhi_in).
      cbv zeta in *.
      assert (forall d, (d = o_date o \/ d ∈ map o_date rest) -> d ∈ map o_date t)
        as Hdates.
      { intros d Hd. rewrite <- Hperm. simpl. destruct Hd as [->|Hd]; [left|by right]. }
      split; [by apply Hdates|]. split; [by apply Hdates|].
      rewrite <- Hperm. constructor; [done|].
      apply Forall_forall. intros p Hp.
      rewrite Forall_forall in Hlos, Hhis. split; [by apply Hlos|by apply Hhis].
Qed.

Lemma transformation_metadata_agrees_witness :
  let run := transform_data all_downloads_succeed (Some Main.dag_CONFIG)
                            three_raw_files in
  exists processed_dir full country records countries range,
    files run.2 !! Py.path_join processed_dir "covid_data_transformed.csv"
    = Some (Csv (FullFrame full))
    /\ files run.2 !! Py.path_join processed_dir "covid_data_by_country.csv"
       = Some (Csv (CountryFrame country))
    /\ files run.2 !! Py.path_join processed_dir "transformation_metadata.txt"
       = Some (TransformationMetadata (now all_downloads_succeed)
                                      records countries range)
    /\ records = length full
    /\ countries = length (remove_dups (map c_country country))
    /\ match range with
       | None => full = []
       | Some (lo, hi) =>
           lo ∈ map o_date full /\ hi ∈ map o_date full
           /\ Forall (fun o => ~ lexico (o_date o) lo /\ ~ lexico hi (o_date o)) full
       end.
Proof.
  intros run.
  apply (transformation_metadata_agrees all_downloads_succeed
           (Some Main.dag_CONFIG) three_raw_files).
  vm_compute. reflexivity.
Defined.

(** The metadata of the sample: six Observations, two countries, and the
    three dates from the first to the last. *)
Example sample_metadata :
  files (transform_data all_downloads_succeed (Some Main.dag_CONFIG)
                        three_raw_files).2
    !! "/opt/airflow/data/processed/transformation_metadata.txt"
  = Some (TransformationMetadata "2026-01-01T00:00:00" 6 2
            (Some (Date 2020 1 22, Date 2020 1 24))).
Proof. vm_compute. reflexivity. Qed.

End MetadataBehaviour.

Module ExtractBehaviour.
Import Frame World Extract Notions Measures Samples Cases.
Import StageFacts ExtractFacts ExtractRuns.

(** X12.  With a raw directory configured, [extract_data] never raises,
    whatever the hosts answer: it returns [None], leaves the store alone,
    changes no file but the three raw files and its metadata file, and
    writes into the metadata file the number of responses that were not
    empty and could be read as a table, out of 3. *)
Theorem extract_data_counts e config cfg raw_dir w :
  config_or_import e config = Some cfg ->
  cfg !! "raw_data_path" = Some raw_dir ->
  let run := extract_data e config w in
  run.1 = Py.Ok Py.PyNone
  /\ db run.2 = db w
  /\ log_grows w run.2
  /\ wrote_only (raw_paths raw_dir) w run.2
  /\ files run.2 !! Py.path_join raw_dir "extraction_metadata.txt"
     = Some (ExtractionMetadata (now e)
               (length (filter (fun item => counted e item = true) URLS)) 3).
Proof.
  intros Hcfg Hraw run. subst run.
  destruct (extract_data_run e config cfg raw_dir w Hcfg Hraw)
    as (n1 & n2 & n3 & w1 & w2 & w3 & Hd1 & Hd2 & Hd3 & ->).
  destruct (download_result e raw_dir 0 (URLS !!! 0%nat) w) as (m1 & Hr1 & _).
  rewrite Hd1 in Hr1. injection Hr1 as Hn1 Hw1.
  destruct (download_result e raw_dir n1 (URLS !!! 1%nat) w1) as (m2 & Hr2 & _).
  rewrite Hd2 in Hr2. injection Hr2 as Hn2 Hw2.
  destruct (download_result e raw_dir n2 (URLS !!! 2%nat) w2) as (m3 & Hr3 & _).
  rewrite Hd3 in Hr3. injection Hr3 as Hn3 Hw3.
  clear Hd1 Hd2 Hd3. subst w3 w2 w1 n3 n2 n1. cbn [fst snd files db logged].
  split; [done|]. split; [done|]. split; [|split].
  - exists (m1 ++ m2 ++ m3)%list. by rewrite <- !app_assoc.
  - intros p Hp. unfold raw_paths, URLS in Hp. cbn [map app fst] in Hp.
    repeat (apply not_elem_of_cons in Hp as [? Hp]).
    unfold URLS. cbn [lookup_total list_lookup_total fst snd files].
    rewrite lookup_insert_ne by done.
    by rewrite !lookup_written_ne.
  - rewrite lookup_insert_eq. do 2 f_equal.
    exact (length_filter_counted e URLS 0).
Qed.

Lemma extract_data_counts_witness :
  (extract_data all_downloads_succeed (Some Main.dag_CONFIG) empty_world).1
  = Py.Ok Py.PyNone.
Proof.
  exact (proj1 (extract_data_counts all_downloads_succeed (Some Main.dag_CONFIG)
                  Main.dag_CONFIG "/opt/airflow/data/raw" empty_world
                  eq_refl eq_refl)).
Defined.

(** X13.  A category whose request fails keeps the raw file it had: the
    file of an earlier run is neither removed nor emptied, and the failure
    is logged as an HTTP error. *)
Theorem failed_download_keeps_old_file e config cfg raw_dir w item :
  config_or_import e config = Some cfg ->
  cfg !! "raw_data_path" = Some raw_dir ->
  item ∈ URLS ->
  requests_get e item.2 = None ->
  let run := extract_data e config w in
  files run.2 !! Py.path_join raw_dir (item.1 ++ ".csv")
  = files w !! Py.path_join raw_dir (item.1 ++ ".csv")
  /\ ERROR_exn ("HTTP error downloading " ++ item.1 ++ " data") Py.RequestException
       ∈ logged run.2.
Proof.
  intros Hcfg Hraw Hitem Hget run. subst run.
  destruct (extract_data_run e config cfg raw_dir w Hcfg Hraw)
    as (n1 & n2 & n3 & w1 & w2 & w3 & Hd1 & Hd2 & Hd3 & ->).
  destruct (download_result e raw_dir 0 (URLS !!! 0%nat) w) as (m1 & Hr1 & Hm1 & _).
  rewrite Hd1 in Hr1. injection Hr1 as _ Hw1.
  destruct (download_result e raw_dir n1 (URLS !!! 1%nat) w1) as (m2 & Hr2 & Hm2 & _).
  rewrite Hd2 in Hr2. injection Hr2 as _ Hw2.
  destruct (download_result e raw_dir n2 (URLS !!! 2%nat) w2) as (m3 & Hr3 & Hm3 & _).
  rewrite Hd3 in Hr3. injection Hr3 as _ Hw3.
  clear Hd1 Hd2 Hd3. subst w3 w2 w1. cbn [fst snd files db logged].
  revert Hitem Hget Hm1 Hm2 Hm3. unfold URLS.
  cbn [lookup_total list_lookup_total fst snd].
  intros Hitem Hget Hm1 Hm2 Hm3.
  apply list_elem_of_In in Hitem. simpl in Hitem.
  destruct Hitem as [<-|[<-|[<-|[]]]]; cbn [fst snd] in *.
  - split.
    + rewrite lookup_insert_ne by different_paths.
      rewrite !lookup_written_ne by different_paths. by rewrite Hget.
    + rewrite (Hm1 Hget). rewrite !elem_of_app. left. left. right. left.
  - split.
    + rewrite lookup_insert_ne by different_paths.
      rewrite lookup_written_ne by different_paths. rewrite Hget.
      by rewrite lookup_written_ne by different_paths.
    + rewrite (Hm2 Hget). rewrite !elem_of_app. left. right. left.
  - split.
    + rewrite lookup_insert_ne by different_paths. rewrite Hget.
      by rewrite !lookup_written_ne by different_paths.
    + rewrite (Hm3 Hget). rewrite !elem_of_app. right. left.
Qed.

Lemma failed_download_keeps_old_file_witness :
  let item := URLS !!! 1%nat in
  let run := extract_data hosts_down (Some Main.dag_CONFIG) three_raw_files in
  files run.2 !! Py.path_join "/opt/airflow/data/raw" (item.1 ++ ".csv")
  = files three_raw_files !! Py.path_join "/opt/airflow/data/raw" (item.1 ++ ".csv")
  /\ ERROR_exn ("HTTP error downloading " ++ item.1 ++ " data") Py.RequestException
       ∈ logged run.2.
Proof.
  exact (failed_download_keeps_old_file hosts_down (Some Main.dag_CONFIG)
           Main.dag_CONFIG "/opt/airflow/data/raw" three_raw_files
           (URLS !!! 1%nat) eq_refl eq_refl
           (list_elem_of_further _ _ _ (list_elem_of_here _ _)) eq_refl).
Defined.

End ExtractBehaviour.

Module LoadBehaviour.
Import Frame World Load Notions Measures Samples Cases.
Import StageFacts LoadFacts LoadRuns.

(** X14.  However [load_data] ends, it has changed no file and only
    added to the log.  It returns [False] only when no configuration was
    passed and none could be imported, and then the store is untouched.
    When it returns [True] its connection is closed and the last request
    the store carried out is the commit.  When it raises and the rollback
    goes through, the exception is an [AirflowException] and the
    connection is closed. *)
Theorem load_data_outcome e config w :
  let run := load_data e config w in
  files run.2 = files w
  /\ log_grows w run.2
  /\ (run.1 = Py.Ok false -> config_or_import e config = None /\ db run.2 = db w)
  /\ (run.1 = Py.Ok true ->
      conn (db run.2) = None /\ last (history (db run.2)) = Some Commit)
  /\ (forall ex, run.1 = Py.Raise ex -> fails e Rollback = false ->
        (exists cause, ex = Py.AirflowException cause) /\ conn (db run.2) = None).
Proof.
  intros run.
  assert (quiet w run.2) as [Hfiles Hlog].
  { apply (load_data_quiet e config w run.1). subst run.
    by destruct (load_data e config w). }
  split; [done|]. split; [done|].
  subst run. clear Hfiles Hlog. unfold load_data.
  destruct (config_or_import e config) as [cfg|] eqn:Hcfg.
  2: { simpl. repeat split; try done. }
  unfold try_except.
  match goal with
  | |- context [match ?body w with _ => _ end] =>
      destruct (body w) as [[b|exb] wb] eqn:Hbody
  end.
  - simpl.
    do 10 (apply bind_Ok in Hbody as (? & ? & _ & Hbody)).
    apply bind_Ok in Hbody as ([] & wk & Hcommit & Hbody).
    apply bind_Ok in Hbody as ([] & wz & Hclose & Hbody).
    injection Hbody as <- <-. injection Hclose as <-.
    apply conn_commit_Ok in Hcommit as [_ Hdb].
    split; [done|]. split; [|done].
    intros _. simpl. split; [done|]. rewrite Hdb. simpl. apply last_snoc.
  - split; [|split].
    + intros Hrun. exfalso. revert Hrun.
      unfold mbind, M_bind, logger, modify, gets. simpl.
      destruct (bool_decide _); [|done].
      destruct (conn_rollback e _) as [[[]|?] ?]; done.
    + intros Hrun. exfalso. revert Hrun.
      unfold mbind, M_bind, logger, modify, gets. simpl.
      destruct (bool_decide _); [|done].
      destruct (conn_rollback e _) as [[[]|?] ?]; done.
    + intros ex Hrun Hrollback. revert Hrun.
      unfold mbind, M_bind, logger, modify, gets, conn_rollback, conn_close,
        request, update_db, modify, raise, mret, M_ret.
      simpl. rewrite Hrollback.
      destruct (conn (db wb)) as [created|] eqn:Hconn; simpl.
      * intros [= <-]. split; [by eexists|done].
      * intros [= <-]. split; [by eexists|done].
Qed.

(** X15.  A configuration without a key meets three different ends.
    Without ['raw_data_path'], [extract_data] raises the [KeyError] and
    [transform_data] returns [False]; without ['postgres_conn_id'],
    [load_data] raises an [AirflowException] before any request reaches the
    store.  In each case nothing changes but the log. *)
Theorem missing_config_key e config cfg w :
  config_or_import e config = Some cfg ->
  (cfg !! "raw_data_path" = None ->
   Extract.extract_data e config w = (Py.Raise (Py.KeyError "raw_data_path"), w)
   /\ Transform.transform_data e config w
      = (Py.Ok false,
         World (files w) (db w)
               (logged w ++ [ERROR_exn "Error during data transformation"
                                       (Py.KeyError "raw_data_path")])))
  /\ (forall processed_dir,
        cfg !! "processed_data_path" = Some processed_dir ->
        cfg !! "postgres_conn_id" = None ->
        conn (db w) = None ->
        load_data e config w
        = (Py.Raise (Py.AirflowException (Py.KeyError "postgres_conn_id")),
           World (files w) (db w)
                 (logged w ++ [ERROR_exn "Error during data loading"
                                         (Py.KeyError "postgres_conn_id")]))).
Proof.
  intros Hcfg. split.
  - intros Hraw. split.
    + unfold Extract.extract_data. rewrite Hcfg. unfold getitem. by rewrite Hraw.
    + unfold Transform.transform_data, try_except. rewrite Hcfg.
      unfold getitem. by rewrite Hraw.
  - intros processed_dir Hproc Hconn Hclosed.
    unfold load_data, try_except. rewrite Hcfg. unfold getitem.
    rewrite Hproc, Hconn.
    unfold mbind, M_bind, logger, modify, gets, raise, mret, M_ret. simpl.
    by rewrite Hclosed.
Qed.

(** A call without a configuration that imports the one of the package,
    which has no ['postgres_conn_id']. *)
Lemma missing_config_key_witness :
  load_data hosts_down None empty_world
  = (Py.Raise (Py.AirflowException (Py.KeyError "postgres_conn_id")),
     World (files empty_world) (db empty_world)
           (logged empty_world
            ++ [ERROR_exn "Error during data loading"
                          (Py.KeyError "postgres_conn_id")])).
Proof.
  exact (proj2 (missing_config_key hosts_down None Main.scripts_package_CONFIG
                  empty_world eq_refl)
           "/opt/airflow/data/processed" eq_refl eq_refl eq_refl).
Defined.

(** X16.  When [load_data] returns [True], the three destination tables
    exist, the three analytical views exist on their tables, and the five
    indexes exist, whether or not every processed file was there. *)
Theorem successful_load_objects e config w w' :
  load_data e config w = (Py.Ok true, w') ->
  Forall (fun item => is_Some (tables (db w') !! item.2)) files_to_load
  /\ Forall (fun view => views (db w') !! view.1 = Some view.2) analytical_views
  /\ Forall (fun index => is_Some (indexes (db w') !! index)) index_names.
Proof.
  intros Hrun.
  destruct (load_data_true_config e config w w' Hrun)
    as (cfg & processed_dir & Hcfg & Hproc).
  destruct (load_data_Ok e config cfg processed_dir w w' Hcfg Hproc Hrun)
    as (w1 & rows_loaded & w2 & _ & _ & Hafter).
  unfold after_loop in Hafter.
  apply bind_Ok in Hafter as ([] & wv & Hviews & Hafter).
  apply bind_Ok in Hafter as ([] & wi & Hindexes & Hafter).
  pose proof (after_indexes_settled e rows_loaded wi _ _ Hafter) as (Ht & Hv & Hi).
  apply create_analytical_views_Ok in Hviews as (Htv & _ & Hvv).
  apply create_indexes_Ok in Hindexes as (Hti & Hvi & Hfull & Hii).
  split; [|split].
  - unfold files_to_load. unfold analytical_views in Hvv.
    apply Forall_cons in Hvv as [[Hsummary _] Hvv].
    apply Forall_cons in Hvv as [_ Hvv].
    apply Forall_cons in Hvv as [[Hdaily _] _]. simpl in Hsummary, Hdaily.
    rewrite <- Hti in Hsummary, Hdaily.
    repeat constructor; simpl; by apply Ht.
  - rewrite Hv, Hvi. eapply Forall_impl; [exact Hvv|]. by intros view [_ ?].
  - by rewrite Hi.
Qed.

Lemma successful_load_objects_witness :
  let run := load_data all_downloads_succeed (Some Main.dag_CONFIG)
                       no_daily_changes_file in
  Forall (fun item => is_Some (tables (db run.2) !! item.2)) files_to_load
  /\ Forall (fun view => views (db run.2) !! view.1 = Some view.2) analytical_views
  /\ Forall (fun index => is_Some (indexes (db run.2) !! index)) index_names.
Proof.
  intros run.
  apply (successful_load_objects all_downloads_succeed (Some Main.dag_CONFIG)
           no_daily_changes_file run.2).
  apply run_returned. vm_compute. reflexivity.
Defined.

(** X17.  A load that returns [True], with the audit table in the store
    and the query for it answered, has appended one row to the audit table:
    operation [load], the time of the run, and as rows loaded the number of
    rows of the processed files that were there. *)
Theorem load_audit_row e config w w' rows :
  load_data e config w = (Py.Ok true, w') ->
  etl_metadata (db w) = Some rows ->
  fails e (TableExists "etl_metadata") = false ->
  exists cfg processed_dir,
    config_or_import e config = Some cfg
    /\ cfg !! "processed_data_path" = Some processed_dir
    /\ etl_metadata (db w')
       = Some (rows ++ [AuditRow "load" (now e)
                                 (rows_on_disk processed_dir (files w))])%list.
Proof.
  intros Hrun Haudit Hquery.
  destruct (load_data_true_config e config w w' Hrun)
    as (cfg & processed_dir & Hcfg & Hproc).
  exists cfg, processed_dir. do 2 (split; [done|]).
  destruct (load_data_Ok e config cfg processed_dir w w' Hcfg Hproc Hrun)
    as (w1 & rows_loaded & w2 & Hbefore & Hloop & Hafter).
  pose proof (before_loop_audit e _ _ _ Hbefore) as Ha1.
  destruct (before_loop_quiet e _ _ _ Hbefore) as [Hf1 _].
  pose proof (respects_for_each (store_rel audit_kept) _ _
                (fun acc item _ => load_file_audit e processed_dir acc item)
                _ _ _ _ Hloop) as Ha2.
  apply for_each_load_file_counts in Hloop. rewrite Hf1 in Hloop. subst rows_loaded.
  unfold after_loop in Hafter.
  apply bind_Ok in Hafter as ([] & wv & Hviews & Hafter).
  apply bind_Ok in Hafter as ([] & wi & Hindexes & Hafter).
  pose proof (create_analytical_views_audit e _ _ _ Hviews) as Ha3.
  pose proof (create_indexes_audit e _ _ _ Hindexes) as Ha4.
  assert (etl_metadata (db wi) = Some rows) as Hrows.
  { unfold store_rel, audit_kept in *. congruence. }
  clear Ha1 Ha2 Ha3 Ha4 Hviews Hindexes Hbefore.
  apply bind_Ok in Hafter as (present & wc & Hcheck & Hafter).
  unfold check_if_table_exists, try_except, request in Hcheck.
  rewrite Hquery in Hcheck.
  unfold mbind, M_bind, update_db, modify, gets, committed in Hcheck.
  simpl in Hcheck. rewrite Hrows in Hcheck. simpl in Hcheck.
  injection Hcheck as <- <-.
  apply bind_Ok in Hafter as ([] & wm & Hinsert & Hafter).
  apply bind_Ok in Hafter as ([] & wk & Hcommit & Hafter).
  apply bind_Ok in Hafter as ([] & wz & Hclose & Hafter).
  injection Hafter as <-. injection Hclose as <-.
  apply conn_commit_Ok in Hcommit as [_ Hdb]. simpl. rewrite Hdb. simpl.
  apply foldl_commit_table_audit.
  unfold insert_metadata in Hinsert.
  apply bind_Ok in Hinsert as ([] & wr & Hreq & Hinsert).
  apply request_Ok in Hreq as [_ ->].
  apply bind_Ok in Hinsert as (found & wg & Hgets & Hinsert).
  injection Hgets as <- <-. simpl in Hinsert.
  by injection Hinsert as <-.
Qed.

Lemma load_audit_row_witness :
  let run := load_data all_downloads_succeed (Some Main.dag_CONFIG)
                       no_daily_changes_file in
  exists cfg processed_dir,
    config_or_import all_downloads_succeed (Some Main.dag_CONFIG) = Some cfg
    /\ cfg !! "processed_data_path" = Some processed_dir
    /\ etl_metadata (db run.2)
       = Some ([] ++ [AuditRow "load" (now all_downloads_succeed)
                               (rows_on_disk processed_dir
                                             (files no_daily_changes_file))])%list.
Proof.
  intros run.
  apply (load_audit_row all_downloads_succeed (Some Main.dag_CONFIG)
           no_daily_changes_file run.2 []).
  - apply run_returned. vm_compute. reflexivity.
  - reflexivity.
  - reflexivity.
Defined.

End LoadBehaviour.

Module LoadFailureBehaviour.
Import Frame World Load Notions Measures Raising Samples Cases.
Import StageFacts LoadFacts LoadRuns RollbackFacts.

(** X18.  When [load_data] raises, the table of a processed file that is
    missing is as it was before the run: nothing dropped or reloaded it, and
    a table the schema step created for it inside the open transaction is
    not in the store. *)
Theorem failed_load_keeps_unloaded_table e config cfg processed_dir w item ex w' :
  config_or_import e config = Some cfg ->
  cfg !! "processed_data_path" = Some processed_dir ->
  item ∈ files_to_load ->
  files w !! Py.path_join processed_dir item.1 = None ->
  load_data e config w = (Py.Raise ex, w') ->
  tables (db w') !! item.2 = tables (db w) !! item.2.
Proof.
  intros Hcfg Hproc Hitem Hmissing Hrun.
  set (R := untouched (Py.path_join processed_dir item.1) item.2).
  destruct (rest_untouched (Py.path_join processed_dir item.1) item.2 e)
    as (Hhandler & Hviews & Hindexes & Hcheck & Hinsert).
  assert (raising R (load_data e config)) as Hraising.
  { unfold load_data. rewrite Hcfg. apply (raising_try_except R); [|exact Hhandler].
    unfold getitem. rewrite Hproc.
    match goal with
    | |- raising _ (mret _ ≫= ?k) => change (raising R (k processed_dir))
    end.
    cbv beta.
    apply (raising_bind R).
    { destruct (cfg !! "postgres_conn_id");
        [apply (respects_ret R)|apply (respects_raise R)]. }
    intros conn_id.
    apply (raising_bind R); [unfold get_conn; untouched_steps|]. intros _.
    apply (raising_bind R);
      [unfold create_database_schema, create_table_if_not_exists; untouched_steps|].
    intros _.
    apply (raising_bind R); [apply request_untouched|]. intros _.
    apply (raising_bind R).
    { apply (respects_for_each R). intros acc other Hother.
      by apply load_file_untouched. }
    intros rows_loaded.
    apply (raising_bind R); [exact Hviews|]. intros _.
    apply (raising_bind R); [exact Hindexes|]. intros _.
    apply (raising_bind R); [exact Hcheck|]. intros present.
    apply (raising_bind R);
      [destruct present; [apply Hinsert|apply logger_untouched]|].
    intros _. apply (raising_commit R). }
  by apply (Hraising w ex w' Hrun Hmissing).
Qed.

Lemma failed_load_keeps_unloaded_table_witness :
  let run := load_data store_fails_second_reload (Some Main.dag_CONFIG)
                       no_daily_changes_file in
  tables (db run.2) !! "daily_changes"
  = tables (db no_daily_changes_file) !! "daily_changes".
Proof.
  intros run.
  apply (failed_load_keeps_unloaded_table store_fails_second_reload
           (Some Main.dag_CONFIG) Main.dag_CONFIG "/opt/airflow/data/processed"
           no_daily_changes_file ("covid_daily_changes.csv", "daily_changes")
           (Py.AirflowException (Py.OperationalError "the store failed the request"))
           run.2).
  - reflexivity.
  - reflexivity.
  - right. right. left.
  - reflexivity.
  - vm_compute. reflexivity.
Defined.

(** A store without the daily-changes table, no daily-changes file, and
    a failure while the second table is reloaded: the table the schema step
    had created is not there afterwards. *)
Example rolled_back_schema :
  let w := World (files no_daily_changes_file)
                 (Database {[ "full_data" := FullFrame earlier_obs;
                              "country_summary" := CountryFrame [] ]}
                           (Some []) ∅ ∅ None []) [] in
  let run := load_data store_fails_second_reload (Some Main.dag_CONFIG) w in
  run.1 = Py.Raise (Py.AirflowException
                      (Py.OperationalError "the store failed the request"))
  /\ CreateTableIfNotExists "daily_changes" ∈ history (db run.2)
  /\ tables (db run.2) !! "daily_changes" = None.
Proof. vm_compute. repeat split. set_solver. Qed.

(** X19.  When the query for the audit table fails, a load that returns
    [True] has logged the failure and the warning that the insertion is
    skipped, and an audit table that was in the store has the rows it had:
    the run goes unrecorded. *)
Theorem failed_query_skips_audit e config w w' :
  load_data e config w = (Py.Ok true, w') ->
  fails e (TableExists "etl_metadata") = true ->
  ERROR_exn "Error checking if table etl_metadata exists"
            (Py.OperationalError "the store failed the request") ∈ logged w'
  /\ WARNING "etl_metadata table does not exist. Skipping metadata insertion."
       ∈ logged w'
  /\ forall rows, etl_metadata (db w) = Some rows -> etl_metadata (db w') = Some rows.
Proof.
  intros Hrun Hquery.
  destruct (load_data_true_config e config w w' Hrun)
    as (cfg & processed_dir & Hcfg & Hproc).
  destruct (load_data_Ok e config cfg processed_dir w w' Hcfg Hproc Hrun)
    as (w1 & rows_loaded & w2 & Hbefore & Hloop & Hafter).
  pose proof (before_loop_audit e _ _ _ Hbefore) as Ha1.
  pose proof (respects_for_each (store_rel audit_kept) _ _
                (fun acc item _ => load_file_audit e processed_dir acc item)
                _ _ _ _ Hloop) as Ha2.
  unfold after_loop in Hafter.
  apply bind_Ok in Hafter as ([] & wv & Hviews & Hafter).
  apply bind_Ok in Hafter as ([] & wi & Hindexes & Hafter).
  pose proof (create_analytical_views_audit e _ _ _ Hviews) as Ha3.
  pose proof (create_indexes_audit e _ _ _ Hindexes) as Ha4.
  assert (etl_metadata (db wi) = etl_metadata (db w)) as Hrows.
  { unfold store_rel, audit_kept in *. congruence. }
  clear Ha1 Ha2 Ha3 Ha4 Hviews Hindexes Hbefore Hloop.
  apply bind_Ok in Hafter as (present & wc & Hcheck & Hafter).
  unfold check_if_table_exists, try_except, request in Hcheck.
  rewrite Hquery in Hcheck.
  unfold mbind, M_bind, raise, logger, modify, mret, M_ret in Hcheck.
  simpl in Hcheck. injection Hcheck as <- <-.
  apply bind_Ok in Hafter as ([] & wm & Hwarn & Hafter).
  injection Hwarn as <-.
  apply bind_Ok in Hafter as ([] & wk & Hcommit & Hafter).
  apply bind_Ok in Hafter as ([] & wz & Hclose & Hafter).
  injection Hafter as <-. injection Hclose as <-.
  destruct (conn_commit_quiet e _ _ _ Hcommit) as [_ Hlog].
  apply conn_commit_Ok in Hcommit as [_ Hdb]. simpl.
  split; [|split].
  - eapply log_grows_elem; [exact Hlog|]. simpl.
    rewrite !elem_of_app. left. right. left.
  - eapply log_grows_elem; [exact Hlog|]. simpl.
    rewrite !elem_of_app. right. left.
  - intros rows Haudit. rewrite Hdb. simpl.
    apply foldl_commit_table_audit. simpl. congruence.
Qed.

Lemma failed_query_skips_audit_witness :
  let run := load_data query_fails (Some Main.dag_CONFIG) three_processed_files in
  ERROR_exn "Error checking if table etl_metadata exists"
            (Py.OperationalError "the store failed the request") ∈ logged run.2
  /\ WARNING "etl_metadata table does not exist. Skipping metadata insertion."
       ∈ logged run.2
  /\ forall rows, etl_metadata (db three_processed_files) = Some rows ->
                  etl_metadata (db run.2) = Some rows.
Proof.
  intros run.
  apply (failed_query_skips_audit query_fails (Some Main.dag_CONFIG)
           three_processed_files run.2).
  - apply run_returned. vm_compute. reflexivity.
  - reflexivity.
Defined.

End LoadFailureBehaviour.

Module DagBehaviour.
Import Frame World Notions Measures Samples Cases Dag.
Import StageFacts TransformStageFacts ExtractFacts.

(** X20.  In a run of the DAG the extract task and the transform task
    end in success at their first try, whatever they return: no download
    that failed and no transformation that returned [False] keeps the load
    task from running.  The load task starts from the world the first calls
    of [extract_data] and [transform_data] left. *)
Theorem dag_run_reaches_load (surroundings : string -> nat -> env) (w : world) :
  let extracted :=
    Extract.extract_data (surroundings "extract_covid_data" 1%nat)
                         (Some Main.dag_CONFIG) w in
  let transformed :=
    Transform.transform_data (surroundings "transform_covid_data" 1%nat)
                             (Some Main.dag_CONFIG) extracted.2 in
  let loaded :=
    python_operator (fun e => Load.load_data e (Some Main.dag_CONFIG))
                    (surroundings "load_covid_data") 1 retries transformed.2 in
  dag_run surroundings w = (DagStates success success loaded.1, loaded.2)
  /\ loaded.1 <> upstream_failed.
Proof.
  intros extracted transformed loaded.
  assert (extracted = (Py.Ok Py.PyNone, extracted.2)) as Hextract.
  { subst extracted.
    destruct (extract_data_run (surroundings "extract_covid_data" 1%nat)
                (Some Main.dag_CONFIG) Main.dag_CONFIG "/opt/airflow/data/raw" w
                eq_refl eq_refl)
      as (n1 & n2 & n3 & w1 & w2 & w3 & _ & _ & _ & ->).
    reflexivity. }
  assert (exists b, transformed = (Py.Ok b, transformed.2)) as [b Htransform].
  { subst transformed.
    destruct (transform_data_cases (surroundings "transform_covid_data" 1%nat)
                (Some Main.dag_CONFIG) extracted.2) as [(Hr & _)|Htrue].
    - exists false. by apply run_returned.
    - destruct Htrue as (? & ? & ? & ? & ? & ? & ? & ? & _ & _ & _ & _ & _ & Hr & _).
      exists true. by apply run_returned. }
  split.
  - unfold dag_run. unfold retries at 1 2. cbn [python_operator].
    fold extracted. rewrite Hextract. cbn [downstream fst snd].
    fold transformed. rewrite Htransform. cbn [downstream fst snd].
    fold loaded. by destruct loaded.
  - subst loaded. unfold retries. cbn [python_operator].
    destruct (Load.load_data _ _ _) as [[?|?] ?]; [done|].
    destruct (Load.load_data _ _ _) as [[?|?] ?]; done.
Qed.

(** A run in which no host answers and the raw directory is empty: the
    transformation returns [False], all three tasks end in success, and the
    load has reloaded the tables from the processed files of an earlier
    run. *)
Example dag_run_after_failed_transform :
  let w := World (files three_processed_files) earlier_generation [] in
  let run := dag_run (fun _ _ => hosts_down) w in
  (Transform.transform_data hosts_down (Some Main.dag_CONFIG)
     (Extract.extract_data hosts_down (Some Main.dag_CONFIG) w).2).1
  = Py.Ok false
  /\ run.1 = DagStates success success success
  /\ tables (db run.2) !! "full_data" = Some (FullFrame sample_obs)
  /\ length <$> etl_metadata (db run.2) = Some 1%nat.
Proof. vm_compute. done. Qed.

End DagBehaviour.
